(** * GeoAlchemy2 spatial elements and the raster decoder

    A shallow embedding of [geoalchemy2/elements.py] (the classes
    [_SpatialElement], [WKTElement], [WKBElement], [RasterElement]) and of the
    raster decoder of [tests/gallery/test_decipher_raster.py] ([wkbHeader],
    [read_band], [wkbImage]), together with the Python built-ins they call
    ([binascii], [struct], [int], [str] methods, slicing).

    Conventions.
    - A Python [int] is a [Z]; [bytes] and [memoryview] are lists of
      [Byte.byte]; a [str] is a list of characters with code points below 256.
    - A computation that may raise returns a [result]; exceptions are values
      of [exn] carrying the message text (CPython 3.11 wording for the
      library exceptions).
    - Floating point samples and header coefficients are kept as their IEEE
      bit patterns; no claim depends on their numeric value. *)

From Stdlib Require Import ZArith Ascii String Bool Lia List.
From Stdlib.Strings Require Import Byte.
Import ListNotations.
Open Scope Z_scope.

(** ** Python values *)

Definition str := list ascii.
Definition bytes := list byte.

Definition lit (s : string) : str := list_ascii_of_string s.

Definition len {A : Type} (l : list A) : Z := Z.of_nat (length l).

Definition ord (c : ascii) : Z := Z.of_N (N_of_ascii c).

Inductive exn : Type :=
| ValueError (msg : str)
| BinasciiError (msg : str)
| StructError (msg : str)
| IndexError (msg : str)
| OverflowError (msg : str)
| ArgumentError (msg : str)
| AttributeError
| OtherError (cls : str) (msg : str).

Inductive result (A : Type) : Type :=
| Ok (a : A)
| Raise (e : exn).

Arguments Ok {A} a.
Arguments Raise {A} e.

Definition bind {A B : Type} (r : result A) (k : A -> result B) : result B :=
  match r with
  | Ok a => k a
  | Raise e => Raise e
  end.

Notation "x <- c ;; k" := (bind c (fun x => k))
  (at level 61, c at next level, right associativity).

(** [binascii.Error] is a subclass of [ValueError]: an [except ValueError]
    clause catches both. *)
Definition is_ValueError (e : exn) : option str :=
  match e with
  | ValueError m => Some m
  | BinasciiError m => Some m
  | _ => None
  end.

(** Slices [l[lo:hi]], [l[lo:]] and [l[:hi]].  Every slice bound in the
    embedded code is non-negative, so Python's counting from the end for
    negative bounds is not modelled. *)
Definition slice {A : Type} (lo hi : Z) (l : list A) : list A :=
  firstn (Z.to_nat (hi - lo)) (skipn (Z.to_nat lo) l).

Definition slice_from {A : Type} (lo : Z) (l : list A) : list A :=
  skipn (Z.to_nat lo) l.

Definition slice_to {A : Type} (hi : Z) (l : list A) : list A :=
  firstn (Z.to_nat hi) l.

(** [range(n)] *)
Definition range (n : Z) : list Z := map Z.of_nat (seq 0 (Z.to_nat n)).

Fixpoint mapM {A B : Type} (f : A -> result B) (l : list A) : result (list B) :=
  match l with
  | [] => Ok []
  | x :: r => y <- f x ;; ys <- mapM f r ;; Ok (y :: ys)
  end.

(** ** [str] methods *)

(** [str.lower()] on code points below 256: the ASCII capitals and the
    Latin-1 capitals (192..214, 216..222) move up by 32. *)
Definition lower_char (c : ascii) : ascii :=
  let n := ord c in
  if ((65 <=? n) && (n <=? 90)) || ((192 <=? n) && (n <=? 214))
     || ((216 <=? n) && (n <=? 222))
  then ascii_of_N (Z.to_N (n + 32)) else c.

Definition lower (s : str) : str := map lower_char s.

Fixpoint startswith (p s : str) : bool :=
  match p, s with
  | [], _ => true
  | a :: p', b :: s' => Ascii.eqb a b && startswith p' s'
  | _ :: _, [] => false
  end.

(** [s.split(sep)] for a one-character separator. *)
Fixpoint split (sep : ascii) (s : str) : list str :=
  match s with
  | [] => [[]]
  | c :: r =>
      if Ascii.eqb c sep then [] :: split sep r
      else match split sep r with
           | p :: ps => (c :: p) :: ps
           | [] => [[c]]
           end
  end.

Definition is_digit (c : ascii) : bool := (48 <=? ord c) && (ord c <=? 57).

Definition digit_char (d : Z) : ascii := ascii_of_N (Z.to_N (48 + d)).

(** The decimal digits of an [int], most significant first, with a leading
    minus sign for a negative number: the text of [str(n)] whenever [str(n)]
    returns (see [py_str] for the limit on the number of digits). *)
Fixpoint digits_from (fuel : nat) (n : Z) (acc : str) : str :=
  match fuel with
  | O => acc
  | S f =>
      let acc' := digit_char (n mod 10) :: acc in
      if n <? 10 then acc' else digits_from f (n / 10) acc'
  end.

Definition str_of_nonneg (n : Z) : str :=
  digits_from (S (Z.to_nat (Z.log2 n))) n [].

Definition str_of_int (n : Z) : str :=
  if n <? 0 then "-"%char :: str_of_nonneg (- n) else str_of_nonneg n.

(** [sys.get_int_max_str_digits()]: CPython 3.11 converts no [int] of more
    decimal digits to or from text. *)
Definition int_max_str_digits : Z := 4300.

(** The number of decimal digits of [n], the sign left out. *)
Definition num_digits (n : Z) : Z := len (str_of_nonneg (Z.abs n)).

Definition str_limit_error : exn :=
  ValueError (lit "Exceeds the limit (4300 digits) for integer string conversion; use sys.set_int_max_str_digits() to increase the limit").

(** [str(n)], and [n] in an f-string or in [str.format]: a [ValueError] for
    an [int] of more than 4300 digits.  [as_ewkt] formats an SRID of any
    size and goes through [py_str].  The error messages of the embedded
    code format byte values, 16-bit fields, lengths, offsets and pixel type
    codes, taken to be below the limit, and are written with
    [str_of_int]. *)
Definition py_str (n : Z) : result str :=
  if int_max_str_digits <? num_digits n then Raise str_limit_error
  else Ok (str_of_int n).

(** [int(s)] in base 10, as CPython 3.11 reads a [str].  White space around
    the number is dropped, one sign is allowed, and single underscores may
    separate digits.  White space is 9..13 and 32, and, outside ASCII, 133
    and 160.  The digits and underscores after the sign are scanned first,
    and a number of more than 4300 digits is refused before what follows
    the digits is looked at. *)
Definition is_int_space (c : ascii) : bool :=
  let n := ord c in
  ((9 <=? n) && (n <=? 13)) || (n =? 32) || (n =? 133) || (n =? 160).

Fixpoint lstrip (s : str) : str :=
  match s with
  | c :: r => if is_int_space c then lstrip r else s
  | [] => []
  end.

(** The scan of the digits and underscores at the head of [cs]: the number
    read, the count of its digits and the characters that follow; [None]
    for two underscores in a row or an underscore at the end of the run. *)
Fixpoint int_digits (cs : str) (acc count : Z) (after_underscore : bool)
  : option (Z * Z * str) :=
  match cs with
  | [] => if after_underscore then None else Some (acc, count, [])
  | c :: r =>
      if is_digit c then int_digits r (10 * acc + (ord c - 48)) (count + 1) false
      else if Ascii.eqb c "_"%char
           then if after_underscore then None else int_digits r acc count true
           else if after_underscore then None else Some (acc, count, cs)
  end.

Definition int_literal_error (s : str) : exn :=
  ValueError (lit "invalid literal for int() with base 10: '" ++ s ++ lit "'").

Definition int_limit_error (digits : Z) : exn :=
  ValueError (lit "Exceeds the limit (4300 digits) for integer string conversion: value has "
                ++ str_of_int digits
                ++ lit " digits; use sys.set_int_max_str_digits() to increase the limit").

(** What [int] does with the scan: the limit on the digits comes first,
    then a number needs a digit, and only white space may follow it.  [s]
    is the whole argument, for the message. *)
Definition int_after_digits (s : str) (scanned : option (Z * Z * str))
  : result Z :=
  match scanned with
  | None => Raise (int_literal_error s)
  | Some (n, digits, rest) =>
      if int_max_str_digits <? digits then Raise (int_limit_error digits)
      else if digits =? 0 then Raise (int_literal_error s)
      else match lstrip rest with
           | [] => Ok n
           | _ :: _ => Raise (int_literal_error s)
           end
  end.

(** The number after the sign, which may not begin with an underscore. *)
Definition int_unsigned (s cs : str) : result Z :=
  match cs with
  | "_"%char :: _ => Raise (int_literal_error s)
  | _ => int_after_digits s (int_digits cs 0 0 false)
  end.

Definition py_int (s : str) : result Z :=
  match lstrip s with
  | "+"%char :: r => int_unsigned s r
  | "-"%char :: r => n <- int_unsigned s r ;; Ok (- n)
  | body => int_unsigned s body
  end.

(** ** [binascii] *)

Definition byte_to_Z (b : byte) : Z := Z.of_N (Byte.to_N b).

Definition Z_to_byte (z : Z) : byte :=
  match Byte.of_N (Z.to_N (z mod 256)) with
  | Some b => b
  | None => x00
  end.

Definition hexdigit (n : Z) : ascii :=
  nth (Z.to_nat n) (lit "0123456789abcdef") "0"%char.

Definition digit_value (c : ascii) : option Z :=
  let n := ord c in
  if (48 <=? n) && (n <=? 57) then Some (n - 48)
  else if (97 <=? n) && (n <=? 102) then Some (n - 87)
  else if (65 <=? n) && (n <=? 70) then Some (n - 55)
  else None.

Definition hexlify_byte (b : byte) : str :=
  [hexdigit (byte_to_Z b / 16); hexdigit (byte_to_Z b mod 16)].

(** [binascii.hexlify(data)], decoded to text: two lowercase digits a byte. *)
Definition hexlify (data : bytes) : str := flat_map hexlify_byte data.

Fixpoint unhex_pairs (cs : str) : option bytes :=
  match cs with
  | [] => Some []
  | [_] => None
  | c1 :: c2 :: r =>
      match digit_value c1, digit_value c2, unhex_pairs r with
      | Some v1, Some v2, Some bs => Some (Z_to_byte (16 * v1 + v2) :: bs)
      | _, _, _ => None
      end
  end.

(** [binascii.unhexlify(s)] for a [str] argument. *)
Definition unhexlify (s : str) : result bytes :=
  if existsb (fun c => 128 <=? ord c) s
  then Raise (ValueError (lit "string argument should contain only ASCII characters"))
  else if Nat.odd (length s)
  then Raise (BinasciiError (lit "Odd-length string"))
  else match unhex_pairs s with
       | Some bs => Ok bs
       | None => Raise (BinasciiError (lit "Non-hexadecimal digit found"))
       end.

(** ** [struct] and [int.to_bytes] *)

(** The byte order prefix of a format string: none (native), ["<"], [">"].
    The source uses the native order with one-byte formats only, where the
    order does not matter. *)
Inductive order : Type := Native | LittleEndian | BigEndian.

(** The format characters the source uses. *)
Inductive format_char : Type :=
| fmt_bool | fmt_b | fmt_B | fmt_h | fmt_H | fmt_i | fmt_I | fmt_f | fmt_d.

Definition calcsize (c : format_char) : Z :=
  match c with
  | fmt_bool | fmt_b | fmt_B => 1
  | fmt_h | fmt_H => 2
  | fmt_i | fmt_I | fmt_f => 4
  | fmt_d => 8
  end.

Fixpoint le_to_Z (bs : bytes) : Z :=
  match bs with
  | [] => 0
  | b :: r => byte_to_Z b + 256 * le_to_Z r
  end.

Fixpoint Z_to_le (n : nat) (z : Z) : bytes :=
  match n with
  | O => []
  | S k => Z_to_byte z :: Z_to_le k (z / 256)
  end.

Definition bytes_to_uint (o : order) (bs : bytes) : Z :=
  match o with
  | BigEndian => le_to_Z (rev bs)
  | _ => le_to_Z bs
  end.

Definition uint_to_bytes (o : order) (n : nat) (z : Z) : bytes :=
  match o with
  | BigEndian => rev (Z_to_le n z)
  | _ => Z_to_le n z
  end.

Definition to_signed (bits : Z) (u : Z) : Z :=
  if u <? 2 ^ (bits - 1) then u else u - 2 ^ bits.

(** A value produced by [struct.unpack]. *)
Inductive sample : Type :=
| SBool (b : bool)
| SInt (n : Z)
| SFloat32 (bits : Z)
| SFloat64 (bits : Z).

Definition unpack_value (o : order) (c : format_char) (bs : bytes) : sample :=
  let u := bytes_to_uint o bs in
  match c with
  | fmt_bool => SBool (negb (u =? 0))
  | fmt_b => SInt (to_signed 8 u)
  | fmt_B => SInt u
  | fmt_h => SInt (to_signed 16 u)
  | fmt_H => SInt u
  | fmt_i => SInt (to_signed 32 u)
  | fmt_I => SInt u
  | fmt_f => SFloat32 u
  | fmt_d => SFloat64 u
  end.

(** [struct.unpack(fmt, bs)[0]] for a one-field format. *)
Definition struct_unpack (o : order) (c : format_char) (bs : bytes)
  : result sample :=
  if len bs =? calcsize c then Ok (unpack_value o c bs)
  else Raise (StructError (lit "unpack requires a buffer of "
                             ++ str_of_int (calcsize c) ++ lit " bytes")).

(** The integer held by the result of an integer format. *)
Definition int_of_sample (v : sample) : Z :=
  match v with
  | SInt n => n
  | SBool b => if b then 1 else 0
  | SFloat32 _ | SFloat64 _ => 0
  end.

Definition unpack_int (o : order) (c : format_char) (bs : bytes) : result Z :=
  v <- struct_unpack o c bs ;; Ok (int_of_sample v).

(** [struct.pack("<I", n)] and [struct.pack(">I", n)]. *)
Definition struct_pack_I (o : order) (n : Z) : result bytes :=
  if n <? 0 then Raise (StructError (lit "argument out of range"))
  else if 4294967295 <? n
  then Raise (StructError (lit "'I' format requires 0 <= number <= 4294967295"))
  else Ok (uint_to_bytes o 4 n).

(** [n.to_bytes(4, "little")] and [n.to_bytes(4, "big")]. *)
Definition int_to_bytes4 (n : Z) (o : order) : result bytes :=
  if n <? 0 then Raise (OverflowError (lit "can't convert negative int to unsigned"))
  else if 4294967295 <? n then Raise (OverflowError (lit "int too big to convert"))
  else Ok (uint_to_bytes o 4 n).

(** ** Payloads *)

Inductive buffer_kind : Type := Bytes | Memoryview.

(** The [data] argument of the binary constructors: [str | bytes | memoryview]. *)
Inductive payload : Type :=
| PStr (s : str)
| PBuf (k : buffer_kind) (b : bytes).

(** [buf[0]]: the first byte as an [int]. *)
Definition index0 (k : buffer_kind) (buf : bytes) : result Z :=
  match buf with
  | b :: _ => Ok (byte_to_Z b)
  | [] =>
      Raise (IndexError (match k with
                         | Bytes => lit "index out of range"
                         | Memoryview => lit "index out of bounds on dimension 1"
                         end))
  end.

(** ** [elements.py]: [_SpatialElement] *)

(** The instance attributes set by [_SpatialElement.__init__]; [D] is the
    type of the wrapped data. *)
Record SpatialElement (D : Type) : Type := mkSpatialElement {
  srid : Z;
  data : D;
  extended : option bool
}.

Arguments mkSpatialElement {D} srid data extended.
Arguments srid {D} s.
Arguments data {D} s.
Arguments extended {D} s.

(** [_SpatialElement.__init__(self, data, srid, extended)] *)
Definition SpatialElement_init {D : Type} (data : D) (srid : Z)
    (extended : option bool) : SpatialElement D :=
  mkSpatialElement srid data extended.

(** Truth value of an [Optional[bool]]. *)
Definition truthy (extended : option bool) : bool :=
  match extended with
  | Some true => true
  | _ => false
  end.

(** ** [WKTElement] *)

Definition invalid_EWKT (data : str) : exn :=
  ArgumentError (lit "invalid EWKT string " ++ data).

Definition WKTElement (data : str) (srid : Z) (extended : option bool)
  : result (SpatialElement str) :=
  let extended :=
    match extended with
    | None => startswith (lit "SRID=") data
    | Some b => b
    end in
  if extended && (srid =? -1) then
    let data_s := split ";"%char data in
    if negb (len data_s =? 2) then Raise (invalid_EWKT data)
    else
      let header := hd [] data_s in
      match py_int (slice_from 5 header) with
      | Ok srid => Ok (SpatialElement_init data srid (Some extended))
      | Raise (ValueError _) => Raise (invalid_EWKT data)
      | Raise e => Raise e
      end
  else Ok (SpatialElement_init data srid (Some extended)).

Definition WKT_desc (self : SpatialElement str) : str := data self.

Fixpoint strip_prefix (p s : str) : option str :=
  match p, s with
  | [], _ => Some s
  | a :: p', b :: s' => if Ascii.eqb a b then strip_prefix p' s' else None
  | _ :: _, [] => None
  end.

Fixpoint span_digits (s : str) : str * str :=
  match s with
  | c :: r =>
      if is_digit c then let (ds, rest) := span_digits r in (c :: ds, rest)
      else ([], s)
  | [] => ([], [])
  end.

Fixpoint until_newline (s : str) : str :=
  match s with
  | c :: r => if Ascii.eqb c "010"%char then [] else c :: until_newline r
  | [] => []
  end.

(** [_REMOVE_SRID.match(data).group(3)].  The pattern has an optional first
    group, which takes [SRID=], one or more of the digits 0-9, a semicolon and
    at most one space, and a third group, which takes any characters up to
    the first line feed.  The match never fails. *)
Definition _REMOVE_SRID_group3 (data : str) : str :=
  let rest :=
    match strip_prefix (lit "SRID=") data with
    | Some r =>
        match span_digits r with
        | (_ :: _, ";"%char :: r') =>
            match r' with
            | " "%char :: r'' => r''
            | _ => r'
            end
        | _ => data
        end
    | None => data
    end in
  until_newline rest.

Definition as_wkt (self : SpatialElement str) : result (SpatialElement str) :=
  if truthy (extended self)
  then WKTElement (_REMOVE_SRID_group3 (data self)) (srid self) (Some false)
  else WKTElement (data self) (srid self) (extended self).

Definition as_ewkt (self : SpatialElement str) : result (SpatialElement str) :=
  if negb (truthy (extended self)) && negb (srid self =? -1)
  then srid_text <- py_str (srid self) ;;
       WKTElement (lit "SRID=" ++ srid_text ++ lit ";" ++ data self)
         (-1) (Some true)
  else WKTElement (data self) (srid self) (extended self).

(** ** [WKBElement] *)

(** ["<I" if byte_order else ">I"] *)
Definition byte_order_marker (byte_order : Z) : order :=
  if byte_order =? 0 then BigEndian else LittleEndian.

(** [int(struct.unpack(byte_order_marker, wkb_type)[0]) if len(wkb_type) == 4 else 0] *)
Definition wkb_type_int_of (o : order) (wkb_type : bytes) : result Z :=
  if len wkb_type =? 4 then unpack_int o fmt_I wkb_type else Ok 0.

Definition WKBElement (data : payload) (srid : Z) (extended : option bool)
  : result (SpatialElement payload) :=
  if (srid =? -1)
     || match extended with None => true | Some b => b end
  then
    header <- match data with
              | PStr s => unhexlify (slice_to 18 s)
              | PBuf _ b => Ok (slice_to 9 b)
              end ;;
    byte_order <- index0 (match data with PStr _ => Bytes | PBuf k _ => k end)
                    header ;;
    let wkb_type := slice 1 5 header in
    let wkb_srid := slice_from 5 header in
    let marker := byte_order_marker byte_order in
    wkb_type_int <- wkb_type_int_of marker wkb_type ;;
    let extended :=
      match extended with
      | None =>
          if wkb_type_int =? 0 then false
          else negb (Z.land wkb_type_int 536870912 =? 0)
      | Some b => b
      end in
    if extended && (srid =? -1) then
      wkb_srid <- unpack_int marker fmt_I wkb_srid ;;
      Ok (SpatialElement_init data wkb_srid (Some extended))
    else Ok (SpatialElement_init data srid (Some extended))
  else Ok (SpatialElement_init data srid extended).

Definition _wkb_to_hex (data : payload) : str :=
  match data with
  | PStr s => lower s
  | PBuf _ b => lower (hexlify b)
  end.

Definition WKB_desc (self : SpatialElement payload) : str :=
  _wkb_to_hex (data self).

Definition byte_order_name (byte_order : Z) : order :=
  if byte_order =? 0 then BigEndian else LittleEndian.

Definition as_wkb (self : SpatialElement payload)
  : result (SpatialElement payload) :=
  if truthy (extended self) then
    match data self with
    | PStr s =>
        header <- unhexlify (slice_to 10 s) ;;
        byte_order <- index0 Bytes header ;;
        let wkb_type := slice 1 5 header in
        let marker := byte_order_marker byte_order in
        wkb_type_int <- wkb_type_int_of marker wkb_type ;;
        let wkb_type_int := Z.land wkb_type_int 3758096383 in
        wkb_type_bytes <- int_to_bytes4 wkb_type_int (byte_order_name byte_order) ;;
        let data := slice_to 2 s ++ hexlify wkb_type_bytes ++ slice_from 18 s in
        WKBElement (PStr data) (srid self) (Some false)
    | PBuf k b =>
        byte_order <- index0 k b ;;
        let wkb_type := slice 1 5 b in
        let marker := byte_order_marker byte_order in
        wkb_type_int <- wkb_type_int_of marker wkb_type ;;
        let wkb_type_int := Z.land wkb_type_int 3758096383 in
        packed <- struct_pack_I marker wkb_type_int ;;
        let buffer := slice_to 1 b ++ packed ++ slice_from 9 b in
        WKBElement (PBuf Memoryview buffer) (srid self) (Some false)
    end
  else WKBElement (data self) (srid self) None.

Definition as_ewkb (self : SpatialElement payload)
  : result (SpatialElement payload) :=
  if negb (truthy (extended self)) && negb (srid self =? -1) then
    match data self with
    | PStr s =>
        header <- unhexlify (slice_to 10 s) ;;
        byte_order <- index0 Bytes header ;;
        let wkb_type := slice 1 5 header in
        let marker := byte_order_marker byte_order in
        wkb_type_int <- wkb_type_int_of marker wkb_type ;;
        let wkb_type_int := Z.lor wkb_type_int 536870912 in
        wkb_type_bytes <- int_to_bytes4 wkb_type_int (byte_order_name byte_order) ;;
        wkb_srid_bytes <- int_to_bytes4 (srid self) (byte_order_name byte_order) ;;
        let data := slice_to 2 s ++ hexlify wkb_type_bytes
                      ++ hexlify wkb_srid_bytes ++ slice_from 10 s in
        WKBElement (PStr data) (srid self) (Some true)
    | PBuf k b =>
        byte_order <- index0 k b ;;
        let wkb_type := slice 1 5 b in
        let marker := byte_order_marker byte_order in
        wkb_type_int <- wkb_type_int_of marker wkb_type ;;
        let wkb_type_int := Z.lor wkb_type_int 536870912 in
        packed_type <- struct_pack_I marker wkb_type_int ;;
        packed_srid <- struct_pack_I marker (srid self) ;;
        let buffer := slice_to 1 b ++ packed_type ++ packed_srid ++ slice_from 5 b in
        WKBElement (PBuf Memoryview buffer) (srid self) (Some true)
    end
  else WKBElement (data self) (srid self) None.

(** ** [RasterElement] *)

Definition MIN_HEADER_SIZE : Z := 61.

Definition invalid_byte_order (b0 : Z) : exn :=
  ValueError (lit "Invalid byte order in raster: " ++ str_of_int b0
                ++ lit ", must be 0 or 1").

Definition RasterElement (data : payload) : result (SpatialElement str) :=
  (* the stored text: the input itself for a [str], its hex form otherwise *)
  prepared <-
    match data with
    | PStr s =>
        if len s <? MIN_HEADER_SIZE * 2 then
          Raise (ValueError (lit "Raster hex data too short: " ++ str_of_int (len s)
                               ++ lit " chars, need at least "
                               ++ str_of_int (MIN_HEADER_SIZE * 2)))
        else
          match unhexlify (slice_to (MIN_HEADER_SIZE * 2) s) with
          | Ok bin_data => Ok (bin_data, s, Bytes)
          | Raise (BinasciiError m) =>
              Raise (ValueError (lit "Invalid hex data for raster: " ++ m))
          | Raise e => Raise e
          end
    | PBuf k b =>
        if len b <? MIN_HEADER_SIZE then
          Raise (ValueError (lit "Raster binary data too short: " ++ str_of_int (len b)
                               ++ lit " bytes, need at least "
                               ++ str_of_int MIN_HEADER_SIZE))
        else Ok (b, hexlify b, k)
    end ;;
  let '(bin_data, data_str, k) := prepared in
  let parsed :=
    byte_order <- index0 k bin_data ;;
    if negb ((byte_order =? 0) || (byte_order =? 1)) then
      Raise (invalid_byte_order byte_order)
    else
      let endian_fmt := if byte_order =? 1 then LittleEndian else BigEndian in
      let srid_bytes := slice 53 57 bin_data in
      if negb (len srid_bytes =? 4) then
        Raise (ValueError (lit "Could not extract SRID bytes from raster data, got "
                             ++ str_of_int (len srid_bytes) ++ lit " bytes"))
      else
        srid <- unpack_int endian_fmt fmt_i srid_bytes ;;
        Ok (SpatialElement_init data_str srid (Some true)) in
  match parsed with
  | Raise (IndexError m) | Raise (StructError m) =>
      Raise (ValueError (lit "Error parsing raster data: " ++ m))
  | r => r
  end.

Definition Raster_desc (self : SpatialElement str) : str := data self.

(** ** Equality of spatial elements *)

(** The three public element classes. *)
Inductive element : Type :=
| WKT (e : SpatialElement str)
| WKB (e : SpatialElement payload)
| Raster (e : SpatialElement str).

Definition desc (a : element) : str :=
  match a with
  | WKT e => WKT_desc e
  | WKB e => WKB_desc e
  | Raster e => Raster_desc e
  end.

Definition srid_of (a : element) : Z :=
  match a with
  | WKT e => srid e
  | WKB e => srid e
  | Raster e => srid e
  end.

Definition extended_of (a : element) : option bool :=
  match a with
  | WKT e => extended e
  | WKB e => extended e
  | Raster e => extended e
  end.

(** Values an attribute may hold: [None], a [bool], an [int], a [str], a
    [bytes], or an object of any other class, given by what comparing a
    built-in value with it does (its [__eq__] raises, or returns a value
    of the given truth). *)
Inductive pyval : Type :=
| PyNone
| PyBool (b : bool)
| PyInt (n : Z)
| PyStr (s : str)
| PyBytes (b : bytes)
| PyObject (eq_outcome : result bool).

(** The attributes [__eq__] reads from its argument. *)
Inductive attribute : Type := attr_extended | attr_srid | attr_desc.

(** The right-hand side of a comparison: a spatial element, or any other
    object, seen through what reading each of the three attributes does.
    A missing attribute raises [AttributeError]; a property or a
    [__getattr__] of the object may raise any exception. *)
Inductive pyobject : Type :=
| Spatial (e : element)
| Foreign (attrs : attribute -> result pyval).

Definition pyval_of_extended (x : option bool) : pyval :=
  match x with
  | None => PyNone
  | Some b => PyBool b
  end.

Definition getattr (o : pyobject) (name : attribute) : result pyval :=
  match o with
  | Spatial e =>
      Ok (match name with
          | attr_extended => pyval_of_extended (extended_of e)
          | attr_srid => PyInt (srid_of e)
          | attr_desc => PyStr (desc e)
          end)
  | Foreign attrs => attrs name
  end.

Definition int_of_bool (b : bool) : Z := if b then 1 else 0.

Fixpoint list_eqb {A : Type} (eqb : A -> A -> bool) (l1 l2 : list A) : bool :=
  match l1, l2 with
  | [], [] => true
  | x :: r1, y :: r2 => eqb x y && list_eqb eqb r1 r2
  | _, _ => false
  end.

(** Python's [==] on the built-in values; [bool] is a subclass of [int]. *)
Definition py_eq (x y : pyval) : bool :=
  match x, y with
  | PyNone, PyNone => true
  | PyBool a, PyBool b => Bool.eqb a b
  | PyBool a, PyInt n => int_of_bool a =? n
  | PyInt n, PyBool b => n =? int_of_bool b
  | PyInt n, PyInt m => n =? m
  | PyStr s, PyStr t => list_eqb Ascii.eqb s t
  | PyBytes s, PyBytes t => list_eqb Byte.eqb s t
  | _, _ => false
  end.

(** [x == y] for a built-in value [x], as the operands of [and] in
    [__eq__] use it.  The [__eq__] of a built-in value does not know an
    object of another class and returns [NotImplemented], so the object's
    own [__eq__] decides: it raises, or returns a value, kept here as its
    truth. *)
Definition py_compare (x y : pyval) : result bool :=
  match y with
  | PyObject eq_outcome => eq_outcome
  | _ => Ok (py_eq x y)
  end.

(** [_SpatialElement.__eq__(self, other)] *)
Definition SpatialElement_eq (self : element) (other : pyobject) : result bool :=
  let compared :=
    other_extended <- getattr other attr_extended ;;
    same_extended <- py_compare (pyval_of_extended (extended_of self))
                       other_extended ;;
    if same_extended then
      other_srid <- getattr other attr_srid ;;
      same_srid <- py_compare (PyInt (srid_of self)) other_srid ;;
      if same_srid then
        other_desc <- getattr other attr_desc ;;
        py_compare (PyStr (desc self)) other_desc
      else Ok false
    else Ok false in
  match compared with
  | Raise AttributeError => Ok false
  | r => r
  end.

(** [_SpatialElement.__ne__(self, other)] *)
Definition SpatialElement_ne (self : element) (other : pyobject) : result bool :=
  r <- SpatialElement_eq self other ;; Ok (negb r).

(** ** [test_decipher_raster.py]: the raster decoder *)

(** [_ENDIANNESS[endianness]] *)
Definition _ENDIANNESS (endianness : Z) : option order :=
  if endianness =? 0 then Some BigEndian
  else if endianness =? 1 then Some LittleEndian
  else None.

(** [_format_e(endianness, struct_format)] *)
Definition _format_e (endianness : Z) (struct_format : format_char)
  : result (order * format_char) :=
  match _ENDIANNESS endianness with
  | Some o => Ok (o, struct_format)
  | None =>
      Raise (ValueError (lit "Invalid endianness value: " ++ str_of_int endianness
                           ++ lit ", must be 0 or 1"))
  end.

Definition unpack_fmt (f : order * format_char) (bs : bytes) : result sample :=
  struct_unpack (fst f) (snd f) bs.

(** [_PTYPE[pixtype]]: the [struct] format and the size in bytes (the numpy
    dtype of the table is used by the numpy reader only). *)
Definition _PTYPE (pixtype : Z) : option (format_char * Z) :=
  match pixtype with
  | 0 => Some (fmt_bool, 1)
  | 1 => Some (fmt_B, 1)
  | 2 => Some (fmt_B, 1)
  | 3 => Some (fmt_b, 1)
  | 4 => Some (fmt_B, 1)
  | 5 => Some (fmt_h, 2)
  | 6 => Some (fmt_H, 2)
  | 7 => Some (fmt_i, 4)
  | 8 => Some (fmt_I, 4)
  | 10 => Some (fmt_f, 4)
  | 11 => Some (fmt_d, 8)
  | _ => None
  end.

Record header : Type := mkHeader {
  h_endianness : Z;
  h_version : Z;
  h_nbands : Z;
  h_scaleX : sample;
  h_scaleY : sample;
  h_ipX : sample;
  h_ipY : sample;
  h_skewX : sample;
  h_skewY : sample;
  h_srid : Z;
  h_width : Z;
  h_height : Z
}.

Definition unpack_field (e : Z) (c : format_char) (bs : bytes) : result sample :=
  f <- _format_e e c ;; unpack_fmt f bs.

Definition unpack_int_field (e : Z) (c : format_char) (bs : bytes) : result Z :=
  v <- unpack_field e c bs ;; Ok (int_of_sample v).

Definition wkbHeader (raw : bytes) : result header :=
  if len raw <? MIN_HEADER_SIZE then
    Raise (ValueError (lit "Raster data too short: " ++ str_of_int (len raw)
                         ++ lit " bytes, need at least " ++ str_of_int MIN_HEADER_SIZE))
  else
    let parsed :=
      endianness <- unpack_int Native fmt_b (slice 0 1 raw) ;;
      if negb ((endianness =? 0) || (endianness =? 1)) then
        Raise (ValueError (lit "Invalid endianness value: " ++ str_of_int endianness
                             ++ lit ", must be 0 or 1"))
      else
        let e := endianness in
        version <- unpack_int_field e fmt_H (slice 1 3 raw) ;;
        nbands <- unpack_int_field e fmt_H (slice 3 5 raw) ;;
        scaleX <- unpack_field e fmt_d (slice 5 13 raw) ;;
        scaleY <- unpack_field e fmt_d (slice 13 21 raw) ;;
        ipX <- unpack_field e fmt_d (slice 21 29 raw) ;;
        ipY <- unpack_field e fmt_d (slice 29 37 raw) ;;
        skewX <- unpack_field e fmt_d (slice 37 45 raw) ;;
        skewY <- unpack_field e fmt_d (slice 45 53 raw) ;;
        srid <- unpack_int_field e fmt_i (slice 53 57 raw) ;;
        width <- unpack_int_field e fmt_H (slice 57 59 raw) ;;
        height <- unpack_int_field e fmt_H (slice 59 61 raw) ;;
        if (width =? 0) || (height =? 0) then
          Raise (ValueError (lit "Invalid dimensions: width=" ++ str_of_int width
                               ++ lit ", height=" ++ str_of_int height))
        else if nbands =? 0 then
          Raise (ValueError (lit "Raster must have at least one band"))
        else
          Ok (mkHeader endianness version nbands scaleX scaleY ipX ipY
                skewX skewY srid width height) in
    match parsed with
    | Raise (StructError m) =>
        Raise (ValueError (lit "Failed to parse raster header: " ++ m))
    | r => r
    end.

Definition band : Type := list (list sample).

Definition read_band (data : bytes) (offset pixtype height width endianness : Z)
  : result band :=
  match _PTYPE pixtype with
  | None => Raise (ValueError (lit "Invalid pixel type: " ++ str_of_int pixtype))
  | Some (ptype, psize) =>
      let required_size := offset + 1 + width * height * psize in
      if len data <? required_size then
        Raise (ValueError
                 (lit "Raster data too short for band: len=" ++ str_of_int (len data)
                    ++ lit ", required=" ++ str_of_int required_size
                    ++ lit " (offset=" ++ str_of_int offset
                    ++ lit ", width=" ++ str_of_int width
                    ++ lit ", height=" ++ str_of_int height
                    ++ lit ", pixelsize=" ++ str_of_int psize ++ lit ")"))
      else
        let pix_data := slice (offset + 1) (offset + 1 + width * height * psize) data in
        let rows :=
          mapM (fun i =>
                  mapM (fun j =>
                          f <- _format_e endianness ptype ;;
                          unpack_fmt f (slice ((i * width + j) * psize)
                                          ((i * width + j + 1) * psize) pix_data))
                    (range width))
            (range height) in
        match rows with
        | Raise (StructError m) =>
            Raise (ValueError (lit "Failed to unpack pixel data: " ++ m))
        | r => r
        end
  end.

(** The first step of [wkbImage]: the binary form of the argument. *)
Definition wkbImage_raw (raster_data : payload) : result bytes :=
  match raster_data with
  | PStr s =>
      match unhexlify s with
      | Raise (BinasciiError m) =>
          Raise (ValueError (lit "Failed to decode raster data: " ++ m))
      | r => r
      end
  | PBuf _ b => Ok b
  end.

(** The loop of [wkbImage] over the band indices still to visit, threading
    the bands read so far and the current offset. *)
Fixpoint wkbImage_bands (raw : bytes) (h : header) (indices : list Z)
    (img : list band) (offset : Z) : result (list band * Z) :=
  match indices with
  | [] => Ok (img, offset)
  | i :: rest =>
      let e := h_endianness h in
      if offset + 1 >=? len raw then
        Raise (ValueError (lit "Raster data too short for band " ++ str_of_int (i + 1)
                             ++ lit " header"))
      else
        let typed :=
          f <- _format_e e fmt_b ;;
          v <- unpack_fmt f (slice offset (offset + 1) raw) ;;
          let band_type := int_of_sample v in
          let pixtype := band_type - 64 in
          match _PTYPE pixtype with
          | None =>
              Raise (ValueError (lit "Invalid pixel type " ++ str_of_int pixtype
                                   ++ lit " (band type " ++ str_of_int band_type
                                   ++ lit ") for band " ++ str_of_int (i + 1)))
          | Some (_, psize) => Ok (pixtype, psize)
          end in
        match typed with
        | Raise (StructError m) =>
            Raise (ValueError (lit "Failed to read band " ++ str_of_int (i + 1)
                                 ++ lit " type: " ++ m))
        | Raise e' => Raise e'
        | Ok (pixtype, psize) =>
            match read_band raw offset pixtype (h_height h) (h_width h) e with
            | Ok b =>
                let band_data_size := h_width h * h_height h * psize in
                wkbImage_bands raw h rest (img ++ [b]) (offset + 1 + band_data_size)
            | Raise e' =>
                match is_ValueError e' with
                | Some m =>
                    Raise (ValueError (lit "Failed to read band " ++ str_of_int (i + 1)
                                         ++ lit ": " ++ m))
                | None => Raise e'
                end
            end
        end
  end.

(** [wkbImage] with the final offset kept next to the bands
    ([use_numpy=False]). *)
Definition wkbImage_run (raster_data : payload) : result (list band * Z) :=
  raw <- wkbImage_raw raster_data ;;
  h <- wkbHeader raw ;;
  wkbImage_bands raw h (range (h_nbands h)) [] 61.

(** [wkbImage(raster_data)] *)
Definition wkbImage (raster_data : payload) : result (list band) :=
  r <- wkbImage_run raster_data ;; Ok (fst r).

(** ** Pickling and hashing *)

(** [s.encode(encoding="utf-8")] for code points below 256: one byte
    below 128, two bytes otherwise. *)
Definition encode_utf8_char (c : ascii) : bytes :=
  let n := ord c in
  if n <? 128 then [Z_to_byte n]
  else [Z_to_byte (192 + n / 64); Z_to_byte (128 + n mod 64)].

Definition encode_utf8 (s : str) : bytes := flat_map encode_utf8_char s.

(** [binascii.unhexlify(b)] for a [bytes] argument. *)
Definition unhexlify_bytes (b : bytes) : result bytes :=
  if Nat.odd (length b)
  then Raise (BinasciiError (lit "Odd-length string"))
  else match unhex_pairs (map ascii_of_byte b) with
       | Some bs => Ok bs
       | None => Raise (BinasciiError (lit "Non-hexadecimal digit found"))
       end.

(** [_SpatialElement.__str__] *)
Definition SpatialElement_str (self : element) : str := desc self.

(** The dictionary built by [__getstate__], with its three keys. *)
Record pickle_state : Type := mkState {
  state_srid : Z;
  state_data : str;
  state_extended : option bool
}.

(** [_SpatialElement.__getstate__] *)
Definition SpatialElement_getstate (self : element) : pickle_state :=
  mkState (srid_of self) (SpatialElement_str self) (extended_of self).

(** [WKTElement._data_from_desc] *)
Definition WKT_data_from_desc (desc : str) : str := desc.

(** [WKBElement._data_from_desc] *)
Definition WKB_data_from_desc (desc : str) : result bytes :=
  let desc := encode_utf8 desc in
  unhexlify_bytes desc.

(** [RasterElement._data_from_desc] *)
Definition Raster_data_from_desc (desc : str) : str := desc.

(** The class of the instance [__setstate__] is called on. *)
Inductive element_class : Type :=
| WKTElement_class
| WKBElement_class
| RasterElement_class.

Definition class_of (a : element) : element_class :=
  match a with
  | WKT _ => WKTElement_class
  | WKB _ => WKBElement_class
  | Raster _ => RasterElement_class
  end.

(** [_SpatialElement.__setstate__] on a fresh instance of class [c]. *)
Definition SpatialElement_setstate (c : element_class) (state : pickle_state)
  : result element :=
  match c with
  | WKTElement_class =>
      Ok (WKT (mkSpatialElement (state_srid state)
                 (WKT_data_from_desc (state_data state)) (state_extended state)))
  | WKBElement_class =>
      d <- WKB_data_from_desc (state_data state) ;;
      Ok (WKB (mkSpatialElement (state_srid state) (PBuf Bytes d)
                 (state_extended state)))
  | RasterElement_class =>
      Ok (Raster (mkSpatialElement (state_srid state)
                    (Raster_data_from_desc (state_data state))
                    (state_extended state)))
  end.

(** [_SpatialElement.__hash__]: the built-in [hash] applied to the tuple
    [(self.desc, self.srid, self.extended)]. *)
Definition SpatialElement_hash (hash : str * Z * option bool -> Z)
    (self : element) : Z :=
  hash (desc self, srid_of self, extended_of self).

(** ** Vocabulary of the statements *)

(** [encodes data b]: [data] is the buffer [b] itself, or a hex string
    that [binascii.unhexlify] decodes to [b]. *)
Definition encodes (data : payload) (b : bytes) : Prop :=
  match data with
  | PStr s => unhexlify s = Ok b
  | PBuf _ x => x = b
  end.

(** The layout read by [WKBElement.__init__]: [byteOrder] at 0, [wkbType] at
    1..4, [SRID] at 5..8, both words in the order named by byte 0. *)
Definition wkb_marker (b : bytes) : order :=
  byte_order_marker (match b with bo :: _ => byte_to_Z bo | [] => 0 end).

Definition wkb_type_word (b : bytes) : Z :=
  bytes_to_uint (wkb_marker b) (slice 1 5 b).

Definition wkb_srid_word (b : bytes) : Z :=
  bytes_to_uint (wkb_marker b) (slice 5 9 b).

(** The SRID bit (536870912) of the type word. *)
Definition srid_flag (b : bytes) : bool :=
  negb (Z.land (wkb_type_word b) 536870912 =? 0).

(** The layout read by [RasterElement.__init__]: the endianness at byte 0
    (1 little, 0 big) and the signed 32-bit SRID at bytes 53..56. *)
Definition raster_byte0 (raw : bytes) : Z :=
  match raw with
  | b0 :: _ => byte_to_Z b0
  | [] => 0
  end.

Definition raster_order (raw : bytes) : order :=
  if raster_byte0 raw =? 1 then LittleEndian else BigEndian.

Definition raster_srid_word (raw : bytes) : Z :=
  to_signed 32 (bytes_to_uint (raster_order raw) (slice 53 57 raw)).

(** The number written by a string of decimal digits, continuing from [acc]. *)
Definition decimal_value (acc : Z) (ds : str) : Z :=
  fold_left (fun a c => 10 * a + (ord c - 48)) ds acc.

Definition all_digits (ds : str) : Prop :=
  ds <> [] /\ Forall (fun c => is_digit c = true) ds.

(** [WKBElement.__init__] reads the header when [srid == -1], or
    [extended] is [None] or true. *)
Definition reads_header (sr : Z) (x : option bool) : Prop :=
  sr = -1 \/ x = None \/ x = Some true.

(** The element is flagged as extended: by the argument, or, when the
    argument is left out, by the text starting with [SRID=]. *)
Definition flagged_extended (data : str) (x : option bool) : Prop :=
  x = Some true \/ (x = None /\ startswith (lit "SRID=") data = true).

(** The band metadata byte at [offset], read as a signed byte, and the
    pixel type [wkbImage] derives from it by subtracting 64. *)
Definition band_type_at (raw : bytes) (offset : Z) : Z :=
  to_signed 8 (bytes_to_uint Native (slice offset (offset + 1) raw)).

Definition pixtype_at (raw : bytes) (offset : Z) : Z :=
  band_type_at raw offset - 64.

(** Both payloads are text, or both are buffers. *)
Definition same_representation (d d' : payload) : Prop :=
  match d, d' with
  | PStr _, PStr _ => True
  | PBuf _ _, PBuf _ _ => True
  | _, _ => False
  end.

(** What [as_ewkb] writes for a buffer [b] and an SRID [s]: byte 0, the
    type word with the SRID bit set, the SRID word, then the rest of [b]
    from byte 5 on. *)
Definition with_srid (b : bytes) (s : Z) : bytes :=
  slice_to 1 b
  ++ uint_to_bytes (wkb_marker b) 4 (Z.lor (wkb_type_word b) 536870912)
  ++ uint_to_bytes (wkb_marker b) 4 s
  ++ slice_from 5 b.

(** What [as_wkb] writes for a buffer [b]: byte 0, the type word with the
    SRID bit cleared, then the rest of [b] from byte 9 on. *)
Definition without_srid (b : bytes) : bytes :=
  slice_to 1 b
  ++ uint_to_bytes (wkb_marker b) 4 (Z.land (wkb_type_word b) 3758096383)
  ++ slice_from 9 b.

(** Fields of the raster header: the unsigned 16-bit word and the 64-bit
    pattern at offset [lo], in the order named by byte 0. *)
Definition raster_u16 (raw : bytes) (lo : Z) : Z :=
  bytes_to_uint (raster_order raw) (slice lo (lo + 2) raw).

Definition raster_f64 (raw : bytes) (lo : Z) : sample :=
  SFloat64 (bytes_to_uint (raster_order raw) (slice lo (lo + 8) raw)).

(** The header record that [wkbHeader] builds from a buffer. *)
Definition header_of (raw : bytes) : header :=
  mkHeader (raster_byte0 raw) (raster_u16 raw 1) (raster_u16 raw 3)
    (raster_f64 raw 5) (raster_f64 raw 13) (raster_f64 raw 21)
    (raster_f64 raw 29) (raster_f64 raw 37) (raster_f64 raw 45)
    (raster_srid_word raw) (raster_u16 raw 57) (raster_u16 raw 59).

(** A band of [H] rows of [W] samples. *)
Definition band_shape (H W : Z) (b : band) : Prop :=
  len b = H /\ Forall (fun row => len row = W) b.

(** The values a format character can produce. *)
Definition sample_fits (c : format_char) (v : sample) : Prop :=
  match c, v with
  | fmt_bool, SBool _ => True
  | fmt_b, SInt n => -128 <= n <= 127
  | fmt_B, SInt n => 0 <= n <= 255
  | fmt_h, SInt n => -32768 <= n <= 32767
  | fmt_H, SInt n => 0 <= n <= 65535
  | fmt_i, SInt n => -2147483648 <= n <= 2147483647
  | fmt_I, SInt n => 0 <= n <= 4294967295
  | fmt_f, SFloat32 bits => 0 <= bits < 2 ^ 32
  | fmt_d, SFloat64 bits => 0 <= bits < 2 ^ 64
  | _, _ => False
  end.

(** The error of [wkbHeader] for a zero width or height. *)
Definition invalid_dimensions (width height : Z) : exn :=
  ValueError (lit "Invalid dimensions: width=" ++ str_of_int width
                ++ lit ", height=" ++ str_of_int height).

(** The byte order that an endianness flag of 0 or 1 selects. *)
Definition order_of (e : Z) : order :=
  if e =? 1 then LittleEndian else BigEndian.

(** The sample of row [i] and column [j] of the band whose metadata byte is
    at [offset]: the [psize] bytes at [offset + 1 + (i * W + j) * psize]. *)
Definition pixel_at (data : bytes) (offset W psize : Z) (o : order)
    (c : format_char) (i j : Z) : sample :=
  unpack_value o c (slice (offset + 1 + (i * W + j) * psize)
                      (offset + 1 + (i * W + j + 1) * psize) data).

(** The band at [offset], row by row. *)
Definition band_at (data : bytes) (offset H W psize : Z) (o : order)
    (c : format_char) : band :=
  map (fun i => map (fun j => pixel_at data offset W psize o c i j) (range W))
    (range H).

(** The outcome [r] of a constructor with the stored data replaced by [d]. *)
Definition with_data {D D' : Type} (d : D') (r : result (SpatialElement D))
  : result (SpatialElement D') :=
  match r with
  | Ok e => Ok (mkSpatialElement (srid e) d (extended e))
  | Raise x => Raise x
  end.

(** An object is quiet when reading its attributes and comparing their
    values raises nothing but [AttributeError]. *)
Definition quiet (attrs : attribute -> result pyval) : Prop :=
  forall name,
    match attrs name with
    | Raise e => e = AttributeError
    | Ok (PyObject (Raise e)) => e = AttributeError
    | Ok _ => True
    end.

(** ** Sample data *)

(** The little-endian WKB of [POINT(1 2)] and its EWKB with SRID 4326. *)
Definition point_wkb_hex : str :=
  lit "0101000000000000000000F03F0000000000000040".

Definition point_ewkb_hex : str :=
  lit "0101000020E6100000000000000000F03F0000000000000040".

Definition bytes_of_hex (s : str) : bytes :=
  match unhexlify s with
  | Ok b => b
  | Raise _ => []
  end.

Definition point_wkb : bytes := bytes_of_hex point_wkb_hex.
Definition point_ewkb : bytes := bytes_of_hex point_ewkb_hex.

(** A little-endian raster of one band, width 2, height 3, SRID 4326, pixel
    type 5 (16-bit signed), with capital hex digits in the SRID word. *)
Definition raster_hex : str :=
  lit "0100000100"
  ++ lit "000000000000000000000000000000000000000000000000"
  ++ lit "000000000000000000000000000000000000000000000000"
  ++ lit "E610000002000300"
  ++ lit "4501000200030004000500ffff".

Definition raster_bytes : bytes := bytes_of_hex raster_hex.

(** The same raster with the undefined pixel type 9 in its band. *)
Definition raster_type9_bytes : bytes :=
  firstn 61 raster_bytes ++ x49 :: skipn 62 raster_bytes.

(** The header of [raster_bytes], as [wkbHeader] returns it. *)
Definition raster_header : header :=
  mkHeader 1 0 1 (SFloat64 0) (SFloat64 0) (SFloat64 0) (SFloat64 0)
    (SFloat64 0) (SFloat64 0) 4326 2 3.

(** A raster of two bands of 16-bit signed samples, 2 columns by 3 rows. *)
Definition raster2_hex : str :=
  lit "0100000200"
  ++ lit "000000000000000000000000000000000000000000000000"
  ++ lit "000000000000000000000000000000000000000000000000"
  ++ lit "E610000002000300"
  ++ lit "4501000200030004000500ffff"
  ++ lit "450a000b000c000d000e000080".

Definition raster2_bytes : bytes := bytes_of_hex raster2_hex.

(** The two bands of [raster2_bytes]. *)
Definition raster2_bands : list band :=
  [ [ [SInt 1; SInt 2]; [SInt 3; SInt 4]; [SInt 5; SInt (-1)] ];
    [ [SInt 10; SInt 11]; [SInt 12; SInt 13]; [SInt 14; SInt (-32768)] ] ].

Definition raster2_header : header :=
  mkHeader 1 0 2 (SFloat64 0) (SFloat64 0) (SFloat64 0) (SFloat64 0)
    (SFloat64 0) (SFloat64 0) 4326 2 3.

(** * Properties *)

(** ** Bytes and hexadecimal text *)

Section Hex.

Lemma byte_to_Z_range (b : byte) : 0 <= byte_to_Z b < 256.
Proof.
  unfold byte_to_Z. pose proof (Byte.to_N_bounded b). lia.
Qed.

Lemma Z_to_byte_to_Z (b : byte) : Z_to_byte (byte_to_Z b) = b.
Proof.
  unfold Z_to_byte. pose proof (byte_to_Z_range b) as R.
  rewrite Z.mod_small by exact R.
  unfold byte_to_Z. rewrite N2Z.id, Byte.of_to_N. reflexivity.
Qed.

Lemma byte_to_Z_to_byte (z : Z) : byte_to_Z (Z_to_byte z) = z mod 256.
Proof.
  unfold Z_to_byte, byte_to_Z.
  pose proof (Z.mod_pos_bound z 256 ltac:(lia)) as R.
  destruct (Byte.of_N (Z.to_N (z mod 256))) as [b|] eqn:E.
  - apply Byte.to_of_N in E. rewrite E. lia.
  - apply Byte.of_N_None_iff in E. lia.
Qed.

Lemma hexlify_byte_lower (b : byte) : lower (hexlify_byte b) = hexlify_byte b.
Proof. destruct b; reflexivity. Qed.

Lemma unhex_hexlify_byte (b : byte) : unhex_pairs (hexlify_byte b) = Some [b].
Proof. destruct b; reflexivity. Qed.

Lemma digit_value_spec (c : ascii) (v : Z) :
  digit_value c = Some v ->
  hexdigit v = lower_char c /\ 0 <= v < 16 /\ (128 <=? ord c) = false.
Proof.
  destruct c as [[] [] [] [] [] [] [] []]; intros H; vm_compute in H;
    try discriminate H; injection H as <-; vm_compute;
    repeat split; congruence.
Qed.

Lemma hexlify_pair (c1 c2 : ascii) (v1 v2 : Z) :
  digit_value c1 = Some v1 -> digit_value c2 = Some v2 ->
  hexlify_byte (Z_to_byte (16 * v1 + v2)) = [lower_char c1; lower_char c2].
Proof.
  intros H1 H2.
  destruct (digit_value_spec _ _ H1) as (E1 & R1 & _).
  destruct (digit_value_spec _ _ H2) as (E2 & R2 & _).
  unfold hexlify_byte. rewrite byte_to_Z_to_byte.
  rewrite Z.mod_small by lia.
  replace ((16 * v1 + v2) / 16) with v1 by (apply Z.div_unique with v2; lia).
  replace ((16 * v1 + v2) mod 16) with v2 by (apply Z.mod_unique with v1; lia).
  now rewrite E1, E2.
Qed.

Lemma unhex_pairs_cons2 (c1 c2 : ascii) (r : str) :
  unhex_pairs (c1 :: c2 :: r) =
  match digit_value c1, digit_value c2, unhex_pairs r with
  | Some v1, Some v2, Some bs => Some (Z_to_byte (16 * v1 + v2) :: bs)
  | _, _, _ => None
  end.
Proof. reflexivity. Qed.

(** Induction over a text two characters at a time. *)
Lemma pairs_ind (A : Type) (P : list A -> Prop) :
  P [] -> (forall c, P [c]) -> (forall c1 c2 r, P r -> P (c1 :: c2 :: r)) ->
  forall l, P l.
Proof.
  intros H0 H1 H2 l.
  enough (P l /\ forall c, P (c :: l)) by tauto.
  induction l as [|a l [IH1 IH2]]; split; auto.
Qed.

Lemma hexlify_cons (x : byte) (b : bytes) :
  hexlify (x :: b) = hexlify_byte x ++ hexlify b.
Proof. reflexivity. Qed.

Lemma hexlify_app (a b : bytes) : hexlify (a ++ b) = hexlify a ++ hexlify b.
Proof. unfold hexlify. apply flat_map_app. Qed.

Lemma hexlify_length (b : bytes) : length (hexlify b) = (2 * length b)%nat.
Proof. induction b as [|x b IH]; simpl; lia. Qed.

Lemma hexlify_lower (b : bytes) : lower (hexlify b) = hexlify b.
Proof.
  induction b as [|x b IH]; [reflexivity|].
  change (hexlify (x :: b)) with (hexlify_byte x ++ hexlify b).
  unfold lower in *. rewrite map_app, IH.
  f_equal. apply hexlify_byte_lower.
Qed.

Lemma lower_app (a b : str) : lower (a ++ b) = lower a ++ lower b.
Proof. apply map_app. Qed.

Lemma hexlify_unhex (s : str) :
  forall bs, unhex_pairs s = Some bs -> hexlify bs = lower s.
Proof.
  induction s as [| c | c1 c2 r IH] using pairs_ind; intros bs H.
  - injection H as <-. reflexivity.
  - discriminate H.
  - rewrite unhex_pairs_cons2 in H.
    destruct (digit_value c1) as [v1|] eqn:E1; [|discriminate].
    destruct (digit_value c2) as [v2|] eqn:E2; [|discriminate].
    destruct (unhex_pairs r) as [bs'|] eqn:Er; [|discriminate].
    assert (E : bs = Z_to_byte (16 * v1 + v2) :: bs') by congruence.
    subst bs. rewrite hexlify_cons.
    rewrite (hexlify_pair _ _ _ _ E1 E2), (IH _ eq_refl). reflexivity.
Qed.

Lemma unhex_pairs_shape (s : str) :
  forall bs, unhex_pairs s = Some bs ->
    existsb (fun c => 128 <=? ord c) s = false
    /\ Nat.odd (length s) = false
    /\ length s = (2 * length bs)%nat.
Proof.
  induction s as [| c | c1 c2 r IH] using pairs_ind; intros bs H.
  - injection H as <-. auto.
  - discriminate H.
  - rewrite unhex_pairs_cons2 in H.
    destruct (digit_value c1) as [v1|] eqn:E1; [|discriminate].
    destruct (digit_value c2) as [v2|] eqn:E2; [|discriminate].
    destruct (unhex_pairs r) as [bs'|] eqn:Er; [|discriminate].
    injection H as <-.
    destruct (IH _ eq_refl) as (A1 & A2 & A3).
    destruct (digit_value_spec _ _ E1) as (_ & _ & B1).
    destruct (digit_value_spec _ _ E2) as (_ & _ & B2).
    cbn [existsb length]. rewrite B1, B2, A1.
    repeat split; [exact A2 | simpl; lia].
Qed.

Lemma unhexlify_Ok (s : str) (bs : bytes) :
  unhexlify s = Ok bs <-> unhex_pairs s = Some bs.
Proof.
  unfold unhexlify. split.
  - destruct (existsb _ s); [discriminate|].
    destruct (Nat.odd _); [discriminate|].
    destruct (unhex_pairs s); [|discriminate]. congruence.
  - intros H. destruct (unhex_pairs_shape _ _ H) as (A1 & A2 & _).
    now rewrite A1, A2, H.
Qed.

Lemma unhex_pairs_app (a b : str) :
  forall x, unhex_pairs a = Some x ->
    unhex_pairs (a ++ b) = option_map (app x) (unhex_pairs b).
Proof.
  induction a as [| c | c1 c2 r IH] using pairs_ind; intros x H.
  - injection H as <-. simpl. now destruct (unhex_pairs b).
  - discriminate H.
  - cbn [app]. rewrite unhex_pairs_cons2 in *.
    destruct (digit_value c1) as [v1|]; [|discriminate].
    destruct (digit_value c2) as [v2|]; [|discriminate].
    destruct (unhex_pairs r) as [bs'|]; [|discriminate].
    injection H as <-. rewrite (IH _ eq_refl).
    now destruct (unhex_pairs b).
Qed.

Lemma unhex_hexlify (b : bytes) : unhex_pairs (hexlify b) = Some b.
Proof.
  induction b as [|x b IH]; [reflexivity|].
  change (hexlify (x :: b)) with (hexlify_byte x ++ hexlify b).
  rewrite (unhex_pairs_app _ _ _ (unhex_hexlify_byte x)), IH. reflexivity.
Qed.

Lemma unhex_pairs_firstn (k : nat) :
  forall s bs, unhex_pairs s = Some bs ->
    unhex_pairs (firstn (2 * k) s) = Some (firstn k bs).
Proof.
  induction k as [|k IH]; intros s bs H; [reflexivity|].
  replace (2 * S k)%nat with (S (S (2 * k))) by lia.
  destruct s as [|c1 [|c2 r]].
  - injection H as <-. reflexivity.
  - discriminate H.
  - cbn [firstn]. rewrite unhex_pairs_cons2 in *.
    destruct (digit_value c1) as [v1|]; [|discriminate].
    destruct (digit_value c2) as [v2|]; [|discriminate].
    destruct (unhex_pairs r) as [bs'|] eqn:Er; [|discriminate].
    injection H as <-. cbn [firstn]. now rewrite (IH _ _ Er).
Qed.

Lemma unhex_pairs_skipn (k : nat) :
  forall s bs, unhex_pairs s = Some bs ->
    unhex_pairs (skipn (2 * k) s) = Some (skipn k bs).
Proof.
  induction k as [|k IH]; intros s bs H; [exact H|].
  replace (2 * S k)%nat with (S (S (2 * k))) by lia.
  destruct s as [|c1 [|c2 r]].
  - injection H as <-. reflexivity.
  - discriminate H.
  - cbn [skipn]. rewrite unhex_pairs_cons2 in *.
    destruct (digit_value c1) as [v1|]; [|discriminate].
    destruct (digit_value c2) as [v2|]; [|discriminate].
    destruct (unhex_pairs r) as [bs'|] eqn:Er; [|discriminate].
    injection H as <-. cbn [skipn]. now apply IH.
Qed.

End Hex.

(** ** Words: packing, unpacking and the SRID flag *)

Section Words.

Lemma le_to_Z_range (bs : bytes) : 0 <= le_to_Z bs < 256 ^ len bs.
Proof.
  unfold len. induction bs as [|b r IH].
  - simpl. lia.
  - cbn [le_to_Z length]. rewrite Nat2Z.inj_succ, Z.pow_succ_r by lia.
    pose proof (byte_to_Z_range b). lia.
Qed.

Lemma Z_to_le_length (n : nat) (z : Z) : length (Z_to_le n z) = n.
Proof. revert z. induction n; intros z; simpl; auto. Qed.

Lemma Z_to_le_le_to_Z (bs : bytes) : Z_to_le (length bs) (le_to_Z bs) = bs.
Proof.
  induction bs as [|b r IH]; [reflexivity|].
  cbn [le_to_Z length Z_to_le].
  pose proof (byte_to_Z_range b) as R.
  assert (E : (byte_to_Z b + 256 * le_to_Z r) / 256 = le_to_Z r)
    by (symmetry; apply Z.div_unique with (byte_to_Z b); lia).
  rewrite E, IH. f_equal.
  transitivity (Z_to_byte (byte_to_Z b)); [|apply Z_to_byte_to_Z].
  unfold Z_to_byte.
  replace ((byte_to_Z b + 256 * le_to_Z r) mod 256) with (byte_to_Z b mod 256);
    [reflexivity|].
  rewrite (Z.mod_small (byte_to_Z b)) by lia.
  apply Z.mod_unique with (le_to_Z r); lia.
Qed.

Lemma le_to_Z_Z_to_le (n : nat) :
  forall z, 0 <= z < 256 ^ Z.of_nat n -> le_to_Z (Z_to_le n z) = z.
Proof.
  induction n as [|n IH]; intros z R.
  - simpl in *. lia.
  - rewrite Nat2Z.inj_succ, Z.pow_succ_r in R by lia.
    cbn [Z_to_le le_to_Z]. rewrite byte_to_Z_to_byte.
    rewrite IH.
    + pose proof (Z.div_mod z 256 ltac:(lia)). lia.
    + split; [apply Z.div_pos; lia | apply Z.div_lt_upper_bound; lia].
Qed.

Lemma uint_to_bytes_length (o : order) (n : nat) (z : Z) :
  length (uint_to_bytes o n z) = n.
Proof.
  destruct o; simpl; rewrite ?length_rev; apply Z_to_le_length.
Qed.

Lemma bytes_to_uint_range (o : order) (bs : bytes) :
  0 <= bytes_to_uint o bs < 256 ^ len bs.
Proof.
  destruct o; simpl; try apply le_to_Z_range.
  replace (len bs) with (len (rev bs)) by (unfold len; now rewrite length_rev).
  apply le_to_Z_range.
Qed.

Lemma uint_to_bytes_to_uint (o : order) (bs : bytes) :
  uint_to_bytes o (length bs) (bytes_to_uint o bs) = bs.
Proof.
  destruct o; simpl; try apply Z_to_le_le_to_Z.
  rewrite <- (length_rev bs), Z_to_le_le_to_Z. apply rev_involutive.
Qed.

Lemma bytes_to_uint_to_bytes (o : order) (n : nat) (z : Z) :
  0 <= z < 256 ^ Z.of_nat n -> bytes_to_uint o (uint_to_bytes o n z) = z.
Proof.
  intros R. destruct o; simpl; rewrite ?rev_involutive;
    now apply le_to_Z_Z_to_le.
Qed.

Lemma word_range (o : order) (t : bytes) :
  length t = 4%nat -> 0 <= bytes_to_uint o t < 4294967296.
Proof.
  intros L. pose proof (bytes_to_uint_range o t) as R.
  unfold len in R. rewrite L in R. exact R.
Qed.

Lemma unpack_int_I (o : order) (t : bytes) :
  length t = 4%nat -> unpack_int o fmt_I t = Ok (bytes_to_uint o t).
Proof.
  intros L. unfold unpack_int, struct_unpack, len. rewrite L. reflexivity.
Qed.

Lemma wkb_type_int_of_word (o : order) (t : bytes) :
  length t = 4%nat -> wkb_type_int_of o t = Ok (bytes_to_uint o t).
Proof.
  intros L. unfold wkb_type_int_of, len. rewrite L. now apply unpack_int_I.
Qed.

Lemma struct_pack_I_Ok (o : order) (n : Z) :
  0 <= n < 4294967296 -> struct_pack_I o n = Ok (uint_to_bytes o 4 n).
Proof.
  intros R. unfold struct_pack_I.
  destruct (n <? 0) eqn:E1; [lia|].
  destruct (4294967295 <? n) eqn:E2; [lia|]. reflexivity.
Qed.

Lemma int_to_bytes4_Ok (o : order) (n : Z) :
  0 <= n < 4294967296 -> int_to_bytes4 n o = Ok (uint_to_bytes o 4 n).
Proof.
  intros R. unfold int_to_bytes4.
  destruct (n <? 0) eqn:E1; [lia|].
  destruct (4294967295 <? n) eqn:E2; [lia|]. reflexivity.
Qed.

Lemma struct_pack_I_inv (o : order) (n : Z) (bs : bytes) :
  struct_pack_I o n = Ok bs -> 0 <= n < 4294967296 /\ bs = uint_to_bytes o 4 n.
Proof.
  unfold struct_pack_I.
  destruct (n <? 0) eqn:E1; [discriminate|].
  destruct (4294967295 <? n) eqn:E2; [discriminate|].
  intros H. split; [lia | congruence].
Qed.

Lemma testbit_word_high (T n : Z) :
  0 <= T < 4294967296 -> 32 <= n -> Z.testbit T n = false.
Proof.
  intros R Hn. destruct (Z.eq_dec T 0) as [->|NZ]; [apply Z.bits_0|].
  apply Z.bits_above_log2; [lia|].
  assert (Z.log2 T < 32) by (apply Z.log2_lt_pow2; lia). lia.
Qed.

Lemma testbit_srid_flag (n : Z) :
  0 <= n -> Z.testbit 536870912 n = (29 =? n).
Proof. intros Hn. change 536870912 with (2 ^ 29). apply Z.pow2_bits_eqb. lia. Qed.

Lemma testbit_srid_mask (n : Z) :
  0 <= n -> Z.testbit 3758096383 n = (n <? 32) && negb (29 =? n).
Proof.
  intros Hn. change 3758096383 with (Z.ldiff (Z.ones 32) (2 ^ 29)).
  rewrite Z.ldiff_spec, Z.testbit_ones_nonneg, Z.pow2_bits_eqb by lia.
  reflexivity.
Qed.

Lemma srid_flag_clear (T : Z) :
  Z.land T 536870912 = 0 -> Z.testbit T 29 = false.
Proof.
  intros H. assert (E : Z.testbit (Z.land T 536870912) 29 = false)
    by (rewrite H; apply Z.bits_0).
  rewrite Z.land_spec, testbit_srid_flag in E by lia.
  simpl in E. now rewrite andb_true_r in E.
Qed.

Lemma srid_flag_set (T : Z) :
  Z.land T 536870912 <> 0 -> Z.testbit T 29 = true.
Proof.
  intros H. destruct (Z.testbit T 29) eqn:E; [reflexivity|].
  exfalso. apply H. apply Z.bits_inj'. intros n Hn.
  rewrite Z.land_spec, testbit_srid_flag, Z.bits_0 by lia.
  destruct (29 =? n) eqn:E'; [|apply andb_false_r].
  apply Z.eqb_eq in E'. subst n. now rewrite E.
Qed.

Lemma set_then_clear_flag (T : Z) :
  0 <= T < 4294967296 -> Z.land T 536870912 = 0 ->
  Z.land (Z.lor T 536870912) 3758096383 = T.
Proof.
  intros R H. apply srid_flag_clear in H.
  apply Z.bits_inj'. intros n Hn.
  rewrite Z.land_spec, Z.lor_spec, testbit_srid_flag, testbit_srid_mask by lia.
  destruct (29 =? n) eqn:E.
  - apply Z.eqb_eq in E. subst n. rewrite H. now destruct (29 <? 32).
  - destruct (n <? 32) eqn:E'.
    + now rewrite orb_false_r, andb_true_r.
    + rewrite (testbit_word_high T n R) by lia. reflexivity.
Qed.

Lemma clear_then_set_flag (T : Z) :
  0 <= T < 4294967296 -> Z.land T 536870912 <> 0 ->
  Z.lor (Z.land T 3758096383) 536870912 = T.
Proof.
  intros R H. apply srid_flag_set in H.
  apply Z.bits_inj'. intros n Hn.
  rewrite Z.lor_spec, Z.land_spec, testbit_srid_flag, testbit_srid_mask by lia.
  destruct (29 =? n) eqn:E.
  - apply Z.eqb_eq in E. subst n. rewrite H. apply orb_true_r.
  - destruct (n <? 32) eqn:E'.
    + now rewrite orb_false_r, andb_true_r.
    + rewrite (testbit_word_high T n R) by lia. reflexivity.
Qed.

Lemma word_of_bits (x : Z) :
  0 <= x -> (forall n, 32 <= n -> Z.testbit x n = false) -> 0 <= x < 4294967296.
Proof.
  intros Hx Hb. split; [exact Hx|].
  destruct (Z.eq_dec x 0) as [->|NZ]; [lia|].
  change 4294967296 with (2 ^ 32). apply Z.log2_lt_pow2; [lia|].
  destruct (Z_lt_le_dec (Z.log2 x) 32) as [L|L]; [exact L|].
  pose proof (Z.bit_log2 x ltac:(lia)) as B.
  rewrite Hb in B by exact L. discriminate B.
Qed.

Lemma set_flag_range (T : Z) :
  0 <= T < 4294967296 -> 0 <= Z.lor T 536870912 < 4294967296.
Proof.
  intros R. apply word_of_bits.
  - apply Z.lor_nonneg. lia.
  - intros n Hn. rewrite Z.lor_spec, testbit_srid_flag by lia.
    rewrite (testbit_word_high T n R Hn).
    destruct (29 =? n) eqn:E; [apply Z.eqb_eq in E; lia | reflexivity].
Qed.

Lemma clear_flag_range (T : Z) :
  0 <= T -> 0 <= Z.land T 3758096383 < 4294967296.
Proof.
  intros R. apply word_of_bits.
  - apply Z.land_nonneg. lia.
  - intros n Hn. rewrite Z.land_spec, testbit_srid_mask by lia.
    destruct (n <? 32) eqn:E; [lia | apply andb_false_r].
Qed.

End Words.

(** ** The WKB header, byte by byte *)

Ltac explode4 t L :=
  destruct t as [|? [|? [|? [|? [|? ?]]]]]; try discriminate L.

Section WkbBytes.

Lemma split_wkb_header (b : bytes) :
  5 <= len b ->
  exists bo t rest, b = bo :: t ++ rest /\ length t = 4%nat.
Proof.
  unfold len. intros L.
  destruct b as [|bo [|t0 [|t1 [|t2 [|t3 rest]]]]]; simpl in L; try lia.
  exists bo, [t0; t1; t2; t3], rest. auto.
Qed.

Lemma split_ewkb_header (b : bytes) :
  9 <= len b ->
  exists bo t q rest,
    b = bo :: t ++ q ++ rest /\ length t = 4%nat /\ length q = 4%nat.
Proof.
  intros L. destruct (split_wkb_header b ltac:(lia)) as (bo & t & r & -> & Lt).
  unfold len in L. cbn [length] in L. rewrite length_app, Lt in L.
  destruct r as [|q0 [|q1 [|q2 [|q3 rest]]]]; simpl in L; try lia.
  exists bo, t, [q0; q1; q2; q3], rest. auto.
Qed.

Variables (k : buffer_kind) (bo : byte) (t : bytes).
Hypothesis Lt : length t = 4%nat.

Let marker := byte_order_marker (byte_to_Z bo).
Let T := bytes_to_uint marker t.

Lemma WKBElement_buf (rest : bytes) (s : Z) (x : option bool) :
  WKBElement (PBuf k (bo :: t ++ rest)) s x =
  let d := PBuf k (bo :: t ++ rest) in
  if (s =? -1) || match x with None => true | Some b => b end then
    let ext := match x with
               | None => if T =? 0 then false
                         else negb (Z.land T 536870912 =? 0)
               | Some b => b
               end in
    if ext && (s =? -1) then
      w <- unpack_int marker fmt_I (firstn 4 rest) ;;
      Ok (SpatialElement_init d w (Some ext))
    else Ok (SpatialElement_init d s (Some ext))
  else Ok (SpatialElement_init d s x).
Proof.
  subst T marker. explode4 t Lt. reflexivity.
Qed.

Lemma as_ewkb_buf (rest : bytes) (s : Z) (x : option bool) :
  truthy x = false -> s <> -1 ->
  as_ewkb (mkSpatialElement s (PBuf k (bo :: t ++ rest)) x) =
  (pt <- struct_pack_I marker (Z.lor T 536870912) ;;
   ps <- struct_pack_I marker s ;;
   WKBElement (PBuf Memoryview (bo :: pt ++ ps ++ rest)) s (Some true)).
Proof.
  intros Hx Hs. subst T marker. explode4 t Lt.
  unfold as_ewkb. cbn [extended srid data]. rewrite Hx.
  apply Z.eqb_neq in Hs. rewrite Hs. reflexivity.
Qed.

Lemma as_wkb_buf (q rest : bytes) (s : Z) :
  length q = 4%nat ->
  as_wkb (mkSpatialElement s (PBuf k (bo :: t ++ q ++ rest)) (Some true)) =
  (p <- struct_pack_I marker (Z.land T 3758096383) ;;
   WKBElement (PBuf Memoryview (bo :: p ++ rest)) s (Some false)).
Proof.
  intros Lq. subst T marker. explode4 t Lt. explode4 q Lq. reflexivity.
Qed.

End WkbBytes.

(** ** The WKB header in hexadecimal text *)

Section WkbHex.

Lemma unhexlify_firstn (n : nat) (s : str) (b : bytes) :
  unhexlify s = Ok b -> unhexlify (firstn (2 * n) s) = Ok (firstn n b).
Proof.
  rewrite !unhexlify_Ok. apply unhex_pairs_firstn.
Qed.

Lemma unhexlify_skipn (n : nat) (s : str) (b : bytes) :
  unhexlify s = Ok b -> unhexlify (skipn (2 * n) s) = Ok (skipn n b).
Proof.
  rewrite !unhexlify_Ok. apply unhex_pairs_skipn.
Qed.

Lemma unhexlify_app (s1 s2 : str) (b1 b2 : bytes) :
  unhexlify s1 = Ok b1 -> unhexlify s2 = Ok b2 ->
  unhexlify (s1 ++ s2) = Ok (b1 ++ b2).
Proof.
  rewrite !unhexlify_Ok. intros H1 H2.
  now rewrite (unhex_pairs_app _ _ _ H1), H2.
Qed.

Lemma unhexlify_hexlify (b : bytes) : unhexlify (hexlify b) = Ok b.
Proof. apply unhexlify_Ok, unhex_hexlify. Qed.

Lemma lower_unhexlify (s : str) (b : bytes) :
  unhexlify s = Ok b -> lower s = hexlify b.
Proof. rewrite unhexlify_Ok. intros H. symmetry. now apply hexlify_unhex. Qed.

(** A hex string is handled as the bytes it encodes. *)
Lemma WKBElement_hex (s : str) (b : bytes) (sr : Z) (x : option bool) :
  unhexlify s = Ok b ->
  WKBElement (PStr s) sr x =
  (e <- WKBElement (PBuf Bytes b) sr x ;;
   Ok (SpatialElement_init (PStr s) (srid e) (extended e))).
Proof.
  intros H. unfold WKBElement.
  change (slice_to 18 s) with (firstn (2 * 9) s).
  rewrite (unhexlify_firstn 9 _ _ H).
  change (slice_to 9 b) with (firstn 9 b).
  destruct ((sr =? -1) || match x with None => true | Some b0 => b0 end);
    [|reflexivity].
  cbn [bind].
  destruct (index0 Bytes (firstn 9 b)) as [byte_order|]; [|reflexivity].
  cbn [bind].
  destruct (wkb_type_int_of _ _) as [wkb_type_int|]; [|reflexivity].
  cbn [bind].
  destruct (_ && (sr =? -1)); [|reflexivity].
  destruct (unpack_int _ _ _); reflexivity.
Qed.

Variables (bo : byte) (t : bytes).
Hypothesis Lt : length t = 4%nat.

Let marker := byte_order_marker (byte_to_Z bo).
Let T := bytes_to_uint marker t.

Lemma as_ewkb_hex (s : str) (rest : bytes) (sr : Z) (x : option bool) :
  unhexlify s = Ok (bo :: t ++ rest) ->
  truthy x = false -> sr <> -1 ->
  exists tail,
    unhexlify tail = Ok rest /\
    as_ewkb (mkSpatialElement sr (PStr s) x) =
    (pt <- int_to_bytes4 (Z.lor T 536870912) marker ;;
     ps <- int_to_bytes4 sr marker ;;
     WKBElement (PStr (slice_to 2 s ++ hexlify pt ++ hexlify ps ++ tail))
       sr (Some true)) /\
    unhexlify (slice_to 2 s) = Ok [bo].
Proof.
  intros H Hx Hs. exists (slice_from 10 s).
  pose proof (unhexlify_skipn 5 _ _ H) as Hk.
  pose proof (unhexlify_firstn 5 _ _ H) as Hh.
  pose proof (unhexlify_firstn 1 _ _ H) as H1.
  subst T marker. explode4 t Lt.
  repeat split; try assumption.
  unfold as_ewkb. cbn [extended srid data]. rewrite Hx.
  apply Z.eqb_neq in Hs. rewrite Hs.
  change (slice_to 10 s) with (firstn (2 * 5) s). rewrite Hh.
  reflexivity.
Qed.

Lemma as_wkb_hex (s : str) (q rest : bytes) (sr : Z) :
  length q = 4%nat ->
  unhexlify s = Ok (bo :: t ++ q ++ rest) ->
  exists tail,
    unhexlify tail = Ok rest /\
    as_wkb (mkSpatialElement sr (PStr s) (Some true)) =
    (p <- int_to_bytes4 (Z.land T 3758096383) marker ;;
     WKBElement (PStr (slice_to 2 s ++ hexlify p ++ tail)) sr (Some false)) /\
    unhexlify (slice_to 2 s) = Ok [bo].
Proof.
  intros Lq H. exists (slice_from 18 s).
  pose proof (unhexlify_skipn 9 _ _ H) as Hk.
  pose proof (unhexlify_firstn 5 _ _ H) as Hh.
  pose proof (unhexlify_firstn 1 _ _ H) as H1.
  subst T marker. explode4 t Lt. explode4 q Lq.
  repeat split; try assumption.
  unfold as_wkb. cbn [extended srid data truthy].
  change (slice_to 10 s) with (firstn (2 * 5) s). rewrite Hh.
  reflexivity.
Qed.

End WkbHex.

(** ** Injecting and stripping the SRID *)

Section RoundTrip.

Variables (bo : byte) (t rest : bytes).
Hypothesis Lt : length t = 4%nat.

Let marker := byte_order_marker (byte_to_Z bo).
Let T := bytes_to_uint marker t.

Lemma inject_strip_buf (k : buffer_kind) (s : Z) :
  Z.land T 536870912 = 0 -> 0 <= s < 4294967296 ->
  let pt := uint_to_bytes marker 4 (Z.lor T 536870912) in
  let ps := uint_to_bytes marker 4 s in
  let d0 := PBuf k (bo :: t ++ rest) in
  let d1 := PBuf Memoryview (bo :: pt ++ ps ++ rest) in
  let d2 := PBuf Memoryview (bo :: t ++ rest) in
  WKBElement d0 s None = Ok (mkSpatialElement s d0 (Some false))
  /\ as_ewkb (mkSpatialElement s d0 (Some false))
     = Ok (mkSpatialElement s d1 (Some true))
  /\ as_wkb (mkSpatialElement s d1 (Some true))
     = Ok (mkSpatialElement s d2 (Some false)).
Proof.
  intros F Rs pt ps d0 d1 d2.
  pose proof (word_range marker t Lt) as RT. fold T in RT.
  pose proof (set_flag_range T RT) as RT'.
  assert (Hs : (s =? -1) = false) by (apply Z.eqb_neq; lia).
  assert (Lpt : length pt = 4%nat) by apply uint_to_bytes_length.
  assert (Lps : length ps = 4%nat) by apply uint_to_bytes_length.
  split; [|split].
  - subst d0. rewrite (WKBElement_buf k bo t Lt). fold marker. fold T.
    cbv zeta. rewrite Hs, F. cbn [orb].
    destruct (T =? 0); reflexivity.
  - subst d0. rewrite (as_ewkb_buf k bo t Lt) by (reflexivity || lia).
    fold marker. fold T.
    rewrite (struct_pack_I_Ok marker _ RT'), (struct_pack_I_Ok marker s Rs).
    cbn [bind]. fold pt. fold ps.
    rewrite (WKBElement_buf Memoryview bo pt Lpt). cbv zeta.
    rewrite Hs. reflexivity.
  - subst d1. rewrite (as_wkb_buf Memoryview bo pt Lpt ps rest s Lps).
    fold marker. subst pt.
    rewrite bytes_to_uint_to_bytes by exact RT'.
    rewrite (set_then_clear_flag T RT F).
    rewrite (struct_pack_I_Ok marker T RT). cbn [bind].
    unfold T at 1. rewrite <- Lt at 1. rewrite uint_to_bytes_to_uint.
    rewrite (WKBElement_buf Memoryview bo t Lt). cbv zeta.
    rewrite Hs. reflexivity.
Qed.

Lemma strip_inject_buf (k : buffer_kind) (q : bytes) :
  length q = 4%nat -> Z.land T 536870912 <> 0 ->
  let s := bytes_to_uint marker q in
  let pt := uint_to_bytes marker 4 (Z.land T 3758096383) in
  let d0 := PBuf k (bo :: t ++ q ++ rest) in
  let d1 := PBuf Memoryview (bo :: pt ++ rest) in
  let d2 := PBuf Memoryview (bo :: t ++ q ++ rest) in
  WKBElement d0 (-1) None = Ok (mkSpatialElement s d0 (Some true))
  /\ as_wkb (mkSpatialElement s d0 (Some true))
     = Ok (mkSpatialElement s d1 (Some false))
  /\ as_ewkb (mkSpatialElement s d1 (Some false))
     = Ok (mkSpatialElement s d2 (Some true)).
Proof.
  intros Lq F s pt d0 d1 d2.
  pose proof (word_range marker t Lt) as RT. fold T in RT.
  pose proof (word_range marker q Lq) as Rs. fold s in Rs.
  pose proof (clear_flag_range T ltac:(lia)) as RT'.
  assert (Hs : (s =? -1) = false) by (apply Z.eqb_neq; lia).
  assert (Lpt : length pt = 4%nat) by apply uint_to_bytes_length.
  assert (NZ : (T =? 0) = false).
  { apply Z.eqb_neq. intros E. apply F. rewrite E. reflexivity. }
  assert (F' : (Z.land T 536870912 =? 0) = false) by now apply Z.eqb_neq.
  split; [|split].
  - subst d0. rewrite (WKBElement_buf k bo t Lt). fold marker. fold T.
    cbv zeta. rewrite NZ, F'. cbn [orb negb andb Z.eqb].
    explode4 q Lq. cbn [app firstn].
    rewrite unpack_int_I by reflexivity. reflexivity.
  - subst d0. rewrite (as_wkb_buf k bo t Lt q rest s Lq).
    fold marker. fold T.
    rewrite (struct_pack_I_Ok marker _ RT'). cbn [bind]. fold pt.
    rewrite (WKBElement_buf Memoryview bo pt Lpt). cbv zeta.
    rewrite Hs. reflexivity.
  - subst d1. rewrite (as_ewkb_buf Memoryview bo pt Lpt) by (reflexivity || lia).
    fold marker. subst pt.
    rewrite bytes_to_uint_to_bytes by exact RT'.
    rewrite (clear_then_set_flag T RT F).
    rewrite (struct_pack_I_Ok marker T RT), (struct_pack_I_Ok marker s Rs).
    cbn [bind].
    unfold T at 1. rewrite <- Lt at 1. rewrite uint_to_bytes_to_uint.
    unfold s at 1. rewrite <- Lq at 1. rewrite uint_to_bytes_to_uint.
    rewrite (WKBElement_buf Memoryview bo t Lt). cbv zeta.
    rewrite Hs. reflexivity.
Qed.

End RoundTrip.

Section RoundTripHex.

Variables (bo : byte) (t rest : bytes).
Hypothesis Lt : length t = 4%nat.

Let marker := byte_order_marker (byte_to_Z bo).
Let T := bytes_to_uint marker t.

Lemma WKBElement_plain (d : payload) (s : Z) :
  s <> -1 ->
  WKBElement d s (Some false) = Ok (mkSpatialElement s d (Some false)).
Proof.
  intros Hs. unfold WKBElement. apply Z.eqb_neq in Hs. now rewrite Hs.
Qed.

Lemma inject_strip_hex (h : str) (s : Z) :
  unhexlify h = Ok (bo :: t ++ rest) ->
  Z.land T 536870912 = 0 -> 0 <= s < 4294967296 ->
  exists h1 h2,
    WKBElement (PStr h) s None = Ok (mkSpatialElement s (PStr h) (Some false))
    /\ as_ewkb (mkSpatialElement s (PStr h) (Some false))
       = Ok (mkSpatialElement s (PStr h1) (Some true))
    /\ as_wkb (mkSpatialElement s (PStr h1) (Some true))
       = Ok (mkSpatialElement s (PStr h2) (Some false))
    /\ lower h2 = lower h.
Proof.
  intros H F Rs.
  pose proof (word_range marker t Lt) as RT. fold T in RT.
  pose proof (set_flag_range T RT) as RT'.
  destruct (inject_strip_buf bo t rest Lt Bytes s F Rs) as (B0 & _ & _).
  fold marker in B0.
  set (pt := uint_to_bytes marker 4 (Z.lor T 536870912)).
  set (ps := uint_to_bytes marker 4 s).
  assert (Lpt : length pt = 4%nat) by apply uint_to_bytes_length.
  assert (Lps : length ps = 4%nat) by apply uint_to_bytes_length.
  destruct (as_ewkb_hex bo t Lt h rest s (Some false) H eq_refl ltac:(lia))
    as (tail & Htail & E1 & H2).
  fold marker in E1. fold T in E1.
  rewrite (int_to_bytes4_Ok marker _ RT'), (int_to_bytes4_Ok marker s Rs) in E1.
  cbn [bind] in E1. fold pt in E1. fold ps in E1.
  set (h1 := slice_to 2 h ++ hexlify pt ++ hexlify ps ++ tail) in *.
  assert (Hh1 : unhexlify h1 = Ok (bo :: pt ++ ps ++ rest)).
  { apply (unhexlify_app _ _ [bo] _ H2).
    apply unhexlify_app; [apply unhexlify_hexlify|].
    apply unhexlify_app; [apply unhexlify_hexlify | exact Htail]. }
  destruct (as_wkb_hex bo pt Lpt h1 ps rest s Lps Hh1) as (tail2 & Htail2 & E2 & H3).
  fold marker in E2. unfold pt in E2 at 1.
  rewrite bytes_to_uint_to_bytes in E2 by exact RT'.
  rewrite (set_then_clear_flag T RT F) in E2.
  rewrite (int_to_bytes4_Ok marker T RT) in E2. cbn [bind] in E2.
  unfold T in E2 at 1. rewrite <- Lt in E2 at 1.
  rewrite uint_to_bytes_to_uint in E2.
  set (h2 := slice_to 2 h1 ++ hexlify t ++ tail2) in *.
  assert (Hh2 : unhexlify h2 = Ok (bo :: t ++ rest)).
  { apply (unhexlify_app _ _ [bo] _ H3).
    apply unhexlify_app; [apply unhexlify_hexlify | exact Htail2]. }
  exists h1, h2. repeat split.
  - rewrite (WKBElement_hex _ _ _ _ H), B0. reflexivity.
  - rewrite E1, (WKBElement_hex _ _ _ _ Hh1).
    rewrite (WKBElement_buf Bytes bo pt Lpt). cbv zeta.
    replace (s =? -1) with false by (symmetry; apply Z.eqb_neq; lia).
    reflexivity.
  - rewrite E2. apply WKBElement_plain. lia.
  - now rewrite (lower_unhexlify _ _ Hh2), (lower_unhexlify _ _ H).
Qed.

Lemma strip_inject_hex (h : str) (q : bytes) :
  length q = 4%nat ->
  unhexlify h = Ok (bo :: t ++ q ++ rest) ->
  Z.land T 536870912 <> 0 ->
  let s := bytes_to_uint marker q in
  exists h1 h2,
    WKBElement (PStr h) (-1) None = Ok (mkSpatialElement s (PStr h) (Some true))
    /\ as_wkb (mkSpatialElement s (PStr h) (Some true))
       = Ok (mkSpatialElement s (PStr h1) (Some false))
    /\ as_ewkb (mkSpatialElement s (PStr h1) (Some false))
       = Ok (mkSpatialElement s (PStr h2) (Some true))
    /\ lower h2 = lower h.
Proof.
  intros Lq H F s.
  pose proof (word_range marker t Lt) as RT. fold T in RT.
  pose proof (word_range marker q Lq) as Rs. fold s in Rs.
  pose proof (clear_flag_range T ltac:(lia)) as RT'.
  destruct (strip_inject_buf bo t rest Lt Bytes q Lq F) as (B0 & _ & _).
  fold marker in B0. fold s in B0.
  set (pt := uint_to_bytes marker 4 (Z.land T 3758096383)).
  assert (Lpt : length pt = 4%nat) by apply uint_to_bytes_length.
  destruct (as_wkb_hex bo t Lt h q rest s Lq H) as (tail & Htail & E1 & H2).
  fold marker in E1. fold T in E1.
  rewrite (int_to_bytes4_Ok marker _ RT') in E1. cbn [bind] in E1. fold pt in E1.
  set (h1 := slice_to 2 h ++ hexlify pt ++ tail) in *.
  assert (Hh1 : unhexlify h1 = Ok (bo :: pt ++ rest)).
  { apply (unhexlify_app _ _ [bo] _ H2).
    apply unhexlify_app; [apply unhexlify_hexlify | exact Htail]. }
  destruct (as_ewkb_hex bo pt Lpt h1 rest s (Some false) Hh1 eq_refl ltac:(lia))
    as (tail2 & Htail2 & E2 & H3).
  fold marker in E2. unfold pt in E2 at 1.
  rewrite bytes_to_uint_to_bytes in E2 by exact RT'.
  rewrite (clear_then_set_flag T RT F) in E2.
  rewrite (int_to_bytes4_Ok marker T RT), (int_to_bytes4_Ok marker s Rs) in E2.
  cbn [bind] in E2.
  assert (ET : uint_to_bytes marker 4 T = t)
    by (unfold T; rewrite <- Lt at 1; apply uint_to_bytes_to_uint).
  assert (Eq : uint_to_bytes marker 4 s = q)
    by (unfold s; rewrite <- Lq at 1; apply uint_to_bytes_to_uint).
  rewrite ET, Eq in E2.
  set (h2 := slice_to 2 h1 ++ hexlify t ++ hexlify q ++ tail2) in *.
  assert (Hh2 : unhexlify h2 = Ok (bo :: t ++ q ++ rest)).
  { apply (unhexlify_app _ _ [bo] _ H3).
    apply unhexlify_app; [apply unhexlify_hexlify|].
    apply unhexlify_app; [apply unhexlify_hexlify | exact Htail2]. }
  exists h1, h2. repeat split.
  - rewrite (WKBElement_hex _ _ _ _ H), B0. reflexivity.
  - rewrite E1. apply WKBElement_plain. lia.
  - rewrite E2, (WKBElement_hex _ _ _ _ Hh2).
    rewrite (WKBElement_buf Bytes bo t Lt). cbv zeta.
    replace (s =? -1) with false by (symmetry; apply Z.eqb_neq; lia).
    reflexivity.
  - now rewrite (lower_unhexlify _ _ Hh2), (lower_unhexlify _ _ H).
Qed.

End RoundTripHex.

Section SridRoundTrip.

Lemma wkb_words_cons (bo : byte) (t rest : bytes) :
  length t = 4%nat ->
  wkb_type_word (bo :: t ++ rest)
  = bytes_to_uint (byte_order_marker (byte_to_Z bo)) t.
Proof. intros Lt. explode4 t Lt. reflexivity. Qed.

Lemma wkb_srid_word_cons (bo : byte) (t q rest : bytes) :
  length t = 4%nat -> length q = 4%nat ->
  wkb_srid_word (bo :: t ++ q ++ rest)
  = bytes_to_uint (byte_order_marker (byte_to_Z bo)) q.
Proof. intros Lt Lq. explode4 t Lt. explode4 q Lq. reflexivity. Qed.

Lemma srid_flag_false (b : bytes) :
  srid_flag b = false -> Z.land (wkb_type_word b) 536870912 = 0.
Proof.
  unfold srid_flag. intros H. apply negb_false_iff in H. now apply Z.eqb_eq.
Qed.

Lemma srid_flag_true (b : bytes) :
  srid_flag b = true -> Z.land (wkb_type_word b) 536870912 <> 0.
Proof.
  unfold srid_flag. intros H. apply negb_true_iff in H. now apply Z.eqb_neq.
Qed.

(** C1, as amended.  Let [data] be a WKB buffer [b] or a hex string of it.
    If [b] holds at least the byte order and the type word, its SRID bit is
    clear and [0 <= s < 2^32], then [WKBElement(data, s).as_ewkb().as_wkb()]
    succeeds at every step and its description equals that of [data].  If
    [b] holds at least nine bytes, its SRID bit is set and the embedded SRID
    is [s], then [WKBElement(data)] reads [s], and [as_wkb()] followed by
    [as_ewkb()] succeeds and gives back the description of [data]. *)
Theorem wkb_srid_round_trip (data : payload) (b : bytes) (s : Z) :
  encodes data b ->
  (5 <= len b -> srid_flag b = false -> 0 <= s < 4294967296 ->
   exists e0 e1 e2,
     WKBElement data s None = Ok e0
     /\ as_ewkb e0 = Ok e1 /\ as_wkb e1 = Ok e2
     /\ extended e1 = Some true /\ srid e1 = s
     /\ WKB_desc e0 = _wkb_to_hex data
     /\ WKB_desc e2 = WKB_desc e0)
  /\
  (9 <= len b -> srid_flag b = true -> wkb_srid_word b = s ->
   exists e0 e1 e2,
     WKBElement data (-1) None = Ok e0
     /\ extended e0 = Some true /\ srid e0 = s
     /\ as_wkb e0 = Ok e1 /\ as_ewkb e1 = Ok e2
     /\ extended e1 = Some false
     /\ WKB_desc e0 = _wkb_to_hex data
     /\ WKB_desc e2 = WKB_desc e0).
Proof.
  intros Henc. split.
  - intros L F Rs.
    destruct (split_wkb_header b L) as (bo & t & rest & -> & Lt).
    apply srid_flag_false in F. rewrite (wkb_words_cons _ _ _ Lt) in F.
    destruct data as [h|k x]; cbn [encodes] in Henc.
    + destruct (inject_strip_hex bo t rest Lt h s Henc F Rs)
        as (h1 & h2 & A0 & A1 & A2 & A3).
      eexists _, _, _.
      split; [exact A0|]. split; [exact A1|]. split; [exact A2|].
      repeat split. exact A3.
    + subst x.
      destruct (inject_strip_buf bo t rest Lt k s F Rs) as (A0 & A1 & A2).
      eexists _, _, _.
      split; [exact A0|]. split; [exact A1|]. split; [exact A2|].
      repeat split.
  - intros L F Es.
    destruct (split_ewkb_header b L) as (bo & t & q & rest & -> & Lt & Lq).
    apply srid_flag_true in F. rewrite (wkb_words_cons _ _ _ Lt) in F.
    rewrite (wkb_srid_word_cons _ _ _ _ Lt Lq) in Es. subst s.
    destruct data as [h|k x]; cbn [encodes] in Henc.
    + destruct (strip_inject_hex bo t rest Lt h q Lq Henc F)
        as (h1 & h2 & A0 & A1 & A2 & A3).
      eexists _, _, _.
      split; [exact A0|]. split; [reflexivity|]. split; [reflexivity|].
      split; [exact A1|]. split; [exact A2|].
      repeat split. exact A3.
    + subst x.
      destruct (strip_inject_buf bo t rest Lt k q Lq F) as (A0 & A1 & A2).
      eexists _, _, _.
      split; [exact A0|]. split; [reflexivity|]. split; [reflexivity|].
      split; [exact A1|]. split; [exact A2|].
      repeat split.
Qed.

Lemma wkb_srid_round_trip_witness :
  (exists e0 e1 e2,
     WKBElement (PStr point_wkb_hex) 4326 None = Ok e0
     /\ as_ewkb e0 = Ok e1 /\ as_wkb e1 = Ok e2
     /\ extended e1 = Some true /\ srid e1 = 4326
     /\ WKB_desc e0 = _wkb_to_hex (PStr point_wkb_hex)
     /\ WKB_desc e2 = WKB_desc e0)
  /\
  (exists e0 e1 e2,
     WKBElement (PBuf Bytes point_ewkb) (-1) None = Ok e0
     /\ extended e0 = Some true /\ srid e0 = 4326
     /\ as_wkb e0 = Ok e1 /\ as_ewkb e1 = Ok e2
     /\ extended e1 = Some false
     /\ WKB_desc e0 = _wkb_to_hex (PBuf Bytes point_ewkb)
     /\ WKB_desc e2 = WKB_desc e0).
Proof.
  split.
  - apply (proj1 (wkb_srid_round_trip (PStr point_wkb_hex) point_wkb 4326
                    eq_refl)).
    + vm_compute. discriminate.
    + reflexivity.
    + lia.
  - apply (proj2 (wkb_srid_round_trip (PBuf Bytes point_ewkb) point_ewkb 4326
                    eq_refl)).
    + vm_compute. discriminate.
    + reflexivity.
    + reflexivity.
Defined.

(** C1 as stated fails for a negative SRID other than -1: the unsigned
    packing of the SRID word refuses it, for bytes and for hex text. *)
Lemma wkb_inject_negative_srid_raises :
  5 <= len point_wkb /\ srid_flag point_wkb = false /\ -2 <> -1
  /\ WKBElement (PBuf Bytes point_wkb) (-2) None
     = Ok (mkSpatialElement (-2) (PBuf Bytes point_wkb) (Some false))
  /\ as_ewkb (mkSpatialElement (-2) (PBuf Bytes point_wkb) (Some false))
     = Raise (StructError (lit "argument out of range"))
  /\ WKBElement (PStr point_wkb_hex) (-2) None
     = Ok (mkSpatialElement (-2) (PStr point_wkb_hex) (Some false))
  /\ as_ewkb (mkSpatialElement (-2) (PStr point_wkb_hex) (Some false))
     = Raise (OverflowError (lit "can't convert negative int to unsigned")).
Proof.
  repeat split; try reflexivity; try lia. vm_compute. discriminate.
Qed.

End SridRoundTrip.

(** ** Equality *)

Section Equality.

Lemma list_eqb_eq (A : Type) (eqb : A -> A -> bool) :
  (forall x y, eqb x y = true <-> x = y) ->
  forall l1 l2, list_eqb eqb l1 l2 = true <-> l1 = l2.
Proof.
  intros Heq. induction l1 as [|x r1 IH]; intros [|y r2]; cbn [list_eqb];
    try (split; [discriminate | congruence]); try tauto.
  rewrite andb_true_iff, Heq, IH. split.
  - intros [-> ->]. reflexivity.
  - intros H. injection H as -> ->. auto.
Qed.

Lemma str_eqb_eq (s t : str) : list_eqb Ascii.eqb s t = true <-> s = t.
Proof. apply list_eqb_eq. apply Ascii.eqb_eq. Qed.

Lemma py_eq_extended (x y : option bool) :
  py_eq (pyval_of_extended x) (pyval_of_extended y) = true <-> x = y.
Proof.
  destruct x as [[]|], y as [[]|]; simpl; split; congruence.
Qed.

Lemma py_eq_srid (n m : Z) : py_eq (PyInt n) (PyInt m) = true <-> n = m.
Proof. simpl. apply Z.eqb_eq. Qed.

Lemma py_eq_desc (s t : str) : py_eq (PyStr s) (PyStr t) = true <-> s = t.
Proof. simpl. apply str_eqb_eq. Qed.

Lemma py_compare_extended (x : pyval) (y : option bool) :
  py_compare x (pyval_of_extended y) = Ok (py_eq x (pyval_of_extended y)).
Proof. now destruct y. Qed.

Lemma SpatialElement_eq_spatial (a b : element) :
  SpatialElement_eq a (Spatial b)
  = Ok (py_eq (pyval_of_extended (extended_of a)) (pyval_of_extended (extended_of b))
        && py_eq (PyInt (srid_of a)) (PyInt (srid_of b))
        && py_eq (PyStr (desc a)) (PyStr (desc b))).
Proof.
  unfold SpatialElement_eq, getattr. cbn [bind].
  rewrite py_compare_extended. cbn [bind].
  destruct (py_eq (pyval_of_extended _) _); [|reflexivity].
  cbn [py_compare bind].
  destruct (py_eq (PyInt _) _); reflexivity.
Qed.

Lemma WKBElement_data (d : payload) (sr : Z) (x : option bool)
    (e : SpatialElement payload) :
  WKBElement d sr x = Ok e -> data e = d.
Proof.
  unfold WKBElement.
  destruct (_ || _); [|intros H; injection H as <-; reflexivity].
  destruct (match d with PStr s => _ | PBuf _ b => _ end) as [header|];
    [|discriminate].
  cbn [bind]. destruct (index0 _ _); [|discriminate].
  cbn [bind]. destruct (wkb_type_int_of _ _); [|discriminate].
  cbn [bind]. destruct (_ && _).
  - destruct (unpack_int _ _ _); [|discriminate].
    intros H; injection H as <-; reflexivity.
  - intros H; injection H as <-; reflexivity.
Qed.

Lemma WKBElement_buf_kind (k k' : buffer_kind) (b : bytes) (sr : Z)
    (x : option bool) (e : SpatialElement payload) :
  WKBElement (PBuf k b) sr x = Ok e ->
  WKBElement (PBuf k' b) sr x
  = Ok (SpatialElement_init (PBuf k' b) (srid e) (extended e)).
Proof.
  unfold WKBElement.
  destruct (_ || _); [|intros H; injection H as <-; reflexivity].
  cbn [bind]. destruct (slice_to 9 b) as [|b0 r]; [discriminate|].
  cbn [index0 bind]. destruct (wkb_type_int_of _ _); [|discriminate].
  cbn [bind]. destruct (_ && _).
  - destruct (unpack_int _ _ _); [|discriminate].
    intros H; injection H as <-; reflexivity.
  - intros H; injection H as <-; reflexivity.
Qed.

(** C4.  [a == b] is [True] exactly when the [extended] flags, the SRIDs
    and the descriptions are equal, and is [False] otherwise.  The
    description of a [WKBElement] built from a buffer, and of one built,
    with the same arguments, from a hex string of that buffer in any letter
    case, is the same text: the hex digits of the buffer, two a byte, in
    lowercase (it decodes back to the buffer).  So the two elements compare
    equal in both directions. *)
Theorem spatial_eq_iff :
  (forall a b : element,
     exists r, SpatialElement_eq a (Spatial b) = Ok r
       /\ (r = true <->
           extended_of a = extended_of b /\ srid_of a = srid_of b
           /\ desc a = desc b))
  /\
  (forall (k : buffer_kind) (h : str) (bs : bytes) (sr : Z) (x : option bool)
          (ea : SpatialElement payload),
     unhexlify h = Ok bs ->
     WKBElement (PBuf k bs) sr x = Ok ea ->
     exists eh,
       WKBElement (PStr h) sr x = Ok eh
       /\ data ea = PBuf k bs /\ data eh = PStr h
       /\ desc (WKB ea) = hexlify bs /\ desc (WKB eh) = hexlify bs
       /\ lower h = hexlify bs
       /\ lower (hexlify bs) = hexlify bs
       /\ unhexlify (hexlify bs) = Ok bs
       /\ desc (WKB ea) = desc (WKB eh)
       /\ SpatialElement_eq (WKB ea) (Spatial (WKB eh)) = Ok true
       /\ SpatialElement_eq (WKB eh) (Spatial (WKB ea)) = Ok true).
Proof.
  split.
  - intros a b. eexists. split; [apply SpatialElement_eq_spatial|].
    rewrite !andb_true_iff, py_eq_extended, py_eq_srid, py_eq_desc. tauto.
  - intros k h bs sr x ea Hh Ha.
    pose proof (WKBElement_data _ _ _ _ Ha) as Da.
    pose proof (WKBElement_buf_kind k Bytes _ _ _ _ Ha) as Hb.
    exists (SpatialElement_init (PStr h) (srid ea) (extended ea)).
    assert (Ha' : desc (WKB ea) = hexlify bs).
    { unfold desc, WKB_desc. rewrite Da. cbn [_wkb_to_hex].
      apply hexlify_lower. }
    assert (Hh' : desc (WKB (SpatialElement_init (PStr h) (srid ea) (extended ea)))
                  = hexlify bs).
    { unfold desc, WKB_desc, SpatialElement_init. cbn [data _wkb_to_hex].
      apply (lower_unhexlify _ _ Hh). }
    split; [rewrite (WKBElement_hex _ _ _ _ Hh), Hb; reflexivity|].
    split; [exact Da|]. split; [reflexivity|].
    split; [exact Ha'|]. split; [exact Hh'|].
    split; [apply (lower_unhexlify _ _ Hh)|].
    split; [apply hexlify_lower|].
    split; [apply unhexlify_hexlify|].
    split; [now rewrite Ha', Hh'|].
    assert (E : forall a b, extended_of a = extended_of b ->
                  srid_of a = srid_of b -> desc a = desc b ->
                  SpatialElement_eq a (Spatial b) = Ok true).
    { intros a b E1 E2 E3. rewrite SpatialElement_eq_spatial.
      rewrite (proj2 (py_eq_extended _ _) E1), (proj2 (py_eq_srid _ _) E2),
        (proj2 (py_eq_desc _ _) E3). reflexivity. }
    split; apply E; try reflexivity; now rewrite Ha', Hh'.
Qed.

Lemma spatial_eq_iff_witness :
  let ea := mkSpatialElement 4326 (PBuf Bytes point_ewkb) (Some true) in
  exists eh,
    WKBElement (PStr point_ewkb_hex) (-1) None = Ok eh
    /\ data ea = PBuf Bytes point_ewkb /\ data eh = PStr point_ewkb_hex
    /\ desc (WKB ea) = hexlify point_ewkb /\ desc (WKB eh) = hexlify point_ewkb
    /\ lower point_ewkb_hex = hexlify point_ewkb
    /\ lower (hexlify point_ewkb) = hexlify point_ewkb
    /\ unhexlify (hexlify point_ewkb) = Ok point_ewkb
    /\ desc (WKB ea) = desc (WKB eh)
    /\ SpatialElement_eq (WKB ea) (Spatial (WKB eh)) = Ok true
    /\ SpatialElement_eq (WKB eh) (Spatial (WKB ea)) = Ok true.
Proof.
  apply (proj2 spatial_eq_iff Bytes point_ewkb_hex point_ewkb (-1) None).
  - reflexivity.
  - reflexivity.
Defined.

Lemma SpatialElement_ne_of_eq (a : element) (o : pyobject)
    (r : result bool) :
  SpatialElement_eq a o = r ->
  SpatialElement_ne a o = (b <- r ;; Ok (negb b)).
Proof. intros <-. reflexivity. Qed.

(** [==] against a quiet object that lacks an attribute. *)
Lemma eq_quiet_foreign (a : element) (attrs : attribute -> result pyval) :
  (exists name, attrs name = Raise AttributeError) -> quiet attrs ->
  SpatialElement_eq a (Foreign attrs) = Ok false.
Proof.
  intros [name Hn] Q.
  pose proof (Q attr_extended) as Q1. pose proof (Q attr_srid) as Q2.
  pose proof (Q attr_desc) as Q3.
  unfold SpatialElement_eq, getattr.
  destruct (attrs attr_extended) as [v1|e1] eqn:E1; cbn [bind];
    [|subst e1; reflexivity].
  destruct (py_compare _ v1) as [[]|c1] eqn:C1; cbn [bind].
  3: { destruct v1; try discriminate C1. cbn [py_compare] in C1.
       subst eq_outcome. subst c1. reflexivity. }
  2: reflexivity.
  destruct (attrs attr_srid) as [v2|e2] eqn:E2; cbn [bind];
    [|subst e2; reflexivity].
  destruct (py_compare _ v2) as [[]|c2] eqn:C2; cbn [bind].
  3: { destruct v2; try discriminate C2. cbn [py_compare] in C2.
       subst eq_outcome. subst c2. reflexivity. }
  2: reflexivity.
  destruct (attrs attr_desc) as [v3|e3] eqn:E3; cbn [bind];
    [|subst e3; reflexivity].
  destruct name; congruence.
Qed.

(** An exception other than [AttributeError] raised by the first
    attribute, or by the comparison of its value, is not caught. *)
Lemma eq_foreign_propagates (a : element) (attrs : attribute -> result pyval)
    (e : exn) :
  e <> AttributeError ->
  attrs attr_extended = Raise e \/ attrs attr_extended = Ok (PyObject (Raise e)) ->
  SpatialElement_eq a (Foreign attrs) = Raise e.
Proof.
  intros Ne [H|H]; unfold SpatialElement_eq, getattr; rewrite H;
    cbn [bind py_compare]; destruct e; try reflexivity; now elim Ne.
Qed.

(** C10, as amended.  Let [x] lack one of the attributes [extended],
    [srid], [desc].  If reading the attributes of [x] and comparing their
    values raises nothing but [AttributeError], then [a == x] is [False]
    and [a != x] is [True].  Without that proviso the comparison is not
    total: any other exception raised by reading [x.extended], or by
    comparing its value, leaves [==] and [!=], whatever [x] lacks. *)
Theorem eq_foreign_objects (a : element) (attrs : attribute -> result pyval) :
  (exists name, attrs name = Raise AttributeError) ->
  (quiet attrs ->
   SpatialElement_eq a (Foreign attrs) = Ok false
   /\ SpatialElement_ne a (Foreign attrs) = Ok true)
  /\ (forall e, e <> AttributeError ->
        attrs attr_extended = Raise e
        \/ attrs attr_extended = Ok (PyObject (Raise e)) ->
        SpatialElement_eq a (Foreign attrs) = Raise e
        /\ SpatialElement_ne a (Foreign attrs) = Raise e).
Proof.
  intros L. split.
  - intros Q. pose proof (eq_quiet_foreign a attrs L Q) as E.
    split; [exact E|]. now rewrite (SpatialElement_ne_of_eq _ _ _ E).
  - intros e Ne H. pose proof (eq_foreign_propagates a attrs e Ne H) as E.
    split; [exact E|]. now rewrite (SpatialElement_ne_of_eq _ _ _ E).
Qed.

Lemma eq_foreign_objects_witness :
  let a := WKT (mkSpatialElement 4326 (lit "POINT(1 1)") (Some false)) in
  let x := fun name => match name with
                       | attr_extended => Ok (PyBool false)
                       | attr_srid => Ok (PyInt 4326)
                       | attr_desc => Raise AttributeError
                       end in
  SpatialElement_eq a (Foreign x) = Ok false
  /\ SpatialElement_ne a (Foreign x) = Ok true.
Proof.
  intros a x.
  apply (eq_foreign_objects a x).
  - exists attr_desc. reflexivity.
  - intros name. destruct name; cbn; auto.
Defined.

(** C10 as stated fails: an object without [srid] and [desc] whose
    [extended] is a property that raises [ValueError] makes [==] and [!=]
    raise; so does one whose [extended] holds an object with a raising
    [__eq__]. *)
Lemma eq_foreign_property_raises :
  let a := WKT (mkSpatialElement 4326 (lit "POINT(1 1)") (Some false)) in
  let x := fun name => match name with
                       | attr_extended => Raise (ValueError (lit "boom"))
                       | _ => Raise AttributeError
                       end in
  let y := fun name => match name with
                       | attr_extended =>
                           Ok (PyObject (Raise (OtherError (lit "RuntimeError")
                                                  (lit "boom"))))
                       | _ => Raise AttributeError
                       end in
  x attr_srid = Raise AttributeError
  /\ SpatialElement_eq a (Foreign x) = Raise (ValueError (lit "boom"))
  /\ SpatialElement_ne a (Foreign x) = Raise (ValueError (lit "boom"))
  /\ y attr_srid = Raise AttributeError
  /\ SpatialElement_eq a (Foreign y)
     = Raise (OtherError (lit "RuntimeError") (lit "boom")).
Proof. repeat split. Qed.

End Equality.

(** ** [RasterElement] *)

Section RasterConstructor.

Lemma unpack_int_i (o : order) (bs : bytes) (n : Z) :
  unpack_int o fmt_i bs = Ok n -> n = to_signed 32 (bytes_to_uint o bs).
Proof.
  unfold unpack_int, struct_unpack.
  destruct (len bs =? calcsize fmt_i); [|discriminate].
  cbn [bind unpack_value int_of_sample]. congruence.
Qed.

(** What the second half of [RasterElement.__init__] returns on a header
    [hdr], whatever text is stored. *)
Lemma RasterElement_parsed (k : buffer_kind) (hdr : bytes) (stored : str)
    (r : result (SpatialElement str)) (e : SpatialElement str) :
  r = (byte_order <- index0 k hdr ;;
       if negb ((byte_order =? 0) || (byte_order =? 1)) then
         Raise (ValueError (lit "Invalid byte order in raster: "
                              ++ str_of_int byte_order ++ lit ", must be 0 or 1"))
       else
         let endian_fmt := if byte_order =? 1 then LittleEndian else BigEndian in
         let srid_bytes := slice 53 57 hdr in
         if negb (len srid_bytes =? 4) then
           Raise (ValueError (lit "Could not extract SRID bytes from raster data, got "
                                ++ str_of_int (len srid_bytes) ++ lit " bytes"))
         else
           srid <- unpack_int endian_fmt fmt_i srid_bytes ;;
           Ok (SpatialElement_init stored srid (Some true))) ->
  match r with
  | Raise (IndexError m) | Raise (StructError m) =>
      Raise (ValueError (lit "Error parsing raster data: " ++ m))
  | r' => r'
  end = Ok e ->
  extended e = Some true /\ data e = stored
  /\ srid e = raster_srid_word hdr
  /\ (raster_byte0 hdr = 0 \/ raster_byte0 hdr = 1).
Proof.
  intros -> H. destruct hdr as [|b0 tl].
  - discriminate H.
  - cbn [index0 bind] in H.
    destruct (negb ((byte_to_Z b0 =? 0) || (byte_to_Z b0 =? 1))) eqn:E;
      [discriminate H|].
    cbv zeta in H.
    destruct (negb (len (slice 53 57 (b0 :: tl)) =? 4)); [discriminate H|].
    destruct (unpack_int _ fmt_i _) as [n|[]] eqn:U; try discriminate H.
    cbn [bind] in H. injection H as <-.
    apply unpack_int_i in U.
    apply negb_false_iff, orb_true_iff in E.
    repeat split; [exact U|].
    cbn [raster_byte0]. destruct E as [E|E]; apply Z.eqb_eq in E; auto.
Qed.

(** C3, as amended.  A constructed [RasterElement] is extended and its
    SRID is the signed 32-bit word at bytes 53..56 of the header, read in
    the order named by byte 0, which is 0 or 1.  Built from bytes or a
    memoryview, its [data] is the lowercase hex text of the whole input;
    built from a hex string of at least 122 characters whose first 122
    decode to the header, its [data] is that string unchanged. *)
Theorem RasterElement_attributes (input : payload) (e : SpatialElement str) :
  RasterElement input = Ok e ->
  extended e = Some true
  /\ match input with
     | PStr s =>
         122 <= len s /\ data e = s
         /\ exists hdr, unhexlify (slice_to 122 s) = Ok hdr
              /\ srid e = raster_srid_word hdr
              /\ (raster_byte0 hdr = 0 \/ raster_byte0 hdr = 1)
     | PBuf _ b =>
         61 <= len b /\ data e = hexlify b
         /\ lower (data e) = data e /\ unhexlify (data e) = Ok b
         /\ srid e = raster_srid_word b
         /\ (raster_byte0 b = 0 \/ raster_byte0 b = 1)
     end.
Proof.
  unfold RasterElement. intros H. destruct input as [s|k b].
  - change (MIN_HEADER_SIZE * 2) with 122 in H.
    destruct (len s <? 122) eqn:L; [discriminate H|].
    destruct (unhexlify (slice_to 122 s)) as [hdr|[]] eqn:U; try discriminate H.
    cbn [bind] in H.
    destruct (RasterElement_parsed _ _ _ _ _ eq_refl H) as (A & B & C & D).
    split; [exact A|]. split; [lia|]. split; [exact B|].
    exists hdr. auto.
  - change MIN_HEADER_SIZE with 61 in H.
    destruct (len b <? 61) eqn:L; [discriminate H|].
    cbn [bind] in H.
    destruct (RasterElement_parsed _ _ _ _ _ eq_refl H) as (A & B & C & D).
    split; [exact A|]. split; [lia|]. split; [exact B|].
    rewrite B. split; [apply hexlify_lower|].
    split; [apply unhexlify_hexlify|]. auto.
Qed.

Lemma RasterElement_attributes_witness :
  exists e,
    RasterElement (PBuf Bytes raster_bytes) = Ok e
    /\ extended e = Some true
    /\ 61 <= len raster_bytes /\ data e = hexlify raster_bytes
    /\ lower (data e) = data e /\ unhexlify (data e) = Ok raster_bytes
    /\ srid e = raster_srid_word raster_bytes
    /\ (raster_byte0 raster_bytes = 0 \/ raster_byte0 raster_bytes = 1).
Proof.
  eexists. split; [reflexivity|].
  apply (RasterElement_attributes (PBuf Bytes raster_bytes)). reflexivity.
Defined.

(** C3 as stated fails for a hex string with capital digits: the string is
    stored as given, so [data] is not lowercase. *)
Lemma RasterElement_keeps_capitals :
  RasterElement (PStr raster_hex)
  = Ok (mkSpatialElement 4326 raster_hex (Some true))
  /\ lower raster_hex <> raster_hex.
Proof.
  split; [reflexivity|]. vm_compute. discriminate.
Qed.

End RasterConstructor.

Section RasterErrors.

Lemma RasterElement_bad_order (k : buffer_kind) (hdr : bytes) (stored : str)
    (r : result (SpatialElement str)) :
  r = (byte_order <- index0 k hdr ;;
       if negb ((byte_order =? 0) || (byte_order =? 1)) then
         Raise (invalid_byte_order byte_order)
       else
         let endian_fmt := if byte_order =? 1 then LittleEndian else BigEndian in
         let srid_bytes := slice 53 57 hdr in
         if negb (len srid_bytes =? 4) then
           Raise (ValueError (lit "Could not extract SRID bytes from raster data, got "
                                ++ str_of_int (len srid_bytes) ++ lit " bytes"))
         else
           srid <- unpack_int endian_fmt fmt_i srid_bytes ;;
           Ok (SpatialElement_init stored srid (Some true))) ->
  raster_byte0 hdr <> 0 -> raster_byte0 hdr <> 1 ->
  match r with
  | Raise (IndexError m) | Raise (StructError m) =>
      Raise (ValueError (lit "Error parsing raster data: " ++ m))
  | r' => r'
  end = Raise (invalid_byte_order (raster_byte0 hdr)).
Proof.
  intros -> N0 N1. destruct hdr as [|b0 tl]; [now elim N0|].
  cbn [raster_byte0] in *. cbn [index0 bind].
  apply Z.eqb_neq in N0, N1. rewrite N0, N1. reflexivity.
Qed.

Lemma RasterElement_short_buffer (k : buffer_kind) (b : bytes) :
  len b < 61 ->
  RasterElement (PBuf k b)
  = Raise (ValueError (lit "Raster binary data too short: " ++ str_of_int (len b)
                         ++ lit " bytes, need at least 61")).
Proof.
  intros L. unfold RasterElement. change MIN_HEADER_SIZE with 61.
  apply Z.ltb_lt in L. rewrite L. reflexivity.
Qed.

(** C5.  A binary buffer shorter than 61 bytes is refused with a
    [ValueError] whose text gives the number of bytes available and the 61
    required; a buffer, or a hex string of a header, whose first byte is
    neither 0 nor 1 is refused with a [ValueError] naming that byte. *)
Theorem RasterElement_malformed (k : buffer_kind) (b : bytes) (s : str) :
  (len b < 61 ->
   RasterElement (PBuf k b)
   = Raise (ValueError (lit "Raster binary data too short: " ++ str_of_int (len b)
                          ++ lit " bytes, need at least 61")))
  /\ (61 <= len b -> raster_byte0 b <> 0 -> raster_byte0 b <> 1 ->
      RasterElement (PBuf k b) = Raise (invalid_byte_order (raster_byte0 b)))
  /\ (122 <= len s -> unhexlify (slice_to 122 s) = Ok b ->
      raster_byte0 b <> 0 -> raster_byte0 b <> 1 ->
      RasterElement (PStr s) = Raise (invalid_byte_order (raster_byte0 b))).
Proof.
  split; [|split].
  - apply RasterElement_short_buffer.
  - intros L N0 N1. unfold RasterElement. change MIN_HEADER_SIZE with 61.
    replace (len b <? 61) with false by (symmetry; apply Z.ltb_ge; lia).
    cbn [bind]. apply (RasterElement_bad_order k b (hexlify b) _ eq_refl N0 N1).
  - intros L U N0 N1. unfold RasterElement.
    change (MIN_HEADER_SIZE * 2) with 122.
    replace (len s <? 122) with false by (symmetry; apply Z.ltb_ge; lia).
    rewrite U. cbn [bind]. apply (RasterElement_bad_order Bytes b s _ eq_refl N0 N1).
Qed.

Lemma RasterElement_malformed_witness :
  RasterElement (PBuf Bytes (firstn 40 raster_bytes))
  = Raise (ValueError (lit "Raster binary data too short: 40 bytes, need at least 61"))
  /\ RasterElement (PBuf Bytes (x02 :: skipn 1 raster_bytes))
     = Raise (ValueError (lit "Invalid byte order in raster: 2, must be 0 or 1"))
  /\ RasterElement (PStr (lit "02" ++ skipn 2 raster_hex))
     = Raise (ValueError (lit "Invalid byte order in raster: 2, must be 0 or 1")).
Proof.
  pose proof (RasterElement_malformed Bytes (firstn 40 raster_bytes) [])
    as (A & _ & _).
  pose proof (RasterElement_malformed Bytes (x02 :: skipn 1 raster_bytes) [])
    as (_ & B & _).
  pose proof (RasterElement_malformed Bytes
                (x02 :: firstn 60 (skipn 1 raster_bytes))
                (lit "02" ++ skipn 2 raster_hex)) as (_ & _ & C).
  split; [|split].
  - apply A. vm_compute. reflexivity.
  - apply B; vm_compute; discriminate.
  - apply C; try (vm_compute; discriminate). reflexivity.
Defined.

Lemma unhexlify_raises (s : str) (err : exn) :
  unhexlify s = Raise err -> exists m, is_ValueError err = Some m.
Proof.
  unfold unhexlify. destruct (existsb _ s).
  - intros H; injection H as <-. eexists; reflexivity.
  - destruct (Nat.odd _).
    + intros H; injection H as <-. eexists; reflexivity.
    + destruct (unhex_pairs s); [discriminate|].
      intros H; injection H as <-. eexists; reflexivity.
Qed.

Lemma firstn_exact_app (A : Type) (n : nat) (p t : list A) :
  length p = n -> firstn n (p ++ t) = p.
Proof.
  intros <-. rewrite firstn_app, firstn_all, Nat.sub_diag.
  cbn [firstn]. apply app_nil_r.
Qed.

Lemma slice_to_app (A : Type) (n : Z) (p t : list A) :
  len p = n -> slice_to n (p ++ t) = p /\ slice_to n p = p.
Proof.
  intros L. unfold slice_to. unfold len in L. split.
  - apply firstn_exact_app. lia.
  - rewrite <- (app_nil_r p) at 1. apply firstn_exact_app. lia.
Qed.

Lemma slice_app_prefix (A : Type) (lo hi : Z) (p t : list A) :
  0 <= lo -> hi <= len p -> slice lo hi (p ++ t) = slice lo hi p.
Proof.
  intros H0 H. unfold slice, len in *.
  rewrite skipn_app, firstn_app, length_skipn.
  replace (Z.to_nat (hi - lo) - (length p - Z.to_nat lo))%nat with 0%nat by lia.
  cbn [firstn]. apply app_nil_r.
Qed.

(** The part of [RasterElement] after the header is in hand: only the
    first byte and the bytes 53..56 of the header are read. *)
Lemma RasterElement_parse_with_data (k : buffer_kind) (hdr hdr' : bytes)
    (stored stored' : str) (r r' : result (SpatialElement str)) :
  r = (byte_order <- index0 k hdr ;;
       if negb ((byte_order =? 0) || (byte_order =? 1)) then
         Raise (invalid_byte_order byte_order)
       else
         let endian_fmt := if byte_order =? 1 then LittleEndian else BigEndian in
         let srid_bytes := slice 53 57 hdr in
         if negb (len srid_bytes =? 4) then
           Raise (ValueError (lit "Could not extract SRID bytes from raster data, got "
                                ++ str_of_int (len srid_bytes) ++ lit " bytes"))
         else
           srid <- unpack_int endian_fmt fmt_i srid_bytes ;;
           Ok (SpatialElement_init stored srid (Some true))) ->
  r' = (byte_order <- index0 k hdr' ;;
        if negb ((byte_order =? 0) || (byte_order =? 1)) then
          Raise (invalid_byte_order byte_order)
        else
          let endian_fmt := if byte_order =? 1 then LittleEndian else BigEndian in
          let srid_bytes := slice 53 57 hdr' in
          if negb (len srid_bytes =? 4) then
            Raise (ValueError (lit "Could not extract SRID bytes from raster data, got "
                                 ++ str_of_int (len srid_bytes) ++ lit " bytes"))
          else
            srid <- unpack_int endian_fmt fmt_i srid_bytes ;;
            Ok (SpatialElement_init stored' srid (Some true))) ->
  index0 k hdr' = index0 k hdr -> slice 53 57 hdr' = slice 53 57 hdr ->
  match r' with
  | Raise (IndexError m) | Raise (StructError m) =>
      Raise (ValueError (lit "Error parsing raster data: " ++ m))
  | r0 => r0
  end
  = with_data stored'
      match r with
      | Raise (IndexError m) | Raise (StructError m) =>
          Raise (ValueError (lit "Error parsing raster data: " ++ m))
      | r0 => r0
      end.
Proof.
  intros -> -> E1 E2. rewrite E1, E2.
  destruct (index0 k hdr) as [bo|e]; cbn [bind]; [|destruct e; reflexivity].
  destruct (negb ((bo =? 0) || (bo =? 1))); [reflexivity|]. cbv zeta.
  destruct (negb (len (slice 53 57 hdr) =? 4)); [reflexivity|].
  destruct (unpack_int _ fmt_i (slice 53 57 hdr)) as [v|e]; cbn [bind];
    [reflexivity | destruct e; reflexivity].
Qed.

Lemma RasterElement_text_tail (p t : str) :
  len p = 122 ->
  RasterElement (PStr (p ++ t)) = with_data (p ++ t) (RasterElement (PStr p)).
Proof.
  intros L. destruct (slice_to_app _ 122 p t L) as (S1 & S2).
  assert (Lt : 122 <= len (p ++ t)).
  { unfold len in *. rewrite length_app. lia. }
  unfold RasterElement. change (MIN_HEADER_SIZE * 2) with 122.
  replace (len (p ++ t) <? 122) with false by (symmetry; apply Z.ltb_ge; lia).
  replace (len p <? 122) with false by (symmetry; apply Z.ltb_ge; lia).
  rewrite S1, S2.
  destruct (unhexlify p) as [bin|e]; [|destruct e; reflexivity].
  cbn [bind].
  apply (RasterElement_parse_with_data Bytes bin bin p (p ++ t) _ _
           eq_refl eq_refl eq_refl eq_refl).
Qed.

Lemma RasterElement_buffer_tail (k : buffer_kind) (p t : bytes) :
  len p = 61 ->
  RasterElement (PBuf k (p ++ t))
  = with_data (hexlify (p ++ t)) (RasterElement (PBuf k p)).
Proof.
  intros L.
  assert (Lt : 61 <= len (p ++ t)).
  { unfold len in *. rewrite length_app. lia. }
  unfold RasterElement. change MIN_HEADER_SIZE with 61.
  replace (len (p ++ t) <? 61) with false by (symmetry; apply Z.ltb_ge; lia).
  replace (len p <? 61) with false by (symmetry; apply Z.ltb_ge; lia).
  cbn [bind].
  apply (RasterElement_parse_with_data k p (p ++ t) (hexlify p)
           (hexlify (p ++ t)) _ _ eq_refl eq_refl).
  - destruct p as [|b0 r]; [unfold len in L; simpl in L; lia | reflexivity].
  - apply slice_app_prefix; lia.
Qed.

Lemma WKBElement_text_tail (p t : str) (sr : Z) (x : option bool) :
  len p = 18 ->
  WKBElement (PStr (p ++ t)) sr x
  = with_data (PStr (p ++ t)) (WKBElement (PStr p) sr x).
Proof.
  intros L. destruct (slice_to_app _ 18 p t L) as (S1 & S2).
  unfold WKBElement. rewrite S1, S2.
  destruct ((sr =? -1) || match x with None => true | Some b => b end);
    [|reflexivity].
  destruct (unhexlify p) as [header|e]; cbn [bind]; [|reflexivity].
  destruct (index0 Bytes header) as [bo|e]; cbn [bind]; [|reflexivity].
  destruct (wkb_type_int_of _ _) as [ty|e]; cbn [bind]; [|reflexivity].
  destruct (_ && _); [|reflexivity].
  destruct (unpack_int _ _ _) as [w|e]; reflexivity.
Qed.

Lemma WKBElement_buffer_tail (k : buffer_kind) (p t : bytes) (sr : Z)
    (x : option bool) :
  len p = 9 ->
  WKBElement (PBuf k (p ++ t)) sr x
  = with_data (PBuf k (p ++ t)) (WKBElement (PBuf k p) sr x).
Proof.
  intros L. destruct (slice_to_app _ 9 p t L) as (S1 & S2).
  unfold WKBElement. rewrite S1, S2.
  destruct ((sr =? -1) || match x with None => true | Some b => b end);
    [|reflexivity].
  cbn [bind].
  destruct (index0 k p) as [bo|e]; cbn [bind]; [|reflexivity].
  destruct (wkb_type_int_of _ _) as [ty|e]; cbn [bind]; [|reflexivity].
  destruct (_ && _); [|reflexivity].
  destruct (unpack_int _ _ _) as [w|e]; reflexivity.
Qed.

(** C9, as amended.  [RasterElement] raises at construction time when a
    buffer is shorter than 61 bytes, when a hex string is shorter than 122
    characters, and when the first 122 characters of a hex string do not
    decode.  [WKBElement] raises at construction time, when it reads the
    header (srid -1, or [extended] unset or true), if the first 18
    characters of a hex string do not decode or the buffer is empty.
    Neither constructor validates what follows these prefixes: built from
    a prefix of 122 characters or 61 bytes ([RasterElement]), or of 18
    characters or 9 bytes ([WKBElement]), followed by anything at all,
    the outcome is the outcome for the prefix alone, the same exception or
    the same SRID and flag, with the whole input as the stored data. *)
Theorem construction_time_checks :
  (forall k b, len b < 61 ->
     exists m, RasterElement (PBuf k b) = Raise (ValueError m))
  /\ (forall s, len s < 122 ->
        exists m, RasterElement (PStr s) = Raise (ValueError m))
  /\ (forall s err, 122 <= len s -> unhexlify (slice_to 122 s) = Raise err ->
        exists m, RasterElement (PStr s) = Raise (ValueError m))
  /\ (forall s sr x err, reads_header sr x ->
        unhexlify (slice_to 18 s) = Raise err ->
        WKBElement (PStr s) sr x = Raise err)
  /\ (forall k sr x, reads_header sr x ->
        exists m, WKBElement (PBuf k []) sr x = Raise (IndexError m))
  /\ (forall (p t : str), len p = 122 ->
        RasterElement (PStr (p ++ t))
        = with_data (p ++ t) (RasterElement (PStr p)))
  /\ (forall k (p t : bytes), len p = 61 ->
        RasterElement (PBuf k (p ++ t))
        = with_data (hexlify (p ++ t)) (RasterElement (PBuf k p)))
  /\ (forall (p t : str) sr x, len p = 18 ->
        WKBElement (PStr (p ++ t)) sr x
        = with_data (PStr (p ++ t)) (WKBElement (PStr p) sr x))
  /\ (forall k (p t : bytes) sr x, len p = 9 ->
        WKBElement (PBuf k (p ++ t)) sr x
        = with_data (PBuf k (p ++ t)) (WKBElement (PBuf k p) sr x)).
Proof.
  assert (Hcond : forall sr x, reads_header sr x ->
            (sr =? -1) || match x with None => true | Some b => b end = true).
  { intros sr x [->|[->| ->]]; [reflexivity | apply orb_true_r ..]. }
  split; [|split; [|split; [|split; [|split; [|split; [|split; [|split]]]]]]].
  - intros k b L. eexists.
    apply RasterElement_short_buffer. exact L.
  - intros s L. unfold RasterElement. change (MIN_HEADER_SIZE * 2) with 122.
    apply Z.ltb_lt in L. rewrite L. eexists. reflexivity.
  - intros s err L U. unfold RasterElement.
    change (MIN_HEADER_SIZE * 2) with 122.
    replace (len s <? 122) with false by (symmetry; apply Z.ltb_ge; lia).
    rewrite U. destruct (unhexlify_raises _ _ U) as [m Hm].
    destruct err; try discriminate Hm; eexists; reflexivity.
  - intros s sr x err R U. unfold WKBElement.
    rewrite (Hcond _ _ R), U. reflexivity.
  - intros k sr x R. unfold WKBElement. rewrite (Hcond _ _ R).
    eexists. reflexivity.
  - apply RasterElement_text_tail.
  - apply RasterElement_buffer_tail.
  - apply WKBElement_text_tail.
  - apply WKBElement_buffer_tail.
Qed.

Lemma construction_time_checks_witness :
  (exists m, RasterElement (PBuf Bytes (firstn 40 raster_bytes))
             = Raise (ValueError m))
  /\ WKBElement (PStr (lit "0101zz")) (-1) None
     = Raise (BinasciiError (lit "Non-hexadecimal digit found")).
Proof.
  destruct construction_time_checks as (A & _ & _ & B & _).
  split.
  - apply A. vm_compute. reflexivity.
  - apply B; [left; reflexivity | reflexivity].
Defined.

(** C9 as stated fails: constructors accept payloads that are not valid,
    and the description never raises afterwards.  With an explicit SRID and
    [extended=False] a [WKBElement] takes any text; otherwise only the
    first 18 characters are decoded; [RasterElement] decodes only the
    first 122. *)
Lemma invalid_payload_is_constructed :
  unhexlify (lit "zz") = Raise (BinasciiError (lit "Non-hexadecimal digit found"))
  /\ WKBElement (PStr (lit "zz")) 4326 (Some false)
     = Ok (mkSpatialElement 4326 (PStr (lit "zz")) (Some false))
  /\ WKB_desc (mkSpatialElement 4326 (PStr (lit "zz")) (Some false)) = lit "zz"
  /\ unhexlify (point_wkb_hex ++ lit "zz")
     = Raise (BinasciiError (lit "Non-hexadecimal digit found"))
  /\ WKBElement (PStr (point_wkb_hex ++ lit "zz")) (-1) None
     = Ok (mkSpatialElement (-1) (PStr (point_wkb_hex ++ lit "zz")) (Some false))
  /\ unhexlify (raster_hex ++ lit "zz")
     = Raise (BinasciiError (lit "Non-hexadecimal digit found"))
  /\ RasterElement (PStr (raster_hex ++ lit "zz"))
     = Ok (mkSpatialElement 4326 (raster_hex ++ lit "zz") (Some true)).
Proof. repeat split. Qed.

End RasterErrors.

(** ** Decimal text *)

Section Decimal.

Lemma digit_char_spec (d : Z) :
  0 <= d < 10 -> is_digit (digit_char d) = true /\ ord (digit_char d) - 48 = d.
Proof.
  intros R.
  assert (E : ord (digit_char d) = 48 + d).
  { unfold ord, digit_char. rewrite N_ascii_embedding by lia. lia. }
  unfold is_digit. rewrite E. split; [|lia].
  apply andb_true_iff. split; apply Z.leb_le; lia.
Qed.

Lemma decimal_value_app (a : Z) (x y : str) :
  decimal_value a (x ++ y) = decimal_value (decimal_value a x) y.
Proof. apply fold_left_app. Qed.

Lemma digits_from_spec (fuel : nat) :
  forall n acc, 0 <= n < 2 ^ Z.of_nat (S fuel) ->
    exists ds, digits_from (S fuel) n acc = ds ++ acc
      /\ all_digits ds /\ decimal_value 0 ds = n.
Proof.
  induction fuel as [|f IH]; intros n acc R;
    rewrite Nat2Z.inj_succ, Z.pow_succ_r in R by lia;
    pose proof (Z.mod_pos_bound n 10 ltac:(lia)) as Rm;
    destruct (digit_char_spec (n mod 10) Rm) as (D1 & D2);
    change (digits_from (S ?g) n acc)
      with (if n <? 10 then digit_char (n mod 10) :: acc
            else digits_from g (n / 10) (digit_char (n mod 10) :: acc));
    destruct (n <? 10) eqn:E.
  1, 3: apply Z.ltb_lt in E; exists [digit_char (n mod 10)];
    split; [reflexivity|]; split;
    [ split; [discriminate | constructor; [exact D1 | constructor]]
    | unfold decimal_value; cbn [fold_left]; rewrite D2, Z.mod_small; lia ].
  - apply Z.ltb_ge in E. simpl in R. lia.
  - apply Z.ltb_ge in E.
    assert (Rq : 0 <= n / 10 < 2 ^ Z.of_nat (S f)).
    { split; [apply Z.div_pos; lia | apply Z.div_lt_upper_bound; lia]. }
    destruct (IH (n / 10) (digit_char (n mod 10) :: acc) Rq)
      as (ds & E1 & (N1 & F1) & V1).
    exists (ds ++ [digit_char (n mod 10)]).
    rewrite E1, <- app_assoc. split; [reflexivity|]. split; [split|].
    + destruct ds; discriminate.
    + apply Forall_app. split; [exact F1 | constructor; [exact D1 | constructor]].
    + rewrite decimal_value_app, V1. unfold decimal_value. cbn [fold_left].
      rewrite D2. pose proof (Z.div_mod n 10 ltac:(lia)). lia.
Qed.

Lemma str_of_int_spec (n : Z) :
  0 <= n -> all_digits (str_of_int n) /\ decimal_value 0 (str_of_int n) = n.
Proof.
  intros Hn. unfold str_of_int.
  replace (n <? 0) with false by (symmetry; apply Z.ltb_ge; lia).
  unfold str_of_nonneg.
  assert (R : 0 <= n < 2 ^ Z.of_nat (S (Z.to_nat (Z.log2 n)))).
  { rewrite Nat2Z.inj_succ, Z2Nat.id by apply Z.log2_nonneg.
    destruct (Z.eq_dec n 0) as [->|NZ]; [simpl; lia|].
    pose proof (Z.log2_spec n ltac:(lia)). lia. }
  destruct (digits_from_spec _ n [] R) as (ds & E & A & V).
  rewrite app_nil_r in E. rewrite E. auto.
Qed.

Lemma digit_not_space (c : ascii) : is_digit c = true -> is_int_space c = false.
Proof.
  unfold is_digit, is_int_space. intros H.
  apply andb_true_iff in H. destruct H as [H1 H2].
  apply Z.leb_le in H1, H2.
  repeat (apply orb_false_iff; split);
    try (apply andb_false_iff; right; apply Z.leb_gt; lia);
    apply Z.eqb_neq; lia.
Qed.

Lemma lstrip_digits (ds : str) :
  Forall (fun c => is_digit c = true) ds -> lstrip ds = ds.
Proof.
  intros [|c r Hc _]; [reflexivity|].
  cbn [lstrip]. now rewrite (digit_not_space c Hc).
Qed.

Lemma int_digits_all (cs : str) :
  Forall (fun c => is_digit c = true) cs ->
  forall acc count,
    int_digits cs acc count false
    = Some (decimal_value acc cs, count + len cs, []).
Proof.
  induction 1 as [|c r Hc _ IH]; intros acc count.
  - cbn [int_digits decimal_value fold_left]. unfold len. cbn [length Z.of_nat].
    now rewrite Z.add_0_r.
  - cbn [int_digits decimal_value fold_left]. rewrite Hc, IH.
    unfold len. cbn [length]. rewrite Nat2Z.inj_succ.
    replace (count + 1 + Z.of_nat (length r))
      with (count + Z.succ (Z.of_nat (length r))) by lia.
    reflexivity.
Qed.

(** A string that begins with a digit has no sign and no leading
    underscore, and no white space to drop in front. *)
Lemma py_int_digit_head (c : ascii) (r : str) :
  is_digit c = true ->
  py_int (c :: r) = int_after_digits (c :: r) (int_digits (c :: r) 0 0 false).
Proof.
  destruct c as [[] [] [] [] [] [] [] []]; intros H;
    try reflexivity; vm_compute in H; discriminate H.
Qed.

Lemma py_int_minus_digit_head (c : ascii) (r : str) :
  is_digit c = true ->
  py_int ("-"%char :: c :: r)
  = (n <- int_after_digits ("-"%char :: c :: r) (int_digits (c :: r) 0 0 false) ;;
     Ok (- n)).
Proof.
  destruct c as [[] [] [] [] [] [] [] []]; intros H;
    try reflexivity; vm_compute in H; discriminate H.
Qed.

Lemma int_after_all_digits (s ds : str) :
  all_digits ds ->
  int_after_digits s (int_digits ds 0 0 false)
  = if int_max_str_digits <? len ds then Raise (int_limit_error (len ds))
    else Ok (decimal_value 0 ds).
Proof.
  intros [N F]. rewrite (int_digits_all ds F). cbn [int_after_digits].
  rewrite Z.add_0_l. destruct (int_max_str_digits <? len ds); [reflexivity|].
  replace (len ds =? 0) with false; [reflexivity|].
  symmetry. apply Z.eqb_neq. unfold len. destruct ds; [now elim N|].
  cbn [length]. lia.
Qed.

Lemma py_int_all_digits (ds : str) :
  all_digits ds ->
  py_int ds
  = if int_max_str_digits <? len ds then Raise (int_limit_error (len ds))
    else Ok (decimal_value 0 ds).
Proof.
  intros A. pose proof A as [N F]. destruct F as [|c r Hc Hr]; [now elim N|].
  rewrite (py_int_digit_head c r Hc). now apply int_after_all_digits.
Qed.

Lemma py_int_digits (ds : str) :
  all_digits ds -> len ds <= 4300 -> py_int ds = Ok (decimal_value 0 ds).
Proof.
  intros A L. rewrite (py_int_all_digits ds A).
  replace (int_max_str_digits <? len ds) with false; [reflexivity|].
  symmetry. apply Z.ltb_ge. exact L.
Qed.

Lemma py_int_digits_limit (ds : str) :
  all_digits ds -> 4300 < len ds -> py_int ds = Raise (int_limit_error (len ds)).
Proof.
  intros A L. rewrite (py_int_all_digits ds A).
  replace (int_max_str_digits <? len ds) with true; [reflexivity|].
  symmetry. apply Z.ltb_lt. exact L.
Qed.

Lemma int_after_digits_raises (s : str) (scanned : option (Z * Z * str))
    (err : exn) :
  int_after_digits s scanned = Raise err -> exists m, err = ValueError m.
Proof.
  unfold int_after_digits, int_literal_error, int_limit_error.
  destruct scanned as [[[n digits] rest]|];
    [|intros H; injection H as <-; eauto].
  destruct (int_max_str_digits <? digits); [intros H; injection H as <-; eauto|].
  destruct (digits =? 0); [intros H; injection H as <-; eauto|].
  destruct (lstrip rest); [discriminate|intros H; injection H as <-; eauto].
Qed.

Lemma int_unsigned_cases (s cs : str) :
  int_unsigned s cs = Raise (int_literal_error s)
  \/ int_unsigned s cs = int_after_digits s (int_digits cs 0 0 false).
Proof.
  destruct cs as [|c r]; [right; reflexivity|].
  destruct c as [[] [] [] [] [] [] [] []];
    first [right; reflexivity | left; reflexivity].
Qed.

Lemma int_unsigned_raises (s cs : str) (err : exn) :
  int_unsigned s cs = Raise err -> exists m, err = ValueError m.
Proof.
  destruct (int_unsigned_cases s cs) as [E|E]; rewrite E.
  - intros H; injection H as <-. unfold int_literal_error. eauto.
  - apply int_after_digits_raises.
Qed.

Lemma py_int_cases (s : str) :
  exists r,
    py_int s = int_unsigned s r
    \/ py_int s = (n <- int_unsigned s r ;; Ok (- n)).
Proof.
  unfold py_int. destruct (lstrip s) as [|c r]; [exists []; now left|].
  destruct c as [[] [] [] [] [] [] [] []];
    first [exists r; right; reflexivity
          | exists r; left; reflexivity
          | eexists; left; reflexivity].
Qed.

(** Every error of [int()] is a [ValueError]. *)
Lemma py_int_raises (s : str) (err : exn) :
  py_int s = Raise err -> exists m, err = ValueError m.
Proof.
  destruct (py_int_cases s) as (r & [E|E]); rewrite E.
  - apply int_unsigned_raises.
  - destruct (int_unsigned s r) as [n|e] eqn:U; [discriminate|].
    cbn [bind]. intros H; injection H as <-.
    exact (int_unsigned_raises s r e U).
Qed.

(** The value of [k] digits is below [10 ^ k]. *)
Lemma decimal_value_bound (ds : str) :
  Forall (fun c => is_digit c = true) ds ->
  forall a, 0 <= a ->
    0 <= decimal_value a ds < (a + 1) * 10 ^ len ds.
Proof.
  induction 1 as [|c r Hc _ IH]; intros a Ha.
  - unfold decimal_value, len. cbn [fold_left length Z.of_nat].
    rewrite Z.pow_0_r. lia.
  - unfold decimal_value. cbn [fold_left]. fold (decimal_value (10 * a + (ord c - 48)) r).
    unfold is_digit in Hc. apply andb_true_iff in Hc.
    destruct Hc as [H1 H2]. apply Z.leb_le in H1, H2.
    specialize (IH (10 * a + (ord c - 48)) ltac:(lia)).
    unfold len in *. cbn [length]. rewrite Nat2Z.inj_succ, Z.pow_succ_r by lia.
    assert (P : 0 < 10 ^ Z.of_nat (length r)) by (apply Z.pow_pos_nonneg; lia).
    nia.
Qed.

(** A number below [10 ^ k] is written with at most [k] digits. *)
Lemma digits_from_length (fuel : nat) :
  forall n acc k, 0 <= n < 2 ^ Z.of_nat (S fuel) -> 1 <= k -> n < 10 ^ k ->
    len (digits_from (S fuel) n acc) <= k + len acc.
Proof.
  induction fuel as [|f IH]; intros n acc k R Hk B;
    rewrite Nat2Z.inj_succ, Z.pow_succ_r in R by lia;
    change (digits_from (S ?g) n acc)
      with (if n <? 10 then digit_char (n mod 10) :: acc
            else digits_from g (n / 10) (digit_char (n mod 10) :: acc));
    destruct (n <? 10) eqn:E.
  1, 3: unfold len; cbn [length]; lia.
  - apply Z.ltb_ge in E. simpl in R. lia.
  - apply Z.ltb_ge in E.
    assert (Rq : 0 <= n / 10 < 2 ^ Z.of_nat (S f)).
    { split; [apply Z.div_pos; lia | apply Z.div_lt_upper_bound; lia]. }
    assert (Hk2 : 2 <= k).
    { destruct (Z_lt_le_dec k 2) as [K|K]; [|exact K].
      replace k with 1 in B by lia. rewrite Z.pow_1_r in B. lia. }
    assert (Bq : n / 10 < 10 ^ (k - 1)).
    { apply Z.div_lt_upper_bound; [lia|].
      rewrite <- Z.pow_succ_r by lia. now replace (Z.succ (k - 1)) with k by lia. }
    specialize (IH (n / 10) (digit_char (n mod 10) :: acc) (k - 1) Rq
                  ltac:(lia) Bq).
    unfold len in *. cbn [length] in IH. lia.
Qed.

Lemma str_of_nonneg_length (n k : Z) :
  0 <= n -> 1 <= k -> n < 10 ^ k -> len (str_of_nonneg n) <= k.
Proof.
  intros Hn Hk B. unfold str_of_nonneg.
  assert (R : 0 <= n < 2 ^ Z.of_nat (S (Z.to_nat (Z.log2 n)))).
  { rewrite Nat2Z.inj_succ, Z2Nat.id by apply Z.log2_nonneg.
    destruct (Z.eq_dec n 0) as [->|NZ]; [simpl; lia|].
    pose proof (Z.log2_spec n ltac:(lia)). lia. }
  pose proof (digits_from_length _ n [] k R Hk B) as L.
  unfold len in *. cbn [length] in L. lia.
Qed.

(** The number written by a string of digits has no more digits than the
    string (it has fewer when the string begins with zeros). *)
Lemma num_digits_decimal (ds : str) :
  all_digits ds -> num_digits (decimal_value 0 ds) <= len ds.
Proof.
  intros [N F]. pose proof (decimal_value_bound ds F 0 ltac:(lia)) as B.
  unfold num_digits. rewrite Z.abs_eq by lia.
  apply str_of_nonneg_length; [lia | | lia].
  unfold len. destruct ds; [now elim N|]. cbn [length]. lia.
Qed.

Lemma str_of_int_nonneg (n : Z) : 0 <= n -> str_of_int n = str_of_nonneg n.
Proof.
  intros Hn. unfold str_of_int.
  now replace (n <? 0) with false by (symmetry; apply Z.ltb_ge; lia).
Qed.

Lemma num_digits_nonneg (n : Z) : 0 <= n -> num_digits n = len (str_of_int n).
Proof.
  intros Hn. unfold num_digits. now rewrite str_of_int_nonneg, Z.abs_eq.
Qed.

Lemma py_str_Ok (n : Z) : num_digits n <= 4300 -> py_str n = Ok (str_of_int n).
Proof.
  intros L. unfold py_str.
  now replace (int_max_str_digits <? num_digits n) with false
    by (symmetry; apply Z.ltb_ge; exact L).
Qed.

Lemma py_str_limit (n : Z) : 4300 < num_digits n -> py_str n = Raise str_limit_error.
Proof.
  intros L. unfold py_str.
  now replace (int_max_str_digits <? num_digits n) with true
    by (symmetry; apply Z.ltb_lt; exact L).
Qed.

End Decimal.

(** ** [WKTElement] *)

Section Wkt.

Lemma split_no_sep (sep : ascii) (s : str) :
  ~ In sep s -> split sep s = [s].
Proof.
  induction s as [|c r IH]; intros N; [reflexivity|].
  cbn [split]. destruct (Ascii.eqb c sep) eqn:E.
  - apply Ascii.eqb_eq in E. subst c. elim N. now left.
  - rewrite IH; [reflexivity|]. intros H. apply N. now right.
Qed.

Lemma split_one_sep (sep : ascii) (a b : str) :
  ~ In sep a -> ~ In sep b -> split sep (a ++ sep :: b) = [a; b].
Proof.
  intros Na Nb. induction a as [|c r IH].
  - cbn [app split]. rewrite Ascii.eqb_refl, (split_no_sep sep b Nb). reflexivity.
  - cbn [app split]. destruct (Ascii.eqb c sep) eqn:E.
    + apply Ascii.eqb_eq in E. subst c. elim Na. now left.
    + rewrite IH; [reflexivity|]. intros H. apply Na. now right.
Qed.

Lemma digits_no_semicolon (ds : str) :
  Forall (fun c => is_digit c = true) ds -> ~ In ";"%char ds.
Proof.
  intros F H. rewrite Forall_forall in F. specialize (F _ H). discriminate F.
Qed.

Lemma span_digits_app (ds rest : str) :
  Forall (fun c => is_digit c = true) ds ->
  span_digits (ds ++ ";"%char :: rest) = (ds, ";"%char :: rest).
Proof.
  induction 1 as [|c r Hc _ IH]; [reflexivity|].
  cbn [app span_digits]. now rewrite Hc, IH.
Qed.

Lemma until_newline_id (s : str) : ~ In "010"%char s -> until_newline s = s.
Proof.
  induction s as [|c r IH]; intros N; [reflexivity|].
  cbn [until_newline]. destruct (Ascii.eqb c "010"%char) eqn:E.
  - apply Ascii.eqb_eq in E. subst c. elim N. now left.
  - rewrite IH; [reflexivity|]. intros H. apply N. now right.
Qed.

Lemma drop_one_space (wkt : str) :
  hd_error wkt <> Some " "%char ->
  match wkt with
  | " "%char :: r => r
  | _ => wkt
  end = wkt.
Proof.
  destruct wkt as [|c r]; [reflexivity|].
  destruct c as [[] [] [] [] [] [] [] []]; intros H; try reflexivity.
  now elim H.
Qed.

Lemma REMOVE_SRID_prefix (ds wkt : str) :
  all_digits ds -> ~ In "010"%char wkt -> hd_error wkt <> Some " "%char ->
  _REMOVE_SRID_group3 (lit "SRID=" ++ ds ++ lit ";" ++ wkt) = wkt.
Proof.
  intros [N F] Nn Ns. unfold _REMOVE_SRID_group3.
  change (strip_prefix (lit "SRID=") (lit "SRID=" ++ ds ++ lit ";" ++ wkt))
    with (Some (ds ++ ";"%char :: wkt)).
  cbv beta iota.
  rewrite (span_digits_app ds wkt F).
  destruct ds as [|d r]; [now elim N|].
  rewrite (drop_one_space wkt Ns). now apply until_newline_id.
Qed.

Lemma split_ewkt (ds wkt : str) :
  all_digits ds -> ~ In ";"%char wkt ->
  split ";"%char (lit "SRID=" ++ ds ++ lit ";" ++ wkt)
  = [lit "SRID=" ++ ds; wkt].
Proof.
  intros A Nw.
  change (lit "SRID=" ++ ds ++ lit ";" ++ wkt)
    with ((lit "SRID=" ++ ds) ++ ";"%char :: wkt).
  apply split_one_sep; [|exact Nw].
  intros H. apply in_app_or in H. destruct H as [H|H].
  - cbn in H. repeat (destruct H as [H|H]; [discriminate H|]). exact H.
  - now apply (digits_no_semicolon ds (proj2 A)).
Qed.

(** The constructor on [SRID=<digits>;<body>], in terms of [int()]. *)
Lemma WKTElement_ewkt_int (ds wkt : str) (x : option bool) :
  all_digits ds -> ~ In ";"%char wkt ->
  x = None \/ x = Some true ->
  WKTElement (lit "SRID=" ++ ds ++ lit ";" ++ wkt) (-1) x
  = match py_int ds with
    | Ok n => Ok (mkSpatialElement n (lit "SRID=" ++ ds ++ lit ";" ++ wkt)
                    (Some true))
    | Raise (ValueError _) =>
        Raise (invalid_EWKT (lit "SRID=" ++ ds ++ lit ";" ++ wkt))
    | Raise e => Raise e
    end.
Proof.
  intros A Nw Hx. unfold WKTElement.
  assert (E : match x with
              | None => startswith (lit "SRID=")
                          (lit "SRID=" ++ ds ++ lit ";" ++ wkt)
              | Some b => b
              end = true) by (destruct Hx as [-> | ->]; reflexivity).
  rewrite E, (split_ewkt ds wkt A Nw). cbn [andb hd].
  change (-1 =? -1) with true.
  change (len [lit "SRID=" ++ ds; wkt] =? 2) with true.
  cbn [negb].
  change (slice_from 5 (lit "SRID=" ++ ds)) with ds.
  reflexivity.
Qed.

Lemma WKTElement_ewkt (ds wkt : str) (x : option bool) :
  all_digits ds -> len ds <= 4300 -> ~ In ";"%char wkt ->
  x = None \/ x = Some true ->
  WKTElement (lit "SRID=" ++ ds ++ lit ";" ++ wkt) (-1) x
  = Ok (mkSpatialElement (decimal_value 0 ds)
          (lit "SRID=" ++ ds ++ lit ";" ++ wkt) (Some true)).
Proof.
  intros A L Nw Hx.
  rewrite (WKTElement_ewkt_int ds wkt x A Nw Hx), (py_int_digits ds A L).
  reflexivity.
Qed.

Lemma WKTElement_ewkt_limit (ds wkt : str) (x : option bool) :
  all_digits ds -> 4300 < len ds -> ~ In ";"%char wkt ->
  x = None \/ x = Some true ->
  WKTElement (lit "SRID=" ++ ds ++ lit ";" ++ wkt) (-1) x
  = Raise (invalid_EWKT (lit "SRID=" ++ ds ++ lit ";" ++ wkt)).
Proof.
  intros A L Nw Hx.
  rewrite (WKTElement_ewkt_int ds wkt x A Nw Hx), (py_int_digits_limit ds A L).
  reflexivity.
Qed.

Lemma decimal_value_nonneg (ds : str) :
  all_digits ds -> 0 <= decimal_value 0 ds.
Proof.
  intros [_ F]. apply (decimal_value_bound ds F 0). lia.
Qed.

(** C6, as amended.  For a non-empty string [ds] of at most 4300 decimal
    digits and a body [wkt] without semicolon,
    [WKTElement("SRID=" + ds + ";" + wkt)] has the number written by [ds]
    as its SRID (for [ds = str(n)] this is [n]).  If moreover the body has
    no line feed and does not begin with a space, [as_wkt()] returns the
    body and [as_ewkt()] then returns ["SRID=" + str(n) + ";" + wkt]: the
    body is preserved exactly.  With more than 4300 digits [int()] refuses
    the number and the constructor raises [ArgumentError]. *)
Theorem ewkt_round_trip (n : Z) (ds wkt : str) :
  all_digits ds -> decimal_value 0 ds = n -> ~ In ";"%char wkt ->
  let ewkt := lit "SRID=" ++ ds ++ lit ";" ++ wkt in
  (len ds <= 4300 ->
   WKTElement ewkt (-1) None = Ok (mkSpatialElement n ewkt (Some true))
   /\ (~ In "010"%char wkt -> hd_error wkt <> Some " "%char ->
       as_wkt (mkSpatialElement n ewkt (Some true))
       = Ok (mkSpatialElement n wkt (Some false))
       /\ as_ewkt (mkSpatialElement n wkt (Some false))
          = Ok (mkSpatialElement n
                  (lit "SRID=" ++ str_of_int n ++ lit ";" ++ wkt) (Some true))))
  /\ (4300 < len ds -> WKTElement ewkt (-1) None = Raise (invalid_EWKT ewkt)).
Proof.
  intros A V Nw ewkt.
  assert (Hn : 0 <= n) by (subst n; now apply decimal_value_nonneg).
  split.
  - intros L. split.
    + subst ewkt. rewrite (WKTElement_ewkt ds wkt None A L Nw) by auto.
      now rewrite V.
    + intros Nn Ns. split.
      * unfold as_wkt. cbn [truthy extended data srid]. subst ewkt.
        rewrite (REMOVE_SRID_prefix ds wkt A Nn Ns).
        unfold WKTElement. reflexivity.
      * unfold as_ewkt. cbn [truthy extended data srid negb andb].
        replace (n =? -1) with false by (symmetry; apply Z.eqb_neq; lia).
        cbn [negb]. destruct (str_of_int_spec n Hn) as (A' & V').
        assert (Ld : num_digits n <= 4300).
        { pose proof (num_digits_decimal ds A). rewrite V in H. lia. }
        rewrite (py_str_Ok n Ld). cbn [bind].
        rewrite (WKTElement_ewkt (str_of_int n) wkt (Some true) A') by
          (auto; rewrite <- num_digits_nonneg by exact Hn; exact Ld).
        now rewrite V'.
  - intros L. subst ewkt. apply WKTElement_ewkt_limit; auto.
Qed.

Lemma ewkt_round_trip_witness :
  let ewkt := lit "SRID=4326;POINT(5 45)" in
  WKTElement ewkt (-1) None = Ok (mkSpatialElement 4326 ewkt (Some true))
  /\ as_wkt (mkSpatialElement 4326 ewkt (Some true))
     = Ok (mkSpatialElement 4326 (lit "POINT(5 45)") (Some false))
  /\ as_ewkt (mkSpatialElement 4326 (lit "POINT(5 45)") (Some false))
     = Ok (mkSpatialElement 4326 ewkt (Some true)).
Proof.
  intros ewkt.
  assert (A : all_digits (lit "4326")).
  { split; [discriminate|]. repeat constructor. }
  assert (N : ~ In ";"%char (lit "POINT(5 45)")).
  { cbn. intros H. repeat (destruct H as [H|H]; [discriminate H|]). exact H. }
  destruct (ewkt_round_trip 4326 (lit "4326") (lit "POINT(5 45)") A eq_refl N)
    as (W1 & _).
  destruct W1 as (W0 & W); [vm_compute; discriminate|].
  split; [exact W0|]. apply W.
  - cbn. intros H. repeat (destruct H as [H|H]; [discriminate H|]). exact H.
  - discriminate.
Defined.

(** C6 as stated fails when the body begins with a space: [as_wkt] drops
    one space after the semicolon, so the body that comes back is shorter. *)
Lemma ewkt_leading_space_is_dropped :
  WKTElement (lit "SRID=4326; POINT(5 45)") (-1) None
  = Ok (mkSpatialElement 4326 (lit "SRID=4326; POINT(5 45)") (Some true))
  /\ as_wkt (mkSpatialElement 4326 (lit "SRID=4326; POINT(5 45)") (Some true))
     = Ok (mkSpatialElement 4326 (lit "POINT(5 45)") (Some false))
  /\ as_ewkt (mkSpatialElement 4326 (lit "POINT(5 45)") (Some false))
     = Ok (mkSpatialElement 4326 (lit "SRID=4326;POINT(5 45)") (Some true))
  /\ lit " POINT(5 45)" <> lit "POINT(5 45)".
Proof. repeat split. discriminate. Qed.

End Wkt.

Section WktErrors.

(** C7.  For a text flagged as extended and no explicit SRID (srid -1):
    if the text does not split into exactly two parts on the semicolon,
    or the text after the first five characters of the first part is not
    an integer for [int()], construction raises [ArgumentError]; otherwise
    the SRID is the integer parsed from the prefix.  In particular, for a
    first part [SRID=<digits>] the SRID is the number the digits write when
    there are at most 4300 of them, and construction raises
    [ArgumentError] when there are more, as [int()] refuses them. *)
Theorem WKTElement_prefix (data : str) (x : option bool) :
  flagged_extended data x ->
  (len (split ";"%char data) <> 2 ->
   WKTElement data (-1) x = Raise (invalid_EWKT data))
  /\ (forall header body err,
        split ";"%char data = [header; body] ->
        py_int (slice_from 5 header) = Raise err ->
        WKTElement data (-1) x = Raise (invalid_EWKT data))
  /\ (forall header body n,
        split ";"%char data = [header; body] ->
        py_int (slice_from 5 header) = Ok n ->
        WKTElement data (-1) x = Ok (mkSpatialElement n data (Some true)))
  /\ (forall ds body,
        split ";"%char data = [lit "SRID=" ++ ds; body] -> all_digits ds ->
        (len ds <= 4300 ->
         WKTElement data (-1) x
         = Ok (mkSpatialElement (decimal_value 0 ds) data (Some true)))
        /\ (4300 < len ds ->
            py_int ds = Raise (int_limit_error (len ds))
            /\ WKTElement data (-1) x = Raise (invalid_EWKT data))).
Proof.
  intros Hx.
  assert (E : match x with
              | None => startswith (lit "SRID=") data
              | Some b => b
              end = true) by (destruct Hx as [-> | [-> H]]; auto).
  assert (B : forall header body err,
            split ";"%char data = [header; body] ->
            py_int (slice_from 5 header) = Raise err ->
            WKTElement data (-1) x = Raise (invalid_EWKT data)).
  { intros header body err S P. unfold WKTElement. rewrite E. cbn [andb].
    change (-1 =? -1) with true. rewrite S. cbn [hd].
    change (len [header; body] =? 2) with true. cbn [negb].
    rewrite P. destruct (py_int_raises _ _ P) as (m & ->). reflexivity. }
  assert (C : forall header body n,
            split ";"%char data = [header; body] ->
            py_int (slice_from 5 header) = Ok n ->
            WKTElement data (-1) x = Ok (mkSpatialElement n data (Some true))).
  { intros header body n S P. unfold WKTElement. rewrite E. cbn [andb].
    change (-1 =? -1) with true. rewrite S. cbn [hd].
    change (len [header; body] =? 2) with true. cbn [negb].
    rewrite P. reflexivity. }
  split; [|split; [exact B|split; [exact C|]]].
  - intros L. unfold WKTElement. rewrite E. cbn [andb].
    change (-1 =? -1) with true. apply Z.eqb_neq in L. rewrite L. reflexivity.
  - intros ds body S A. split.
    + intros L. apply (C (lit "SRID=" ++ ds) body (decimal_value 0 ds) S).
      change (slice_from 5 (lit "SRID=" ++ ds)) with ds.
      now apply py_int_digits.
    + intros L. pose proof (py_int_digits_limit ds A L) as P.
      split; [exact P|].
      apply (B (lit "SRID=" ++ ds) body (int_limit_error (len ds)) S).
      change (slice_from 5 (lit "SRID=" ++ ds)) with ds. exact P.
Qed.

Lemma WKTElement_prefix_witness :
  WKTElement (lit "SRID=4326 POINT(5 45)") (-1) None
  = Raise (invalid_EWKT (lit "SRID=4326 POINT(5 45)"))
  /\ WKTElement (lit "SRID=43x26;POINT(5 45)") (-1) (Some true)
     = Raise (invalid_EWKT (lit "SRID=43x26;POINT(5 45)"))
  /\ WKTElement (lit "SRID=4326;POINT(5 45)") (-1) None
     = Ok (mkSpatialElement 4326 (lit "SRID=4326;POINT(5 45)") (Some true))
  /\ WKTElement (lit "SRID=" ++ repeat "7"%char 4301 ++ lit ";POINT(5 45)")
       (-1) None
     = Raise (invalid_EWKT
                (lit "SRID=" ++ repeat "7"%char 4301 ++ lit ";POINT(5 45)")).
Proof.
  split; [|split; [|split]].
  - apply (WKTElement_prefix (lit "SRID=4326 POINT(5 45)") None).
    + right. split; reflexivity.
    + vm_compute. discriminate.
  - destruct (WKTElement_prefix (lit "SRID=43x26;POINT(5 45)") (Some true))
      as (_ & B & _); [left; reflexivity|].
    apply (B (lit "SRID=43x26") (lit "POINT(5 45)")
             (int_literal_error (lit "43x26"))); reflexivity.
  - destruct (WKTElement_prefix (lit "SRID=4326;POINT(5 45)") None)
      as (_ & _ & C & _); [right; split; reflexivity|].
    apply (C (lit "SRID=4326") (lit "POINT(5 45)") 4326); reflexivity.
  - destruct (WKTElement_prefix
                (lit "SRID=" ++ repeat "7"%char 4301 ++ lit ";POINT(5 45)") None)
      as (_ & _ & _ & D); [right; split; reflexivity|].
    destruct (D (repeat "7"%char 4301) (lit "POINT(5 45)")) as (_ & D2).
    + vm_compute. reflexivity.
    + split; [vm_compute; discriminate|].
      apply Forall_forall. intros c Hc. apply repeat_spec in Hc. now subst c.
    + apply D2. vm_compute. reflexivity.
Defined.

End WktErrors.

(** ** The raster decoder *)

Section Decoder.

Lemma slice_length (A : Type) (lo hi : Z) (l : list A) :
  0 <= lo -> lo <= hi -> hi <= len l -> len (slice lo hi l) = hi - lo.
Proof.
  unfold len, slice. intros H0 H1 H2.
  rewrite length_firstn, length_skipn. lia.
Qed.

Lemma range_spec (n i : Z) : In i (range n) -> 0 <= i < n.
Proof.
  unfold range. rewrite in_map_iff. intros (k & <- & Hk).
  apply in_seq in Hk. lia.
Qed.

Lemma range_length (n : Z) : 0 <= n -> len (range n) = n.
Proof.
  intros Hn. unfold len, range. rewrite length_map, length_seq. lia.
Qed.

Lemma mapM_Ok (A B : Type) (f : A -> result B) (P : B -> Prop) (l : list A) :
  (forall x, In x l -> exists y, f x = Ok y /\ P y) ->
  exists ys, mapM f l = Ok ys /\ length ys = length l /\ Forall P ys.
Proof.
  induction l as [|x r IH]; intros H.
  - exists []. repeat split. constructor.
  - destruct (H x (or_introl eq_refl)) as (y & Ey & Py).
    destruct IH as (ys & Eys & L & F); [intros z Hz; apply H; now right|].
    exists (y :: ys). cbn [mapM]. rewrite Ey. cbn [bind]. rewrite Eys.
    cbn [bind length]. repeat split; [congruence | now constructor].
Qed.

Lemma struct_unpack_Ok (o : order) (c : format_char) (bs : bytes) :
  len bs = calcsize c -> struct_unpack o c bs = Ok (unpack_value o c bs).
Proof.
  intros L. unfold struct_unpack. apply Z.eqb_eq in L. now rewrite L.
Qed.

Lemma PTYPE_size (t : Z) (c : format_char) (psize : Z) :
  _PTYPE t = Some (c, psize) -> calcsize c = psize /\ 1 <= psize.
Proof.
  unfold _PTYPE. destruct t as [|p|p]; [| |discriminate].
  - intros H. injection H as <- <-. split; [reflexivity | lia].
  - repeat (destruct p as [p|p|]; try discriminate);
      intros H; injection H as <- <-; split; (reflexivity || lia).
Qed.

(** The supported pixel types are 0..8, 10 and 11. *)
Lemma PTYPE_supported (t : Z) :
  _PTYPE t <> None <-> (0 <= t <= 8 \/ t = 10 \/ t = 11).
Proof.
  unfold _PTYPE. destruct t as [|p|p].
  - split; [lia | discriminate].
  - repeat (destruct p as [p|p|]; try (split; [congruence | lia]));
      split; (lia || discriminate).
  - split; [congruence | lia].
Qed.

Lemma format_e_Ok (e : Z) (c : format_char) :
  e = 0 \/ e = 1 -> exists o, _format_e e c = Ok (o, c).
Proof.
  intros [-> | ->]; eexists; reflexivity.
Qed.

Lemma single_byte_order (o : order) (bs : bytes) :
  len bs = 1 -> bytes_to_uint o bs = bytes_to_uint Native bs.
Proof.
  unfold len. destruct bs as [|b [|b' r]]; cbn [length]; try lia.
  intros _. destruct o; reflexivity.
Qed.

Lemma read_band_Ok (data : bytes) (offset t H W e : Z) (c : format_char)
    (psize : Z) :
  _PTYPE t = Some (c, psize) -> e = 0 \/ e = 1 ->
  0 <= offset -> 0 <= W -> 0 <= H ->
  offset + 1 + W * H * psize <= len data ->
  exists b, read_band data offset t H W e = Ok b
    /\ len b = H /\ Forall (fun row => len row = W) b.
Proof.
  intros HT He Ho HW HH L.
  destruct (PTYPE_size _ _ _ HT) as (Hc & Hp).
  destruct (format_e_Ok e c He) as (o & Ef).
  unfold read_band. rewrite HT.
  replace (len data <? offset + 1 + W * H * psize) with false
    by (symmetry; apply Z.ltb_ge; lia).
  set (pix_data := slice (offset + 1) (offset + 1 + W * H * psize) data).
  assert (Lp : len pix_data = W * H * psize).
  { unfold pix_data. rewrite slice_length; nia. }
  destruct (mapM_Ok Z (list sample) 
              (fun i => mapM (fun j =>
                   f <- _format_e e c ;;
                   unpack_fmt f (slice ((i * W + j) * psize)
                                   ((i * W + j + 1) * psize) pix_data))
                 (range W))
              (fun row => len row = W) (range H)) as (b & Eb & Lb & Fb).
  { intros i Hi. apply range_spec in Hi.
    destruct (mapM_Ok Z sample
                (fun j => f <- _format_e e c ;;
                   unpack_fmt f (slice ((i * W + j) * psize)
                                   ((i * W + j + 1) * psize) pix_data))
                (fun _ => True) (range W)) as (row & Er & Lr & _).
    - intros j Hj. apply range_spec in Hj.
      rewrite Ef. cbn [bind]. unfold unpack_fmt. cbn [fst snd].
      eexists. split; [|exact I].
      apply struct_unpack_Ok.
      assert (K : 0 <= i * W + j /\ i * W + j + 1 <= W * H) by nia.
      set (k := i * W + j) in *.
      rewrite slice_length.
      * rewrite Hc. ring.
      * apply Z.mul_nonneg_nonneg; lia.
      * apply Z.mul_le_mono_nonneg_r; lia.
      * rewrite Lp. apply Z.mul_le_mono_nonneg_r; lia.
    - exists row. split; [exact Er|].
      unfold len. rewrite Lr. apply range_length. exact HW. }
  exists b. rewrite Eb. repeat split; [|exact Fb].
  unfold len. rewrite Lb. apply range_length. exact HH.
Qed.

Lemma read_band_unsupported (data : bytes) (offset t H W e : Z) :
  _PTYPE t = None ->
  read_band data offset t H W e
  = Raise (ValueError (lit "Invalid pixel type: " ++ str_of_int t)).
Proof. intros HT. unfold read_band. now rewrite HT. Qed.

Lemma read_band_short (data : bytes) (offset t H W e : Z) (c : format_char)
    (psize : Z) :
  _PTYPE t = Some (c, psize) ->
  len data < offset + 1 + W * H * psize ->
  read_band data offset t H W e
  = Raise (ValueError
             (lit "Raster data too short for band: len=" ++ str_of_int (len data)
                ++ lit ", required=" ++ str_of_int (offset + 1 + W * H * psize)
                ++ lit " (offset=" ++ str_of_int offset
                ++ lit ", width=" ++ str_of_int W
                ++ lit ", height=" ++ str_of_int H
                ++ lit ", pixelsize=" ++ str_of_int psize ++ lit ")")).
Proof.
  intros HT L. unfold read_band. rewrite HT.
  apply Z.ltb_lt in L. now rewrite L.
Qed.

End Decoder.

Section DecoderLoop.

Lemma wkbHeader_endianness (raw : bytes) (h : header) :
  wkbHeader raw = Ok h -> h_endianness h = 0 \/ h_endianness h = 1.
Proof.
  unfold wkbHeader. destruct (len raw <? MIN_HEADER_SIZE); [discriminate|].
  destruct (unpack_int Native fmt_b (slice 0 1 raw)) as [e|err] eqn:U.
  2: { cbn [bind]. destruct err; discriminate. }
  cbn [bind]. destruct (negb ((e =? 0) || (e =? 1))) eqn:E; [discriminate|].
  apply negb_false_iff, orb_true_iff in E.
  assert (He : e = 0 \/ e = 1)
    by (destruct E as [E|E]; apply Z.eqb_eq in E; auto).
  cbv zeta. intros H.
  repeat match type of H with
         | context [bind ?c _] =>
             destruct c as [?|[]]; cbn [bind] in H; try discriminate H
         end.
  repeat match type of H with
         | context [if ?c then _ else _] =>
             destruct c; cbv beta iota in H; try discriminate H
         end.
  injection H as <-. exact He.
Qed.

Lemma wkbImage_bands_cons (raw : bytes) (h : header) (i : Z) (rest : list Z)
    (img : list band) (offset : Z) :
  h_endianness h = 0 \/ h_endianness h = 1 ->
  0 <= offset -> offset + 1 < len raw ->
  wkbImage_bands raw h (i :: rest) img offset =
  match _PTYPE (pixtype_at raw offset) with
  | None =>
      Raise (ValueError (lit "Invalid pixel type " ++ str_of_int (pixtype_at raw offset)
                           ++ lit " (band type " ++ str_of_int (band_type_at raw offset)
                           ++ lit ") for band " ++ str_of_int (i + 1)))
  | Some (_, psize) =>
      match read_band raw offset (pixtype_at raw offset) (h_height h) (h_width h)
              (h_endianness h) with
      | Ok b =>
          wkbImage_bands raw h rest (img ++ [b])
            (offset + 1 + h_width h * h_height h * psize)
      | Raise e' =>
          match is_ValueError e' with
          | Some m =>
              Raise (ValueError (lit "Failed to read band " ++ str_of_int (i + 1)
                                   ++ lit ": " ++ m))
          | None => Raise e'
          end
      end
  end.
Proof.
  intros He Ho L. cbn [wkbImage_bands].
  replace (offset + 1 >=? len raw) with false
    by (symmetry; rewrite Z.geb_leb; apply Z.leb_gt; lia).
  destruct (format_e_Ok (h_endianness h) fmt_b He) as (o & Ef).
  rewrite Ef. cbn [bind]. unfold unpack_fmt. cbn [fst snd].
  assert (L1 : len (slice offset (offset + 1) raw) = 1)
    by (rewrite slice_length; lia).
  rewrite struct_unpack_Ok by exact L1.
  cbn [bind unpack_value int_of_sample].
  rewrite (single_byte_order o _ L1).
  fold (band_type_at raw offset). fold (pixtype_at raw offset).
  destruct (_PTYPE (pixtype_at raw offset)) as [[c psize]|]; reflexivity.
Qed.

End DecoderLoop.

Section DecoderClaims.

Example wkbHeader_raster_bytes : wkbHeader raster_bytes = Ok raster_header.
Proof. reflexivity. Qed.

(** C2.  If the header of a raster declares one band, width [W >= 1] and
    height [H >= 1], the band metadata byte declares a supported pixel type
    [T] of sample size [psize], and at least [61 + 1 + W*H*psize] bytes are
    present, then [wkbImage] returns one band of exactly [H] rows of exactly
    [W] elements, and the offset after the band is [61 + 1 + W*H*psize]. *)
Theorem wkbImage_single_band (raster_data : payload) (raw : bytes)
    (h : header) (T : Z) (c : format_char) (psize : Z) :
  wkbImage_raw raster_data = Ok raw ->
  wkbHeader raw = Ok h ->
  h_nbands h = 1 -> 1 <= h_width h -> 1 <= h_height h ->
  pixtype_at raw 61 = T -> _PTYPE T = Some (c, psize) ->
  61 + 1 + h_width h * h_height h * psize <= len raw ->
  exists b,
    wkbImage_run raster_data
    = Ok ([b], 61 + 1 + h_width h * h_height h * psize)
    /\ wkbImage raster_data = Ok [b]
    /\ len b = h_height h
    /\ Forall (fun row => len row = h_width h) b.
Proof.
  intros Hraw Hh Hn HW HH HT HP L.
  pose proof (wkbHeader_endianness raw h Hh) as He.
  destruct (PTYPE_size _ _ _ HP) as (_ & Hp).
  assert (Hpix : 1 <= h_width h * h_height h * psize) by nia.
  destruct (read_band_Ok raw 61 T (h_height h) (h_width h) (h_endianness h)
              c psize HP He ltac:(lia) ltac:(lia) ltac:(lia) L)
    as (b & Eb & Lb & Fb).
  assert (Erun : wkbImage_run raster_data
                 = Ok ([b], 61 + 1 + h_width h * h_height h * psize)).
  { unfold wkbImage_run. rewrite Hraw. cbn [bind]. rewrite Hh. cbn [bind].
    rewrite Hn. change (range 1) with [0].
    rewrite (wkbImage_bands_cons raw h 0 [] [] 61 He) by lia.
    rewrite HT, HP, Eb. reflexivity. }
  exists b. split; [exact Erun|]. split; [|split; assumption].
  unfold wkbImage. rewrite Erun. reflexivity.
Qed.

Lemma wkbImage_single_band_witness :
  exists b,
    wkbImage_run (PBuf Bytes raster_bytes) = Ok ([b], 74)
    /\ wkbImage (PBuf Bytes raster_bytes) = Ok [b]
    /\ len b = 3
    /\ Forall (fun row => len row = 2) b.
Proof.
  refine (wkbImage_single_band (PBuf Bytes raster_bytes) raster_bytes
            raster_header 5 fmt_h 2 eq_refl eq_refl eq_refl _ _ eq_refl eq_refl _).
  - vm_compute. discriminate.
  - vm_compute. discriminate.
  - vm_compute. discriminate.
Defined.

Lemma wkbImage_bands_unsupported (raw : bytes) (h : header) (i : Z)
    (rest : list Z) (img : list band) (offset : Z) :
  h_endianness h = 0 \/ h_endianness h = 1 ->
  0 <= offset -> offset + 1 < len raw ->
  _PTYPE (pixtype_at raw offset) = None ->
  wkbImage_bands raw h (i :: rest) img offset
  = Raise (ValueError
             (lit "Invalid pixel type " ++ str_of_int (pixtype_at raw offset)
                ++ lit " (band type " ++ str_of_int (band_type_at raw offset)
                ++ lit ") for band " ++ str_of_int (i + 1))).
Proof.
  intros He Ho L HP.
  rewrite (wkbImage_bands_cons raw h i rest img offset He Ho L), HP.
  reflexivity.
Qed.

Lemma wkbImage_bands_no_header (raw : bytes) (h : header) (i : Z)
    (rest : list Z) (img : list band) (offset : Z) :
  len raw <= offset + 1 ->
  wkbImage_bands raw h (i :: rest) img offset
  = Raise (ValueError (lit "Raster data too short for band "
                         ++ str_of_int (i + 1) ++ lit " header")).
Proof.
  intros L. cbn [wkbImage_bands].
  replace (offset + 1 >=? len raw) with true
    by (symmetry; rewrite Z.geb_leb; apply Z.leb_le; lia).
  reflexivity.
Qed.

Lemma wkbImage_bands_short (raw : bytes) (h : header) (i : Z)
    (rest : list Z) (img : list band) (offset : Z) (c : format_char)
    (psize : Z) :
  h_endianness h = 0 \/ h_endianness h = 1 ->
  0 <= offset -> offset + 1 < len raw ->
  _PTYPE (pixtype_at raw offset) = Some (c, psize) ->
  len raw < offset + 1 + h_width h * h_height h * psize ->
  exists m,
    wkbImage_bands raw h (i :: rest) img offset
    = Raise (ValueError (lit "Failed to read band " ++ str_of_int (i + 1)
                           ++ lit ": Raster data too short for band: " ++ m)).
Proof.
  intros He Ho L HP Ls.
  rewrite (wkbImage_bands_cons raw h i rest img offset He Ho L), HP.
  rewrite (read_band_short raw offset _ _ _ _ c psize HP) by exact Ls.
  cbn [is_ValueError]. eexists. reflexivity.
Qed.

(** C8.  Pixel type 9 is not in the table.  [read_band] refuses a pixel
    type outside the table with the [ValueError] "Invalid pixel type", and
    so does the loop of [wkbImage] for a band whose metadata byte minus 64
    is outside the table.  When fewer than [offset + 1 + W*H*psize] bytes
    are present, [read_band] raises the [ValueError] "Raster data too
    short for band", and the loop of [wkbImage] raises a [ValueError]
    (for the missing metadata byte, or wrapping the one of [read_band]).
    In each of these cases the loop ends with a [ValueError] and returns
    no band. *)
Theorem band_decoding_errors :
  _PTYPE 9 = None
  /\ (forall data offset t H W e,
        _PTYPE t = None ->
        read_band data offset t H W e
        = Raise (ValueError (lit "Invalid pixel type: " ++ str_of_int t)))
  /\ (forall raw h i rest img offset,
        h_endianness h = 0 \/ h_endianness h = 1 ->
        0 <= offset -> offset + 1 < len raw ->
        _PTYPE (pixtype_at raw offset) = None ->
        wkbImage_bands raw h (i :: rest) img offset
        = Raise (ValueError
                   (lit "Invalid pixel type " ++ str_of_int (pixtype_at raw offset)
                      ++ lit " (band type " ++ str_of_int (band_type_at raw offset)
                      ++ lit ") for band " ++ str_of_int (i + 1))))
  /\ (forall data offset t H W e c psize,
        _PTYPE t = Some (c, psize) ->
        len data < offset + 1 + W * H * psize ->
        exists m,
          read_band data offset t H W e
          = Raise (ValueError (lit "Raster data too short for band: " ++ m)))
  /\ (forall raw h i rest img offset,
        len raw <= offset + 1 ->
        wkbImage_bands raw h (i :: rest) img offset
        = Raise (ValueError (lit "Raster data too short for band "
                               ++ str_of_int (i + 1) ++ lit " header")))
  /\ (forall raw h i rest img offset c psize,
        h_endianness h = 0 \/ h_endianness h = 1 ->
        0 <= offset -> offset + 1 < len raw ->
        _PTYPE (pixtype_at raw offset) = Some (c, psize) ->
        len raw < offset + 1 + h_width h * h_height h * psize ->
        exists m,
          wkbImage_bands raw h (i :: rest) img offset
          = Raise (ValueError (lit "Failed to read band " ++ str_of_int (i + 1)
                                 ++ lit ": Raster data too short for band: " ++ m)))
  /\ (forall raw h i rest img offset,
        h_endianness h = 0 \/ h_endianness h = 1 -> 0 <= offset ->
        _PTYPE (pixtype_at raw offset) = None
        \/ (exists c psize,
              _PTYPE (pixtype_at raw offset) = Some (c, psize)
              /\ len raw < offset + 1 + h_width h * h_height h * psize) ->
        exists m,
          wkbImage_bands raw h (i :: rest) img offset = Raise (ValueError m)).
Proof.
  split; [reflexivity|]. split; [|split; [|split; [|split; [|split]]]].
  - intros. now apply read_band_unsupported.
  - apply wkbImage_bands_unsupported.
  - intros data offset t H W e c psize HP L.
    rewrite (read_band_short data offset t H W e c psize HP L).
    eexists. reflexivity.
  - apply wkbImage_bands_no_header.
  - apply wkbImage_bands_short.
  - intros raw h i rest img offset He Ho Hcase.
    destruct (Z_lt_le_dec (offset + 1) (len raw)) as [L|L].
    + destruct Hcase as [HP | (c & psize & HP & Ls)].
      * rewrite (wkbImage_bands_unsupported raw h i rest img offset He Ho L HP).
        eexists. reflexivity.
      * destruct (wkbImage_bands_short raw h i rest img offset c psize
                    He Ho L HP Ls) as (m & E).
        rewrite E. eexists. reflexivity.
    + rewrite (wkbImage_bands_no_header raw h i rest img offset L).
      eexists. reflexivity.
Qed.

Lemma band_decoding_errors_witness :
  wkbImage_bands raster_type9_bytes raster_header [0] [] 61
  = Raise (ValueError (lit "Invalid pixel type 9 (band type 73) for band 1"))
  /\ (exists m,
        wkbImage_bands (firstn 70 raster_bytes) raster_header [0] [] 61
        = Raise (ValueError (lit "Failed to read band 1: Raster data too short for band: "
                               ++ m))).
Proof.
  destruct band_decoding_errors as (_ & _ & A & _ & _ & B & _).
  split.
  - apply (A raster_type9_bytes raster_header 0 [] [] 61).
    + right. reflexivity.
    + lia.
    + vm_compute. reflexivity.
    + reflexivity.
  - apply (B (firstn 70 raster_bytes) raster_header 0 [] [] 61 fmt_h 2).
    + right. reflexivity.
    + lia.
    + vm_compute. reflexivity.
    + reflexivity.
    + vm_compute. reflexivity.
Defined.

End DecoderClaims.

(** * Further properties *)

(** ** Descriptions, pickling and hashing *)

Section Pickling.

Lemma ord_ascii_of_byte (b : byte) : ord (ascii_of_byte b) = byte_to_Z b.
Proof. destruct b; reflexivity. Qed.

Lemma encode_utf8_char_ascii (c : ascii) :
  (128 <=? ord c) = false -> encode_utf8_char c = [byte_of_ascii c].
Proof.
  destruct c as [[] [] [] [] [] [] [] []]; intros H;
    try reflexivity; vm_compute in H; discriminate H.
Qed.

Lemma encode_utf8_char_high (c : ascii) :
  existsb (fun x => 128 <=? ord x) (map ascii_of_byte (encode_utf8_char c))
  = (128 <=? ord c).
Proof. destruct c as [[] [] [] [] [] [] [] []]; reflexivity. Qed.

Lemma encode_utf8_ascii (s : str) :
  existsb (fun c => 128 <=? ord c) s = false ->
  map ascii_of_byte (encode_utf8 s) = s.
Proof.
  induction s as [|c r IH]; intros H; [reflexivity|].
  cbn [existsb] in H. apply orb_false_iff in H. destruct H as [Hc Hr].
  unfold encode_utf8. cbn [flat_map]. rewrite (encode_utf8_char_ascii c Hc).
  cbn [app map]. rewrite ascii_of_byte_of_ascii. f_equal. now apply IH.
Qed.

Lemma encode_utf8_high (s : str) :
  existsb (fun x => 128 <=? ord x) (map ascii_of_byte (encode_utf8 s))
  = existsb (fun c => 128 <=? ord c) s.
Proof.
  induction s as [|c r IH]; [reflexivity|].
  unfold encode_utf8 in *. cbn [flat_map existsb].
  rewrite map_app, existsb_app, IH, encode_utf8_char_high. reflexivity.
Qed.

Lemma digit_value_lower (c : ascii) : digit_value (lower_char c) = digit_value c.
Proof. destruct c as [[] [] [] [] [] [] [] []]; reflexivity. Qed.

Lemma unhex_pairs_lower (s : str) : unhex_pairs (lower s) = unhex_pairs s.
Proof.
  induction s as [| c | c1 c2 r IH] using pairs_ind; try reflexivity.
  unfold lower in *. cbn [map]. rewrite !unhex_pairs_cons2, IH.
  now rewrite !digit_value_lower.
Qed.

Lemma unhexlify_bytes_Ok (t : str) (b : bytes) :
  unhexlify_bytes (encode_utf8 t) = Ok b <-> unhex_pairs t = Some b.
Proof.
  unfold unhexlify_bytes. split.
  - destruct (Nat.odd _); [discriminate|].
    destruct (unhex_pairs (map ascii_of_byte (encode_utf8 t))) as [bs|] eqn:E;
      [|discriminate].
    intros H. injection H as ->.
    destruct (unhex_pairs_shape _ _ E) as (A & _ & _).
    rewrite encode_utf8_high in A.
    now rewrite (encode_utf8_ascii t A) in E.
  - intros H. destruct (unhex_pairs_shape _ _ H) as (A & B & _).
    assert (E : map ascii_of_byte (encode_utf8 t) = t)
      by now apply encode_utf8_ascii.
    assert (L : length (encode_utf8 t) = length t)
      by (rewrite <- E at 2; now rewrite length_map).
    now rewrite L, B, E, H.
Qed.

Lemma unhexlify_bytes_raises (x : bytes) (err : exn) :
  unhexlify_bytes x = Raise err -> exists m, err = BinasciiError m.
Proof.
  unfold unhexlify_bytes. destruct (Nat.odd _).
  - intros H. injection H as <-. eexists. reflexivity.
  - destruct (unhex_pairs _); [discriminate|].
    intros H. injection H as <-. eexists. reflexivity.
Qed.

Lemma WKB_data_from_desc_buf (k : buffer_kind) (b : bytes) :
  WKB_data_from_desc (_wkb_to_hex (PBuf k b)) = Ok b.
Proof.
  unfold WKB_data_from_desc. cbn [_wkb_to_hex]. rewrite hexlify_lower.
  apply unhexlify_bytes_Ok, unhex_hexlify.
Qed.

Lemma WKB_data_from_desc_str (s : str) (b : bytes) :
  WKB_data_from_desc (_wkb_to_hex (PStr s)) = Ok b <-> unhexlify s = Ok b.
Proof.
  unfold WKB_data_from_desc. cbn [_wkb_to_hex].
  now rewrite unhexlify_bytes_Ok, unhex_pairs_lower, unhexlify_Ok.
Qed.

(** X1.  [WKBElement._data_from_desc] undoes the description: on the
    description of a buffer it returns the buffer; on the description of a
    text it returns the bytes [b] exactly when the text is a hex string of
    [b] (in any letter case). *)
Theorem WKB_data_from_desc_of_desc :
  (forall k b, WKB_data_from_desc (_wkb_to_hex (PBuf k b)) = Ok b)
  /\ (forall s b,
        WKB_data_from_desc (_wkb_to_hex (PStr s)) = Ok b <-> unhexlify s = Ok b).
Proof.
  split; [exact WKB_data_from_desc_buf | exact WKB_data_from_desc_str].
Qed.

Lemma WKB_data_from_desc_of_desc_witness :
  WKB_data_from_desc (_wkb_to_hex (PStr point_ewkb_hex)) = Ok point_ewkb.
Proof.
  apply (proj2 WKB_data_from_desc_of_desc). reflexivity.
Defined.

Lemma eq_by_attributes (a b : element) :
  extended_of a = extended_of b -> srid_of a = srid_of b -> desc a = desc b ->
  SpatialElement_eq a (Spatial b) = Ok true.
Proof.
  intros E1 E2 E3. rewrite SpatialElement_eq_spatial.
  rewrite (proj2 (py_eq_extended _ _) E1), (proj2 (py_eq_srid _ _) E2),
    (proj2 (py_eq_desc _ _) E3). reflexivity.
Qed.

Lemma desc_of_encoded (d : payload) (b : bytes) :
  encodes d b -> _wkb_to_hex d = hexlify b.
Proof.
  destruct d as [s|k x]; cbn [encodes _wkb_to_hex].
  - apply lower_unhexlify.
  - intros ->. apply hexlify_lower.
Qed.

(** X2.  Pickling round trip.  [__setstate__] applied to the state of
    [__getstate__] gives back a [WKTElement] or a [RasterElement]
    unchanged; for a [WKBElement] whose data is a buffer [b] or a hex
    string of it, it gives the element with the same SRID and flag and the
    bytes [b] as data, which compares equal to the original in both
    directions. *)
Theorem pickle_round_trip (a : element) :
  match a with
  | WKB e =>
      forall b, encodes (data e) b ->
        let a' := WKB (mkSpatialElement (srid e) (PBuf Bytes b) (extended e)) in
        SpatialElement_setstate (class_of a) (SpatialElement_getstate a) = Ok a'
        /\ SpatialElement_eq a (Spatial a') = Ok true
        /\ SpatialElement_eq a' (Spatial a) = Ok true
  | _ => SpatialElement_setstate (class_of a) (SpatialElement_getstate a) = Ok a
  end.
Proof.
  destruct a as [[sr d x]|[sr d x]|[sr d x]]; try reflexivity.
  intros b Hb a'. cbn [data srid extended] in *.
  assert (Hd : desc (WKB (mkSpatialElement sr d x)) = desc a').
  { unfold desc, WKB_desc, a'. cbn [data]. rewrite (desc_of_encoded d b Hb).
    cbn [_wkb_to_hex]. now rewrite hexlify_lower. }
  split; [|split].
  - unfold SpatialElement_setstate, SpatialElement_getstate, SpatialElement_str.
    cbn [class_of state_data state_srid state_extended srid_of extended_of
           desc WKB_desc data].
    assert (E : WKB_data_from_desc (_wkb_to_hex d) = Ok b).
    { destruct d as [s|k y]; cbn [encodes] in Hb.
      - now apply WKB_data_from_desc_str.
      - subst y. apply WKB_data_from_desc_buf. }
    change (WKB_desc (mkSpatialElement sr d x)) with (_wkb_to_hex d).
    rewrite E. reflexivity.
  - apply eq_by_attributes; [reflexivity | reflexivity | exact Hd].
  - apply eq_by_attributes; [reflexivity | reflexivity | now symmetry].
Qed.

Lemma pickle_round_trip_witness :
  let a := WKB (mkSpatialElement 4326 (PStr point_ewkb_hex) (Some true)) in
  let a' := WKB (mkSpatialElement 4326 (PBuf Bytes point_ewkb) (Some true)) in
  SpatialElement_setstate (class_of a) (SpatialElement_getstate a) = Ok a'
  /\ SpatialElement_eq a (Spatial a') = Ok true
  /\ SpatialElement_eq a' (Spatial a) = Ok true.
Proof.
  intros a a'.
  apply (pickle_round_trip
           (WKB (mkSpatialElement 4326 (PStr point_ewkb_hex) (Some true)))
           point_ewkb).
  reflexivity.
Defined.

(** X3.  Unpickling discovers late what construction let through: for a
    [WKBElement] whose data is a text that is not a hex string,
    [__setstate__] on its own state raises [binascii.Error]. *)
Theorem unpickle_invalid_hex_raises (s : str) (sr : Z) (x : option bool) :
  (forall b, unhexlify s <> Ok b) ->
  exists m,
    SpatialElement_setstate WKBElement_class
      (SpatialElement_getstate (WKB (mkSpatialElement sr (PStr s) x)))
    = Raise (BinasciiError m).
Proof.
  intros N.
  unfold SpatialElement_setstate, SpatialElement_getstate, SpatialElement_str.
  cbn [state_data state_srid state_extended srid_of extended_of desc].
  change (WKB_desc (mkSpatialElement sr (PStr s) x)) with (_wkb_to_hex (PStr s)).
  destruct (WKB_data_from_desc (_wkb_to_hex (PStr s))) as [b|err] eqn:E.
  - apply WKB_data_from_desc_str in E. now elim (N b).
  - destruct (unhexlify_bytes_raises _ _ E) as (m & ->). now exists m.
Qed.

Lemma unpickle_invalid_hex_raises_witness :
  WKBElement (PStr (lit "zz")) 4326 (Some false)
  = Ok (mkSpatialElement 4326 (PStr (lit "zz")) (Some false))
  /\ exists m,
       SpatialElement_setstate WKBElement_class
         (SpatialElement_getstate
            (WKB (mkSpatialElement 4326 (PStr (lit "zz")) (Some false))))
       = Raise (BinasciiError m).
Proof.
  split; [reflexivity|].
  apply (unpickle_invalid_hex_raises (lit "zz") 4326 (Some false)).
  intros b. vm_compute. discriminate.
Defined.

End Pickling.

Section EqualityLaws.

Lemma eq_true_attributes (a b : element) :
  SpatialElement_eq a (Spatial b) = Ok true <->
  extended_of a = extended_of b /\ srid_of a = srid_of b /\ desc a = desc b.
Proof.
  rewrite SpatialElement_eq_spatial.
  assert (I : forall x : bool, @Ok bool x = Ok true <-> x = true)
    by (intros x; split; congruence).
  rewrite I, !andb_true_iff, py_eq_extended, py_eq_srid, py_eq_desc. tauto.
Qed.

Lemma eq_spatial_is_bool (a b : element) :
  exists r, SpatialElement_eq a (Spatial b) = Ok r.
Proof. rewrite SpatialElement_eq_spatial. eexists. reflexivity. Qed.

(** X4.  On spatial elements [==] is an equivalence relation: it is
    reflexive, it gives the same answer in both directions, and it is
    transitive; elements that compare equal pass equal tuples to [hash], so
    they have the same hash. *)
Theorem eq_is_equivalence :
  (forall a, SpatialElement_eq a (Spatial a) = Ok true)
  /\ (forall a b, SpatialElement_eq a (Spatial b) = SpatialElement_eq b (Spatial a))
  /\ (forall a b c,
        SpatialElement_eq a (Spatial b) = Ok true ->
        SpatialElement_eq b (Spatial c) = Ok true ->
        SpatialElement_eq a (Spatial c) = Ok true)
  /\ (forall hash a b,
        SpatialElement_eq a (Spatial b) = Ok true ->
        SpatialElement_hash hash a = SpatialElement_hash hash b).
Proof.
  split; [|split; [|split]].
  - intros a. now apply eq_true_attributes.
  - intros a b.
    destruct (eq_spatial_is_bool a b) as (r1 & E1).
    destruct (eq_spatial_is_bool b a) as (r2 & E2).
    assert (I1 : r1 = true <->
                 extended_of a = extended_of b /\ srid_of a = srid_of b
                 /\ desc a = desc b)
      by (rewrite <- eq_true_attributes, E1; split; congruence).
    assert (I2 : r2 = true <->
                 extended_of b = extended_of a /\ srid_of b = srid_of a
                 /\ desc b = desc a)
      by (rewrite <- eq_true_attributes, E2; split; congruence).
    rewrite E1, E2. f_equal. apply Bool.eq_true_iff_eq.
    rewrite I1, I2. intuition congruence.
  - intros a b c H1 H2. apply eq_true_attributes in H1, H2.
    apply eq_true_attributes. intuition congruence.
  - intros hash a b H. apply eq_true_attributes in H.
    destruct H as (E1 & E2 & E3). unfold SpatialElement_hash.
    now rewrite E1, E2, E3.
Qed.

Lemma eq_is_equivalence_witness :
  let a := WKB (mkSpatialElement 4326 (PBuf Bytes point_ewkb) (Some true)) in
  let b := WKB (mkSpatialElement 4326 (PStr point_ewkb_hex) (Some true)) in
  let c := WKB (mkSpatialElement 4326 (PStr (lower point_ewkb_hex)) (Some true)) in
  SpatialElement_eq a (Spatial c) = Ok true
  /\ forall hash, SpatialElement_hash hash a = SpatialElement_hash hash b.
Proof.
  intros a b c. destruct eq_is_equivalence as (_ & _ & T & H). split.
  - apply (T a b c); reflexivity.
  - intros hash. apply H. reflexivity.
Defined.

End EqualityLaws.

(** ** Reading and rewriting the WKB header *)

Section WkbHeaderFacts.

Lemma flag_of_set (T : Z) :
  Z.lor T 536870912 <> 0 /\ Z.land (Z.lor T 536870912) 536870912 <> 0.
Proof.
  assert (B : Z.testbit (Z.lor T 536870912) 29 = true).
  { rewrite Z.lor_spec, testbit_srid_flag by lia. apply orb_true_r. }
  split; intros E.
  - rewrite E, Z.bits_0 in B. discriminate B.
  - apply srid_flag_clear in E. congruence.
Qed.

Lemma flag_of_cleared (T : Z) : Z.land (Z.land T 3758096383) 536870912 = 0.
Proof.
  rewrite <- Z.land_assoc.
  change (Z.land 3758096383 536870912) with 0. apply Z.land_0_r.
Qed.

Lemma WKBElement_encoded (d : payload) (b : bytes) (sr : Z) (x : option bool)
    (e : SpatialElement payload) :
  encodes d b ->
  WKBElement (PBuf Bytes b) sr x = Ok e ->
  WKBElement d sr x = Ok (mkSpatialElement (srid e) d (extended e)).
Proof.
  intros Hd He. destruct d as [h|k y]; cbn [encodes] in Hd.
  - rewrite (WKBElement_hex _ _ _ _ Hd), He. reflexivity.
  - subst y. apply (WKBElement_buf_kind Bytes k _ _ _ _ He).
Qed.

Lemma WKBElement_encoded_raises (d : payload) (b : bytes) (sr : Z)
    (x : option bool) (m : str) :
  encodes d b ->
  WKBElement (PBuf Bytes b) sr x = Raise (StructError m) ->
  WKBElement d sr x = Raise (StructError m).
Proof.
  intros Hd He. destruct d as [h|k y]; cbn [encodes] in Hd.
  - rewrite (WKBElement_hex _ _ _ _ Hd), He. reflexivity.
  - subst y. revert He. unfold WKBElement.
    destruct (_ || _); [|discriminate]. cbn [bind].
    destruct (slice_to 9 b) as [|b0 r]; [discriminate|]. cbn [index0 bind].
    destruct (wkb_type_int_of _ _); cbn [bind]; [|auto].
    destruct (_ && _); [|discriminate].
    destruct (unpack_int _ _ _); cbn [bind]; [discriminate | auto].
Qed.

Lemma as_ewkb_unchanged (d : payload) (s : Z) (x : option bool) :
  truthy x = true \/ s = -1 ->
  as_ewkb (mkSpatialElement s d x) = WKBElement d s None.
Proof.
  intros H. unfold as_ewkb. cbn [extended srid data].
  destruct H as [-> | ->]; [reflexivity|].
  now rewrite andb_false_r.
Qed.

Lemma as_wkb_unchanged (d : payload) (s : Z) (x : option bool) :
  truthy x = false -> as_wkb (mkSpatialElement s d x) = WKBElement d s None.
Proof.
  intros H. unfold as_wkb. cbn [extended srid data]. now rewrite H.
Qed.

Variables (bo : byte) (t rest : bytes).
Hypothesis Lt : length t = 4%nat.

Let marker := byte_order_marker (byte_to_Z bo).
Let T := bytes_to_uint marker t.

Lemma with_srid_cons (s : Z) :
  with_srid (bo :: t ++ rest) s
  = bo :: uint_to_bytes marker 4 (Z.lor T 536870912)
       ++ uint_to_bytes marker 4 s ++ rest.
Proof. subst T marker. explode4 t Lt. reflexivity. Qed.

Lemma without_srid_cons (q : bytes) :
  length q = 4%nat ->
  without_srid (bo :: t ++ q ++ rest)
  = bo :: uint_to_bytes marker 4 (Z.land T 3758096383) ++ rest.
Proof. intros Lq. subst T marker. explode4 t Lt. explode4 q Lq. reflexivity. Qed.

(** The default constructor on a buffer with a full type word. *)
Lemma WKBElement_default_buf (k : buffer_kind) :
  let d := PBuf k (bo :: t ++ rest) in
  (Z.land T 536870912 = 0 ->
   WKBElement d (-1) None = Ok (mkSpatialElement (-1) d (Some false)))
  /\ (Z.land T 536870912 <> 0 ->
      WKBElement d (-1) None
      = (w <- unpack_int marker fmt_I (firstn 4 rest) ;;
         Ok (mkSpatialElement w d (Some true)))).
Proof.
  intros d. subst d. rewrite (WKBElement_buf k bo t Lt). fold marker. fold T.
  cbv zeta. change (-1 =? -1) with true. cbn [orb]. split; intros F.
  - rewrite F. change (0 =? 0) with true. cbn [negb].
    destruct (T =? 0); reflexivity.
  - assert (NZ : (T =? 0) = false).
    { apply Z.eqb_neq. intros E. apply F. rewrite E. reflexivity. }
    apply Z.eqb_neq in F. rewrite NZ, F. reflexivity.
Qed.

(** [as_ewkb] on an element whose data encodes [bo :: t ++ rest]. *)
Lemma as_ewkb_encoded (d : payload) (s : Z) (x : option bool) :
  encodes d (bo :: t ++ rest) ->
  truthy x = false -> 0 <= s < 4294967296 ->
  exists d1,
    as_ewkb (mkSpatialElement s d x) = Ok (mkSpatialElement s d1 (Some true))
    /\ encodes d1 (with_srid (bo :: t ++ rest) s)
    /\ same_representation d d1.
Proof.
  intros Hd Hx Rs. rewrite with_srid_cons.
  pose proof (word_range marker t Lt) as RT. fold T in RT.
  pose proof (set_flag_range T RT) as RT'.
  set (pt := uint_to_bytes marker 4 (Z.lor T 536870912)).
  set (ps := uint_to_bytes marker 4 s).
  assert (Lpt : length pt = 4%nat) by apply uint_to_bytes_length.
  assert (Hs : (s =? -1) = false) by (apply Z.eqb_neq; lia).
  assert (B1 : WKBElement (PBuf Bytes (bo :: pt ++ ps ++ rest)) s (Some true)
               = Ok (mkSpatialElement s (PBuf Bytes (bo :: pt ++ ps ++ rest))
                       (Some true))).
  { rewrite (WKBElement_buf Bytes bo pt Lpt). cbv zeta. rewrite Hs. reflexivity. }
  destruct d as [h|k y]; cbn [encodes] in Hd.
  - destruct (as_ewkb_hex bo t Lt h rest s x Hd Hx ltac:(lia))
      as (tail & Htail & E1 & H2).
    fold marker in E1. fold T in E1.
    rewrite (int_to_bytes4_Ok marker _ RT'), (int_to_bytes4_Ok marker s Rs) in E1.
    cbn [bind] in E1. fold pt in E1. fold ps in E1.
    set (h1 := slice_to 2 h ++ hexlify pt ++ hexlify ps ++ tail) in *.
    assert (Hh1 : unhexlify h1 = Ok (bo :: pt ++ ps ++ rest)).
    { apply (unhexlify_app _ _ [bo] _ H2).
      apply unhexlify_app; [apply unhexlify_hexlify|].
      apply unhexlify_app; [apply unhexlify_hexlify | exact Htail]. }
    exists (PStr h1). split; [|split; [exact Hh1 | exact I]].
    rewrite E1, (WKBElement_encoded (PStr h1) _ _ _ _ Hh1 B1). reflexivity.
  - subst y. exists (PBuf Memoryview (bo :: pt ++ ps ++ rest)).
    split; [|split; [reflexivity | exact I]].
    rewrite (as_ewkb_buf k bo t Lt) by (assumption || lia).
    fold marker. fold T.
    rewrite (struct_pack_I_Ok marker _ RT'), (struct_pack_I_Ok marker s Rs).
    cbn [bind]. fold pt. fold ps.
    rewrite (WKBElement_encoded (PBuf Memoryview _) _ _ _ _ eq_refl B1).
    reflexivity.
Qed.

(** [as_wkb] on an extended element whose data encodes
    [bo :: t ++ q ++ rest]. *)
Lemma as_wkb_encoded (d : payload) (q : bytes) (s : Z) :
  length q = 4%nat ->
  encodes d (bo :: t ++ q ++ rest) ->
  exists d1,
    as_wkb (mkSpatialElement s d (Some true))
    = Ok (mkSpatialElement s d1 (Some false))
    /\ encodes d1 (without_srid (bo :: t ++ q ++ rest))
    /\ same_representation d d1.
Proof.
  intros Lq Hd. rewrite (without_srid_cons q Lq).
  pose proof (word_range marker t Lt) as RT. fold T in RT.
  pose proof (clear_flag_range T ltac:(lia)) as RT'.
  set (pt := uint_to_bytes marker 4 (Z.land T 3758096383)).
  assert (Lpt : length pt = 4%nat) by apply uint_to_bytes_length.
  assert (B1 : WKBElement (PBuf Bytes (bo :: pt ++ rest)) s (Some false)
               = Ok (mkSpatialElement s (PBuf Bytes (bo :: pt ++ rest))
                       (Some false))).
  { rewrite (WKBElement_buf Bytes bo pt Lpt). cbv zeta. cbn [orb andb].
    rewrite orb_false_r. destruct (s =? -1); reflexivity. }
  destruct d as [h|k y]; cbn [encodes] in Hd.
  - destruct (as_wkb_hex bo t Lt h q rest s Lq Hd) as (tail & Htail & E1 & H2).
    fold marker in E1. fold T in E1.
    rewrite (int_to_bytes4_Ok marker _ RT') in E1. cbn [bind] in E1.
    fold pt in E1.
    set (h1 := slice_to 2 h ++ hexlify pt ++ tail) in *.
    assert (Hh1 : unhexlify h1 = Ok (bo :: pt ++ rest)).
    { apply (unhexlify_app _ _ [bo] _ H2).
      apply unhexlify_app; [apply unhexlify_hexlify | exact Htail]. }
    exists (PStr h1). split; [|split; [exact Hh1 | exact I]].
    rewrite E1, (WKBElement_encoded (PStr h1) _ _ _ _ Hh1 B1). reflexivity.
  - subst y. exists (PBuf Memoryview (bo :: pt ++ rest)).
    split; [|split; [reflexivity | exact I]].
    rewrite (as_wkb_buf k bo t Lt q rest s Lq). fold marker. fold T.
    rewrite (struct_pack_I_Ok marker _ RT'). cbn [bind]. fold pt.
    rewrite (WKBElement_encoded (PBuf Memoryview _) _ _ _ _ eq_refl B1).
    reflexivity.
Qed.

End WkbHeaderFacts.

Section WkbConversions.

Lemma WKBElement_short_buf (b : bytes) :
  1 <= len b < 5 ->
  WKBElement (PBuf Bytes b) (-1) None
  = Ok (mkSpatialElement (-1) (PBuf Bytes b) (Some false)).
Proof.
  unfold len. intros L.
  destruct b as [|b0 [|b1 [|b2 [|b3 [|b4 r]]]]]; cbn [length] in L; try lia;
    reflexivity.
Qed.

(** X5.  What [WKBElement(data)] reads with the default arguments, for
    [data] a buffer [b] or a hex string of it.  An empty buffer raises
    [IndexError].  With fewer than five bytes, or with the SRID bit of the
    type word clear, the element is not extended and keeps SRID -1.  With
    the SRID bit set, the element is extended and its SRID is the unsigned
    word at bytes 5..8, provided nine bytes are present; with five to eight
    bytes the constructor raises [struct.error]. *)
Theorem WKBElement_default_reading (data : payload) (b : bytes) :
  encodes data b ->
  (b = [] -> exists m, WKBElement data (-1) None = Raise (IndexError m))
  /\ (1 <= len b < 5 \/ (5 <= len b /\ srid_flag b = false) ->
      WKBElement data (-1) None = Ok (mkSpatialElement (-1) data (Some false)))
  /\ (5 <= len b < 9 -> srid_flag b = true ->
      WKBElement data (-1) None
      = Raise (StructError (lit "unpack requires a buffer of 4 bytes")))
  /\ (9 <= len b -> srid_flag b = true ->
      WKBElement data (-1) None
      = Ok (mkSpatialElement (wkb_srid_word b) data (Some true))
      /\ 0 <= wkb_srid_word b < 4294967296).
Proof.
  intros Hd. split; [|split; [|split]].
  - intros ->. destruct data as [h|k y]; cbn [encodes] in Hd.
    + rewrite (WKBElement_hex _ _ _ _ Hd). eexists. reflexivity.
    + subst y. eexists. reflexivity.
  - intros [L | [L F]].
    + rewrite (WKBElement_encoded data b _ _ _ Hd (WKBElement_short_buf b L)).
      reflexivity.
    + destruct (split_wkb_header b L) as (bo & t & rest & -> & Lt).
      apply srid_flag_false in F. rewrite (wkb_words_cons _ _ _ Lt) in F.
      rewrite (WKBElement_encoded data _ _ _ _ Hd
                 (proj1 (WKBElement_default_buf bo t rest Lt Bytes) F)).
      reflexivity.
  - intros L F.
    destruct (split_wkb_header b ltac:(lia)) as (bo & t & rest & -> & Lt).
    apply srid_flag_true in F. rewrite (wkb_words_cons _ _ _ Lt) in F.
    apply (WKBElement_encoded_raises data _ _ _ _ Hd).
    rewrite (proj2 (WKBElement_default_buf bo t rest Lt Bytes) F).
    unfold len in L. cbn [length] in L. rewrite length_app, Lt in L.
    unfold unpack_int, struct_unpack, len.
    rewrite firstn_all2 by lia.
    replace (Z.of_nat (length rest) =? calcsize fmt_I) with false
      by (symmetry; apply Z.eqb_neq; cbn [calcsize]; lia).
    reflexivity.
  - intros L F.
    destruct (split_ewkb_header b L) as (bo & t & q & rest & -> & Lt & Lq).
    apply srid_flag_true in F. rewrite (wkb_words_cons _ _ _ Lt) in F.
    rewrite (wkb_srid_word_cons _ _ _ _ Lt Lq). split.
    + assert (B : WKBElement (PBuf Bytes (bo :: t ++ q ++ rest)) (-1) None
                  = Ok (mkSpatialElement
                          (bytes_to_uint (byte_order_marker (byte_to_Z bo)) q)
                          (PBuf Bytes (bo :: t ++ q ++ rest)) (Some true))).
      { rewrite (proj2 (WKBElement_default_buf bo t (q ++ rest) Lt Bytes) F).
        replace (firstn 4 (q ++ rest)) with q
          by (rewrite <- Lq, firstn_app, Nat.sub_diag, firstn_all, app_nil_r;
              reflexivity).
        rewrite (unpack_int_I _ q Lq). reflexivity. }
      rewrite (WKBElement_encoded data _ _ _ _ Hd B). reflexivity.
    + apply (word_range _ q Lq).
Qed.

Lemma WKBElement_default_reading_witness :
  WKBElement (PStr point_ewkb_hex) (-1) None
  = Ok (mkSpatialElement 4326 (PStr point_ewkb_hex) (Some true))
  /\ WKBElement (PBuf Bytes (firstn 7 point_ewkb)) (-1) None
     = Raise (StructError (lit "unpack requires a buffer of 4 bytes"))
  /\ WKBElement (PBuf Bytes (firstn 3 point_ewkb)) (-1) None
     = Ok (mkSpatialElement (-1) (PBuf Bytes (firstn 3 point_ewkb)) (Some false)).
Proof.
  split; [|split].
  - apply (WKBElement_default_reading (PStr point_ewkb_hex) point_ewkb eq_refl).
    + vm_compute. discriminate.
    + reflexivity.
  - apply (WKBElement_default_reading (PBuf Bytes (firstn 7 point_ewkb))
             (firstn 7 point_ewkb) eq_refl).
    + vm_compute. split; [discriminate | reflexivity].
    + reflexivity.
  - apply (WKBElement_default_reading (PBuf Bytes (firstn 3 point_ewkb))
             (firstn 3 point_ewkb) eq_refl).
    left. vm_compute. split; [discriminate | reflexivity].
Defined.

Lemma split_encoded_wkb (b : bytes) :
  5 <= len b ->
  exists bo t rest, b = bo :: t ++ rest /\ length t = 4%nat.
Proof. apply split_wkb_header. Qed.

Lemma with_srid_facts (bo : byte) (t rest : bytes) (s : Z) :
  length t = 4%nat -> 0 <= s < 4294967296 ->
  let b' := with_srid (bo :: t ++ rest) s in
  len b' = len (bo :: t ++ rest) + 4
  /\ srid_flag b' = true /\ wkb_srid_word b' = s
  /\ WKBElement (PBuf Bytes b') (-1) None
     = Ok (mkSpatialElement s (PBuf Bytes b') (Some true))
  /\ WKBElement (PBuf Bytes b') s None
     = Ok (mkSpatialElement s (PBuf Bytes b') (Some true)).
Proof.
  intros Lt Rs b'. subst b'. rewrite (with_srid_cons bo t rest Lt).
  set (marker := byte_order_marker (byte_to_Z bo)).
  set (T := bytes_to_uint marker t).
  pose proof (word_range marker t Lt) as RT. fold T in RT.
  pose proof (set_flag_range T RT) as RT'.
  set (pt := uint_to_bytes marker 4 (Z.lor T 536870912)).
  set (ps := uint_to_bytes marker 4 s).
  assert (Lpt : length pt = 4%nat) by apply uint_to_bytes_length.
  assert (Lps : length ps = 4%nat) by apply uint_to_bytes_length.
  assert (ET : bytes_to_uint marker pt = Z.lor T 536870912)
    by (apply bytes_to_uint_to_bytes; exact RT').
  assert (Es : bytes_to_uint marker ps = s)
    by (apply bytes_to_uint_to_bytes; exact Rs).
  destruct (flag_of_set T) as (NZ & F).
  assert (Fb : Z.land (bytes_to_uint marker pt) 536870912 <> 0)
    by now rewrite ET.
  assert (Hfirst : firstn 4 (ps ++ rest) = ps)
    by (rewrite <- Lps, firstn_app, Nat.sub_diag, firstn_all, app_nil_r;
        reflexivity).
  split; [|split; [|split; [|split]]].
  - unfold len. cbn [length]. rewrite !length_app, Lpt, Lps, Lt. lia.
  - unfold srid_flag. rewrite (wkb_words_cons bo pt _ Lpt). fold marker.
    apply negb_true_iff, Z.eqb_neq. exact Fb.
  - rewrite (wkb_srid_word_cons bo pt ps rest Lpt Lps). exact Es.
  - rewrite (proj2 (WKBElement_default_buf bo pt (ps ++ rest) Lpt Bytes) Fb).
    fold marker. rewrite Hfirst, (unpack_int_I _ ps Lps), Es. reflexivity.
  - rewrite (WKBElement_buf Bytes bo pt Lpt). fold marker. cbv zeta.
    rewrite ET. apply Z.eqb_neq in NZ, F. rewrite NZ, F.
    replace (s =? -1) with false by (symmetry; apply Z.eqb_neq; lia).
    reflexivity.
Qed.

(** X6.  Injecting an SRID.  For an element that is not flagged extended,
    with SRID [0 <= s < 2^32] and data a buffer [b] of at least five bytes
    or a hex string of it, [as_ewkb] returns an extended element with the
    same SRID whose data, in the same representation, encodes
    [with_srid b s]: four bytes longer, SRID bit set, SRID word [s].
    Reading that data back with the default constructor gives the same
    element, and a second [as_ewkb] changes nothing. *)
Theorem as_ewkb_writes_srid (data : payload) (b : bytes) (s : Z)
    (x : option bool) :
  encodes data b -> 5 <= len b -> truthy x = false -> 0 <= s < 4294967296 ->
  exists d1,
    as_ewkb (mkSpatialElement s data x) = Ok (mkSpatialElement s d1 (Some true))
    /\ encodes d1 (with_srid b s) /\ same_representation data d1
    /\ len (with_srid b s) = len b + 4
    /\ srid_flag (with_srid b s) = true /\ wkb_srid_word (with_srid b s) = s
    /\ WKBElement d1 (-1) None = Ok (mkSpatialElement s d1 (Some true))
    /\ as_ewkb (mkSpatialElement s d1 (Some true))
       = Ok (mkSpatialElement s d1 (Some true)).
Proof.
  intros Hd L Hx Rs.
  destruct (split_encoded_wkb b L) as (bo & t & rest & -> & Lt).
  destruct (as_ewkb_encoded bo t rest Lt data s x Hd Hx Rs)
    as (d1 & E1 & Hd1 & Hrep).
  destruct (with_srid_facts bo t rest s Lt Rs) as (A1 & A2 & A3 & A4 & A5).
  exists d1. repeat split; try assumption.
  - rewrite (WKBElement_encoded d1 _ _ _ _ Hd1 A4). reflexivity.
  - rewrite as_ewkb_unchanged by (left; reflexivity).
    rewrite (WKBElement_encoded d1 _ _ _ _ Hd1 A5). reflexivity.
Qed.

Lemma as_ewkb_writes_srid_witness :
  exists d1,
    as_ewkb (mkSpatialElement 4326 (PStr point_wkb_hex) (Some false))
    = Ok (mkSpatialElement 4326 d1 (Some true))
    /\ encodes d1 (with_srid point_wkb 4326)
    /\ same_representation (PStr point_wkb_hex) d1
    /\ len (with_srid point_wkb 4326) = len point_wkb + 4
    /\ srid_flag (with_srid point_wkb 4326) = true
    /\ wkb_srid_word (with_srid point_wkb 4326) = 4326
    /\ WKBElement d1 (-1) None = Ok (mkSpatialElement 4326 d1 (Some true))
    /\ as_ewkb (mkSpatialElement 4326 d1 (Some true))
       = Ok (mkSpatialElement 4326 d1 (Some true)).
Proof.
  apply (as_ewkb_writes_srid (PStr point_wkb_hex) point_wkb 4326 (Some false)).
  - reflexivity.
  - vm_compute. discriminate.
  - reflexivity.
  - lia.
Defined.

Lemma without_srid_facts (bo : byte) (t q rest : bytes) (s : Z) :
  length t = 4%nat -> length q = 4%nat ->
  let b := bo :: t ++ q ++ rest in
  let b' := without_srid b in
  len b' = len b - 4 /\ srid_flag b' = false
  /\ WKBElement (PBuf Bytes b') s None
     = Ok (mkSpatialElement s (PBuf Bytes b') (Some false)).
Proof.
  intros Lt Lq b b'. subst b' b. rewrite (without_srid_cons bo t rest Lt q Lq).
  set (marker := byte_order_marker (byte_to_Z bo)).
  set (T := bytes_to_uint marker t).
  pose proof (clear_flag_range T ltac:(pose proof (word_range marker t Lt); lia))
    as RT'.
  set (pt := uint_to_bytes marker 4 (Z.land T 3758096383)).
  assert (Lpt : length pt = 4%nat) by apply uint_to_bytes_length.
  assert (ET : bytes_to_uint marker pt = Z.land T 3758096383)
    by (apply bytes_to_uint_to_bytes; exact RT').
  assert (Fb : Z.land (bytes_to_uint marker pt) 536870912 = 0)
    by (rewrite ET; apply flag_of_cleared).
  split; [|split].
  - unfold len. cbn [length]. rewrite !length_app, Lpt, Lt, Lq. lia.
  - unfold srid_flag. rewrite (wkb_words_cons bo pt _ Lpt). fold marker.
    rewrite Fb. reflexivity.
  - rewrite (WKBElement_buf Bytes bo pt Lpt). fold marker. cbv zeta.
    rewrite Fb. cbn [orb]. rewrite orb_true_r.
    change (0 =? 0) with true. cbn [negb].
    destruct (bytes_to_uint marker pt =? 0); reflexivity.
Qed.

(** X7.  Stripping the SRID.  For an element flagged extended whose data
    is a buffer [b] of at least nine bytes or a hex string of it, [as_wkb]
    returns a non-extended element with the same SRID attribute whose
    data, in the same representation, encodes [without_srid b]: four bytes
    shorter, SRID bit clear.  A second [as_wkb] changes nothing. *)
Theorem as_wkb_removes_srid (data : payload) (b : bytes) (s : Z) :
  encodes data b -> 9 <= len b ->
  exists d1,
    as_wkb (mkSpatialElement s data (Some true))
    = Ok (mkSpatialElement s d1 (Some false))
    /\ encodes d1 (without_srid b) /\ same_representation data d1
    /\ len (without_srid b) = len b - 4
    /\ srid_flag (without_srid b) = false
    /\ as_wkb (mkSpatialElement s d1 (Some false))
       = Ok (mkSpatialElement s d1 (Some false)).
Proof.
  intros Hd L.
  destruct (split_ewkb_header b L) as (bo & t & q & rest & -> & Lt & Lq).
  destruct (as_wkb_encoded bo t rest Lt data q s Lq Hd) as (d1 & E1 & Hd1 & Hrep).
  destruct (without_srid_facts bo t q rest s Lt Lq) as (A1 & A2 & A3).
  exists d1. repeat split; try assumption.
  rewrite as_wkb_unchanged by reflexivity.
  rewrite (WKBElement_encoded d1 _ _ _ _ Hd1 A3). reflexivity.
Qed.

Lemma as_wkb_removes_srid_witness :
  exists d1,
    as_wkb (mkSpatialElement 4326 (PBuf Bytes point_ewkb) (Some true))
    = Ok (mkSpatialElement 4326 d1 (Some false))
    /\ encodes d1 (without_srid point_ewkb)
    /\ same_representation (PBuf Bytes point_ewkb) d1
    /\ len (without_srid point_ewkb) = len point_ewkb - 4
    /\ srid_flag (without_srid point_ewkb) = false
    /\ as_wkb (mkSpatialElement 4326 d1 (Some false))
       = Ok (mkSpatialElement 4326 d1 (Some false)).
Proof.
  apply (as_wkb_removes_srid (PBuf Bytes point_ewkb) point_ewkb 4326).
  - reflexivity.
  - vm_compute. discriminate.
Defined.

End WkbConversions.

(** ** Text conversions *)

Section WktConversions.

Lemma split_app_sep (sep : ascii) (a b : str) :
  ~ In sep a -> split sep (a ++ sep :: b) = a :: split sep b.
Proof.
  intros Na. induction a as [|c r IH].
  - cbn [app split]. now rewrite Ascii.eqb_refl.
  - cbn [app split]. destruct (Ascii.eqb c sep) eqn:E.
    + apply Ascii.eqb_eq in E. subst c. elim Na. now left.
    + rewrite IH; [reflexivity|]. intros H. apply Na. now right.
Qed.

Lemma split_nonempty (sep : ascii) (s : str) : (1 <= length (split sep s))%nat.
Proof.
  induction s as [|c r IH]; cbn [split length]; [lia|].
  destruct (Ascii.eqb c sep); cbn [length]; [lia|].
  destruct (split sep r); cbn [length] in *; lia.
Qed.

Lemma split_with_sep (sep : ascii) (s : str) :
  In sep s -> (2 <= length (split sep s))%nat.
Proof.
  induction s as [|c r IH]; intros H; [elim H|].
  cbn [split]. destruct (Ascii.eqb c sep) eqn:E.
  - cbn [length]. pose proof (split_nonempty sep r). lia.
  - destruct H as [H|H]; [subst c; now rewrite Ascii.eqb_refl in E|].
    specialize (IH H). destruct (split sep r); cbn [length] in *; lia.
Qed.

Lemma str_of_int_negative (n : Z) :
  n < 0 ->
  str_of_int n = "-"%char :: str_of_nonneg (- n)
  /\ all_digits (str_of_nonneg (- n))
  /\ decimal_value 0 (str_of_nonneg (- n)) = - n
  /\ len (str_of_nonneg (- n)) = num_digits n.
Proof.
  intros Neg.
  destruct (str_of_int_spec (- n) ltac:(lia)) as (A & V).
  rewrite str_of_int_nonneg in A, V by lia.
  split; [|split; [exact A|split; [exact V|]]].
  - unfold str_of_int.
    now replace (n <? 0) with true by (symmetry; apply Z.ltb_lt; lia).
  - unfold num_digits. now rewrite Z.abs_neq by lia.
Qed.

(** Reading back what [str] wrote: [int(str(n))] is [n]. *)
Lemma py_int_str_of_int (n : Z) :
  num_digits n <= 4300 -> py_int (str_of_int n) = Ok n.
Proof.
  intros L. destruct (Z_lt_le_dec n 0) as [Neg|Pos].
  - destruct (str_of_int_negative n Neg) as (E & A & V & Ld).
    rewrite E. pose proof A as [N F].
    destruct F as [|c r Hc Hr]; [now elim N|].
    rewrite (py_int_minus_digit_head c r Hc).
    rewrite (int_after_all_digits _ (c :: r) A).
    replace (int_max_str_digits <? len (c :: r)) with false
      by (symmetry; apply Z.ltb_ge; rewrite Ld; exact L).
    cbn [bind]. rewrite V. f_equal. lia.
  - destruct (str_of_int_spec n Pos) as (A & V).
    rewrite (py_int_digits _ A), V; [reflexivity|].
    now rewrite <- num_digits_nonneg.
Qed.

Lemma str_of_int_no_semicolon (n : Z) : ~ In ";"%char (str_of_int n).
Proof.
  assert (D : forall m, 0 <= m -> ~ In ";"%char (str_of_int m)).
  { intros m Hm. apply digits_no_semicolon, (str_of_int_spec m Hm). }
  destruct (Z_lt_le_dec n 0) as [Neg|Pos]; [|now apply D].
  specialize (D (- n) ltac:(lia)). unfold str_of_int in *.
  replace (n <? 0) with true by (symmetry; apply Z.ltb_lt; lia).
  replace (- n <? 0) with false in D by (symmetry; apply Z.ltb_ge; lia).
  intros [H|H]; [discriminate H | now apply D].
Qed.

Lemma prefix_no_semicolon (n : Z) : ~ In ";"%char (lit "SRID=" ++ str_of_int n).
Proof.
  intros H. apply in_app_or in H. destruct H as [H|H].
  - cbn in H. repeat (destruct H as [H|H]; [discriminate H|]). exact H.
  - now apply (str_of_int_no_semicolon n).
Qed.

Lemma WKTElement_prefixed (n : Z) (wkt : str) :
  num_digits n <= 4300 ->
  let ewkt := lit "SRID=" ++ str_of_int n ++ lit ";" ++ wkt in
  (~ In ";"%char wkt ->
   WKTElement ewkt (-1) (Some true) = Ok (mkSpatialElement n ewkt (Some true)))
  /\ (In ";"%char wkt ->
      WKTElement ewkt (-1) (Some true) = Raise (invalid_EWKT ewkt)).
Proof.
  intros Ld ewkt.
  assert (S : split ";"%char ewkt
              = (lit "SRID=" ++ str_of_int n) :: split ";"%char wkt).
  { subst ewkt.
    change (lit "SRID=" ++ str_of_int n ++ lit ";" ++ wkt)
      with ((lit "SRID=" ++ str_of_int n) ++ ";"%char :: wkt).
    apply split_app_sep, prefix_no_semicolon. }
  unfold WKTElement. cbn [andb]. change (-1 =? -1) with true. rewrite S.
  split; intros H.
  - rewrite (split_no_sep _ _ H). cbn [hd].
    change (len [lit "SRID=" ++ str_of_int n; wkt] =? 2) with true. cbn [negb].
    change (slice_from 5 (lit "SRID=" ++ str_of_int n)) with (str_of_int n).
    rewrite (py_int_str_of_int n Ld). reflexivity.
  - pose proof (split_with_sep _ _ H) as L2.
    replace (len (_ :: split ";"%char wkt) =? 2) with false; [reflexivity|].
    symmetry. apply Z.eqb_neq. unfold len. cbn [length]. lia.
Qed.

(** [as_ewkt] on a plain element with an SRID: the f-string, then the
    constructor. *)
Lemma as_ewkt_plain (text : str) (s : Z) (x : option bool) :
  truthy x = false -> s <> -1 ->
  as_ewkt (mkSpatialElement s text x)
  = (srid_text <- py_str s ;;
     WKTElement (lit "SRID=" ++ srid_text ++ lit ";" ++ text) (-1) (Some true)).
Proof.
  intros Hx Hs. unfold as_ewkt. cbn [extended srid data]. rewrite Hx.
  apply Z.eqb_neq in Hs. rewrite Hs. reflexivity.
Qed.

(** X8.  [as_ewkt] on an element that is not flagged extended and has an
    SRID other than -1 (negative ones included).  For an SRID of at most
    4300 digits: when the text has no semicolon it returns the extended
    element with the same SRID and the text prefixed by [SRID=<srid>;];
    when the text has a semicolon it raises [ArgumentError].  For an SRID
    of more than 4300 digits the f-string raises [ValueError]. *)
Theorem as_ewkt_prefixes_srid (text : str) (s : Z) (x : option bool) :
  truthy x = false -> s <> -1 ->
  let ewkt := lit "SRID=" ++ str_of_int s ++ lit ";" ++ text in
  (num_digits s <= 4300 ->
   (~ In ";"%char text ->
    as_ewkt (mkSpatialElement s text x) = Ok (mkSpatialElement s ewkt (Some true)))
   /\ (In ";"%char text ->
       as_ewkt (mkSpatialElement s text x) = Raise (invalid_EWKT ewkt)))
  /\ (4300 < num_digits s ->
      as_ewkt (mkSpatialElement s text x) = Raise str_limit_error).
Proof.
  intros Hx Hs ewkt. rewrite (as_ewkt_plain text s x Hx Hs). split.
  - intros Ld. rewrite (py_str_Ok s Ld). cbn [bind].
    now apply WKTElement_prefixed.
  - intros Ld. now rewrite (py_str_limit s Ld).
Qed.

Lemma as_ewkt_prefixes_srid_witness :
  as_ewkt (mkSpatialElement (-5) (lit "POINT(5 45)") (Some false))
  = Ok (mkSpatialElement (-5) (lit "SRID=-5;POINT(5 45)") (Some true))
  /\ as_ewkt (mkSpatialElement 4326 (lit "POINT(5 45);") None)
     = Raise (invalid_EWKT (lit "SRID=4326;POINT(5 45);"))
  /\ as_ewkt (mkSpatialElement (10 ^ 4300) (lit "POINT(5 45)") (Some false))
     = Raise str_limit_error.
Proof.
  split; [|split].
  - destruct (as_ewkt_prefixes_srid (lit "POINT(5 45)") (-5) (Some false))
      as (A & _); [reflexivity | discriminate |].
    apply A; [vm_compute; discriminate|].
    cbn. intros H. repeat (destruct H as [H|H]; [discriminate H|]). exact H.
  - destruct (as_ewkt_prefixes_srid (lit "POINT(5 45);") 4326 None)
      as (A & _); [reflexivity | discriminate |].
    apply A; [vm_compute; discriminate|].
    cbn. do 11 right. left. reflexivity.
  - destruct (as_ewkt_prefixes_srid (lit "POINT(5 45)") (10 ^ 4300) (Some false))
      as (_ & B); [reflexivity | vm_compute; discriminate |].
    apply B. vm_compute. reflexivity.
Defined.

Lemma all_digits_str_of_int (n : Z) : 0 <= n -> all_digits (str_of_int n).
Proof. intros H. apply (str_of_int_spec n H). Qed.

(** X9.  Plain to extended and back.  For a non-extended element with
    SRID [n >= 0] of at most 4300 digits whose text has no semicolon and
    no line feed and does not begin with a space, [as_ewkt] succeeds and
    [as_wkt] of its result is the original text with the same SRID,
    non-extended. *)
Theorem wkt_plain_round_trip (text : str) (n : Z) (x : option bool) :
  truthy x = false -> 0 <= n -> num_digits n <= 4300 ->
  ~ In ";"%char text -> ~ In "010"%char text ->
  hd_error text <> Some " "%char ->
  exists e1,
    as_ewkt (mkSpatialElement n text x) = Ok e1
    /\ extended e1 = Some true /\ srid e1 = n
    /\ data e1 = lit "SRID=" ++ str_of_int n ++ lit ";" ++ text
    /\ as_wkt e1 = Ok (mkSpatialElement n text (Some false)).
Proof.
  intros Hx Hn Ld N1 N2 N3.
  exists (mkSpatialElement n (lit "SRID=" ++ str_of_int n ++ lit ";" ++ text)
            (Some true)).
  split; [|split; [reflexivity | split; [reflexivity|split; [reflexivity|]]]].
  - rewrite (as_ewkt_plain text n x Hx) by lia.
    rewrite (py_str_Ok n Ld). cbn [bind].
    apply (proj1 (WKTElement_prefixed n text Ld) N1).
  - unfold as_wkt. cbn [truthy extended data srid].
    rewrite (REMOVE_SRID_prefix _ text (all_digits_str_of_int n Hn) N2 N3).
    reflexivity.
Qed.

Lemma wkt_plain_round_trip_witness :
  exists e1,
    as_ewkt (mkSpatialElement 4326 (lit "POINT(5 45)") (Some false)) = Ok e1
    /\ extended e1 = Some true /\ srid e1 = 4326
    /\ data e1 = lit "SRID=4326;POINT(5 45)"
    /\ as_wkt e1 = Ok (mkSpatialElement 4326 (lit "POINT(5 45)") (Some false)).
Proof.
  apply (wkt_plain_round_trip (lit "POINT(5 45)") 4326 (Some false));
    try reflexivity; try lia; try discriminate;
    try (vm_compute; discriminate);
    cbn; intros H; repeat (destruct H as [H|H]; [discriminate H|]); exact H.
Defined.

End WktConversions.

Section WktNegativeSrid.

Lemma digits_no_newline (ds : str) :
  Forall (fun c => is_digit c = true) ds -> ~ In "010"%char ds.
Proof.
  intros F H. rewrite Forall_forall in F. specialize (F _ H). discriminate F.
Qed.

(** X10.  The SRID prefix of a negative SRID is written by [as_ewkt] but
    not removed by [as_wkt], whose pattern takes unsigned digits only: for
    [n < -1] of at most 4300 digits and a text without semicolon and line
    feed, [as_ewkt] gives [SRID=<n>;<text>] and [as_wkt] of that element
    keeps the whole string, prefix included, as the text of a non-extended
    element. *)
Theorem as_wkt_keeps_negative_prefix (text : str) (n : Z) :
  n < -1 -> num_digits n <= 4300 ->
  ~ In ";"%char text -> ~ In "010"%char text ->
  let ewkt := lit "SRID=" ++ str_of_int n ++ lit ";" ++ text in
  as_ewkt (mkSpatialElement n text (Some false))
  = Ok (mkSpatialElement n ewkt (Some true))
  /\ as_wkt (mkSpatialElement n ewkt (Some true))
     = Ok (mkSpatialElement n ewkt (Some false)).
Proof.
  intros Hn Ld N1 N2 ewkt. split.
  - rewrite (as_ewkt_plain text n (Some false)) by (reflexivity || lia).
    rewrite (py_str_Ok n Ld). cbn [bind].
    apply (proj1 (WKTElement_prefixed n text Ld) N1).
  - unfold as_wkt. cbn [truthy extended data srid].
    assert (E : _REMOVE_SRID_group3 ewkt = ewkt).
    { subst ewkt.
      destruct (str_of_int_negative n ltac:(lia)) as (E & (_ & F) & _).
      rewrite E. unfold _REMOVE_SRID_group3.
      change (strip_prefix (lit "SRID=")
                (lit "SRID=" ++ ("-"%char :: str_of_nonneg (- n)) ++ lit ";" ++ text))
        with (Some (("-"%char :: str_of_nonneg (- n)) ++ lit ";" ++ text)).
      cbv beta iota. cbn [app span_digits].
      change (is_digit "-"%char) with false. cbv beta iota.
      apply until_newline_id. intros H.
      cbn in H. repeat (destruct H as [H|H]; [discriminate H|]).
      apply in_app_or in H. destruct H as [H|H].
      - now apply (digits_no_newline _ F).
      - cbn in H. destruct H as [H|H]; [discriminate H | now apply N2]. }
    rewrite E. reflexivity.
Qed.

Lemma as_wkt_keeps_negative_prefix_witness :
  as_ewkt (mkSpatialElement (-5) (lit "POINT(5 45)") (Some false))
  = Ok (mkSpatialElement (-5) (lit "SRID=-5;POINT(5 45)") (Some true))
  /\ as_wkt (mkSpatialElement (-5) (lit "SRID=-5;POINT(5 45)") (Some true))
     = Ok (mkSpatialElement (-5) (lit "SRID=-5;POINT(5 45)") (Some false)).
Proof.
  apply (as_wkt_keeps_negative_prefix (lit "POINT(5 45)") (-5)); try lia;
    try (vm_compute; discriminate);
    cbn; intros H; repeat (destruct H as [H|H]; [discriminate H|]); exact H.
Defined.

End WktNegativeSrid.

(** ** Raster headers *)

Section RasterHeaders.

Lemma slice_firstn (A : Type) (lo hi : Z) (n : nat) (l : list A) :
  0 <= lo -> hi <= Z.of_nat n -> slice lo hi (firstn n l) = slice lo hi l.
Proof.
  intros H0 H1. unfold slice.
  rewrite skipn_firstn_comm, firstn_firstn. f_equal. lia.
Qed.

Lemma raster_byte0_firstn (n : nat) (raw : bytes) :
  (1 <= n)%nat -> raster_byte0 (firstn n raw) = raster_byte0 raw.
Proof.
  intros Hn. destruct n as [|n]; [lia|]. now destruct raw.
Qed.

Lemma raster_srid_word_firstn (n : nat) (raw : bytes) :
  (57 <= n)%nat -> raster_srid_word (firstn n raw) = raster_srid_word raw.
Proof.
  intros Hn. unfold raster_srid_word, raster_order.
  rewrite raster_byte0_firstn by lia. rewrite slice_firstn by lia. reflexivity.
Qed.

Lemma unpack_int_i_Ok (o : order) (bs : bytes) :
  len bs = 4 -> unpack_int o fmt_i bs = Ok (to_signed 32 (bytes_to_uint o bs)).
Proof.
  intros L. unfold unpack_int. rewrite struct_unpack_Ok by exact L. reflexivity.
Qed.

(** The second half of [RasterElement.__init__] on a header of at least 57
    bytes whose first byte is 0 or 1. *)
Lemma RasterElement_parse_Ok (k : buffer_kind) (hdr : bytes) (stored : str)
    (r : result (SpatialElement str)) :
  r = (byte_order <- index0 k hdr ;;
       if negb ((byte_order =? 0) || (byte_order =? 1)) then
         Raise (invalid_byte_order byte_order)
       else
         let endian_fmt := if byte_order =? 1 then LittleEndian else BigEndian in
         let srid_bytes := slice 53 57 hdr in
         if negb (len srid_bytes =? 4) then
           Raise (ValueError (lit "Could not extract SRID bytes from raster data, got "
                                ++ str_of_int (len srid_bytes) ++ lit " bytes"))
         else
           srid <- unpack_int endian_fmt fmt_i srid_bytes ;;
           Ok (SpatialElement_init stored srid (Some true))) ->
  57 <= len hdr -> raster_byte0 hdr = 0 \/ raster_byte0 hdr = 1 ->
  match r with
  | Raise (IndexError m) | Raise (StructError m) =>
      Raise (ValueError (lit "Error parsing raster data: " ++ m))
  | r' => r'
  end = Ok (mkSpatialElement (raster_srid_word hdr) stored (Some true)).
Proof.
  intros -> L B.
  assert (L4 : len (slice 53 57 hdr) = 4) by (rewrite slice_length; lia).
  unfold raster_srid_word, raster_order.
  destruct hdr as [|b0 tl]; [unfold len in L; simpl in L; lia|].
  cbn [raster_byte0] in *. cbn [index0 bind].
  replace (negb ((byte_to_Z b0 =? 0) || (byte_to_Z b0 =? 1))) with false
    by (destruct B as [-> | ->]; reflexivity).
  cbv zeta. rewrite L4. change (4 =? 4) with true. cbn [negb].
  rewrite (unpack_int_i_Ok _ _ L4). reflexivity.
Qed.

Lemma unhexlify_length (s : str) (b : bytes) :
  unhexlify s = Ok b -> len s = 2 * len b.
Proof.
  rewrite unhexlify_Ok. intros H.
  destruct (unhex_pairs_shape _ _ H) as (_ & _ & L). unfold len. lia.
Qed.

Lemma RasterElement_buf_Ok (k : buffer_kind) (b : bytes) :
  61 <= len b -> raster_byte0 b = 0 \/ raster_byte0 b = 1 ->
  RasterElement (PBuf k b)
  = Ok (mkSpatialElement (raster_srid_word b) (hexlify b) (Some true)).
Proof.
  intros L B. unfold RasterElement. change MIN_HEADER_SIZE with 61.
  replace (len b <? 61) with false by (symmetry; apply Z.ltb_ge; lia).
  cbn [bind].
  apply (RasterElement_parse_Ok k b (hexlify b) _ eq_refl ltac:(lia) B).
Qed.

Lemma RasterElement_str_Ok (s : str) (hdr : bytes) :
  122 <= len s -> unhexlify (slice_to 122 s) = Ok hdr ->
  raster_byte0 hdr = 0 \/ raster_byte0 hdr = 1 ->
  RasterElement (PStr s)
  = Ok (mkSpatialElement (raster_srid_word hdr) s (Some true)).
Proof.
  intros L U B. unfold RasterElement. change (MIN_HEADER_SIZE * 2) with 122.
  replace (len s <? 122) with false by (symmetry; apply Z.ltb_ge; lia).
  rewrite U. cbn [bind].
  assert (Lh : 57 <= len hdr).
  { pose proof (unhexlify_length _ _ U) as E. unfold slice_to, len in E.
    rewrite length_firstn in E. unfold len in *. lia. }
  apply (RasterElement_parse_Ok Bytes hdr s _ eq_refl Lh B).
Qed.

(** X11.  [RasterElement] succeeds on every input with a complete header
    whose first byte is 0 or 1: on a buffer of at least 61 bytes, and on a
    text of at least 122 characters whose first 122 decode.  The result is
    extended, its SRID is the signed word at bytes 53..56, and its data is
    the hex text of the buffer, or the text itself.  The [ValueError]s
    "Could not extract SRID bytes" and "Error parsing raster data" of the
    source are therefore never raised for such input. *)
Theorem RasterElement_valid_header :
  (forall k b,
     61 <= len b -> raster_byte0 b = 0 \/ raster_byte0 b = 1 ->
     RasterElement (PBuf k b)
     = Ok (mkSpatialElement (raster_srid_word b) (hexlify b) (Some true)))
  /\ (forall s hdr,
        122 <= len s -> unhexlify (slice_to 122 s) = Ok hdr ->
        raster_byte0 hdr = 0 \/ raster_byte0 hdr = 1 ->
        RasterElement (PStr s)
        = Ok (mkSpatialElement (raster_srid_word hdr) s (Some true))).
Proof.
  split; [exact RasterElement_buf_Ok | exact RasterElement_str_Ok].
Qed.

Lemma RasterElement_valid_header_witness :
  RasterElement (PBuf Memoryview raster_bytes)
  = Ok (mkSpatialElement 4326 (hexlify raster_bytes) (Some true))
  /\ RasterElement (PStr raster_hex)
     = Ok (mkSpatialElement 4326 raster_hex (Some true)).
Proof.
  destruct RasterElement_valid_header as (A & B). split.
  - apply (A Memoryview raster_bytes).
    + vm_compute. discriminate.
    + right. reflexivity.
  - apply (B raster_hex (firstn 61 raster_bytes)).
    + vm_compute. discriminate.
    + reflexivity.
    + right. reflexivity.
Defined.

Lemma RasterElement_buf_inv (k : buffer_kind) (b : bytes)
    (e : SpatialElement str) :
  RasterElement (PBuf k b) = Ok e ->
  61 <= len b /\ (raster_byte0 b = 0 \/ raster_byte0 b = 1).
Proof.
  unfold RasterElement. change MIN_HEADER_SIZE with 61.
  destruct (len b <? 61) eqn:L; [discriminate|]. cbn [bind]. intros H.
  apply Z.ltb_ge in L. split; [exact L|].
  apply (RasterElement_parsed _ _ _ _ _ eq_refl H).
Qed.

(** X12.  Bytes and hex text agree.  If [RasterElement] accepts a buffer
    [b], it accepts every hex string [h] of [b], in any letter case, with
    the same SRID and flag; the data of the two elements differ at most in
    letter case, and for a lowercase [h] the two elements are the same and
    compare equal. *)
Theorem RasterElement_hex_agrees (k : buffer_kind) (b : bytes) (h : str)
    (eb : SpatialElement str) :
  unhexlify h = Ok b -> RasterElement (PBuf k b) = Ok eb ->
  exists eh,
    RasterElement (PStr h) = Ok eh
    /\ srid eh = srid eb /\ extended eh = extended eb
    /\ data eh = h /\ lower h = data eb
    /\ (lower h = h ->
        eh = eb
        /\ SpatialElement_eq (Raster eb) (Spatial (Raster eh)) = Ok true).
Proof.
  intros Hh Hb.
  destruct (RasterElement_buf_inv k b eb Hb) as (L & B).
  rewrite (RasterElement_buf_Ok k b L B) in Hb. injection Hb as <-.
  pose proof (unhexlify_length _ _ Hh) as Lh.
  assert (U : unhexlify (slice_to 122 h) = Ok (firstn 61 b))
    by (apply (unhexlify_firstn 61 _ _ Hh)).
  assert (B' : raster_byte0 (firstn 61 b) = 0 \/ raster_byte0 (firstn 61 b) = 1)
    by (rewrite raster_byte0_firstn by lia; exact B).
  exists (mkSpatialElement (raster_srid_word b) h (Some true)).
  pose proof (lower_unhexlify _ _ Hh) as Elow.
  split; [|repeat split; try assumption].
  - rewrite (RasterElement_str_Ok h (firstn 61 b) ltac:(lia) U B').
    now rewrite raster_srid_word_firstn by lia.
  - congruence.
  - apply eq_by_attributes; try reflexivity.
    cbn [desc Raster_desc data]. congruence.
Qed.

Lemma RasterElement_hex_agrees_witness :
  exists eh,
    RasterElement (PStr raster_hex) = Ok eh
    /\ srid eh = 4326 /\ extended eh = Some true
    /\ data eh = raster_hex /\ lower raster_hex = hexlify raster_bytes
    /\ (lower raster_hex = raster_hex ->
        eh = mkSpatialElement 4326 (hexlify raster_bytes) (Some true)
        /\ SpatialElement_eq
             (Raster (mkSpatialElement 4326 (hexlify raster_bytes) (Some true)))
             (Spatial (Raster eh)) = Ok true).
Proof.
  apply (RasterElement_hex_agrees Bytes raster_bytes raster_hex
           (mkSpatialElement 4326 (hexlify raster_bytes) (Some true)));
    reflexivity.
Defined.

End RasterHeaders.

Section HeaderDecoding.

Lemma unpack_field_Ok (e : Z) (c : format_char) (bs : bytes) :
  e = 0 \/ e = 1 -> len bs = calcsize c ->
  unpack_field e c bs
  = Ok (unpack_value (if e =? 1 then LittleEndian else BigEndian) c bs).
Proof.
  intros He L. unfold unpack_field.
  destruct He as [-> | ->].
  - change (_format_e 0 c) with (Ok (BigEndian, c)). cbn [bind].
    unfold unpack_fmt. cbn [fst snd]. now rewrite struct_unpack_Ok.
  - change (_format_e 1 c) with (Ok (LittleEndian, c)). cbn [bind].
    unfold unpack_fmt. cbn [fst snd]. now rewrite struct_unpack_Ok.
Qed.

Lemma unpack_int_field_Ok (e : Z) (c : format_char) (bs : bytes) :
  e = 0 \/ e = 1 -> len bs = calcsize c ->
  unpack_int_field e c bs
  = Ok (int_of_sample
          (unpack_value (if e =? 1 then LittleEndian else BigEndian) c bs)).
Proof.
  intros He L. unfold unpack_int_field. now rewrite unpack_field_Ok.
Qed.

Lemma unpack_signed_byte (b0 : byte) :
  unpack_int Native fmt_b [b0] = Ok (to_signed 8 (byte_to_Z b0)).
Proof.
  unfold unpack_int, struct_unpack. cbn [len length Z.of_nat calcsize].
  change (Z.pos (Pos.of_succ_nat 0) =? 1) with true.
  cbn [bind unpack_value int_of_sample bytes_to_uint le_to_Z].
  now rewrite Z.mul_0_r, Z.add_0_r.
Qed.

Lemma signed_byte_flag (x : Z) :
  0 <= x < 256 ->
  (to_signed 8 x = 0 \/ to_signed 8 x = 1) <-> (x = 0 \/ x = 1).
Proof.
  intros R. unfold to_signed. change (2 ^ (8 - 1)) with 128.
  change (2 ^ 8) with 256. destruct (x <? 128) eqn:E.
  - tauto.
  - apply Z.ltb_ge in E. lia.
Qed.

(** [wkbHeader] on a buffer with a complete header and a valid first byte. *)
Lemma wkbHeader_eval (raw : bytes) :
  61 <= len raw -> raster_byte0 raw = 0 \/ raster_byte0 raw = 1 ->
  wkbHeader raw
  = if (raster_u16 raw 57 =? 0) || (raster_u16 raw 59 =? 0)
    then Raise (invalid_dimensions (raster_u16 raw 57) (raster_u16 raw 59))
    else if raster_u16 raw 3 =? 0
         then Raise (ValueError (lit "Raster must have at least one band"))
         else Ok (header_of raw).
Proof.
  intros L B. unfold wkbHeader. change MIN_HEADER_SIZE with 61.
  replace (len raw <? 61) with false by (symmetry; apply Z.ltb_ge; lia).
  assert (S : forall lo hi, 0 <= lo -> lo <= hi -> hi <= 61 ->
                len (slice lo hi raw) = hi - lo)
    by (intros; apply slice_length; lia).
  assert (E0 : unpack_int Native fmt_b (slice 0 1 raw) = Ok (raster_byte0 raw)).
  { destruct raw as [|b0 tl]; [unfold len in L; simpl in L; lia|].
    change (slice 0 1 (b0 :: tl)) with [b0]. rewrite unpack_signed_byte.
    cbn [raster_byte0] in *. unfold to_signed.
    destruct B as [-> | ->]; reflexivity. }
  rewrite E0. cbn [bind].
  replace (negb ((raster_byte0 raw =? 0) || (raster_byte0 raw =? 1))) with false
    by (destruct B as [-> | ->]; reflexivity).
  cbv zeta.
  rewrite !(unpack_int_field_Ok _ fmt_H) by (try exact B; rewrite S; cbn; lia).
  rewrite !(unpack_field_Ok _ fmt_d) by (try exact B; rewrite S; cbn; lia).
  rewrite !(unpack_int_field_Ok _ fmt_i) by (try exact B; rewrite S; cbn; lia).
  cbn [bind unpack_value int_of_sample].
  fold (raster_order raw).
  change (bytes_to_uint (raster_order raw) (slice 57 59 raw))
    with (raster_u16 raw 57).
  change (bytes_to_uint (raster_order raw) (slice 59 61 raw))
    with (raster_u16 raw 59).
  change (bytes_to_uint (raster_order raw) (slice 3 5 raw))
    with (raster_u16 raw 3).
  destruct ((raster_u16 raw 57 =? 0) || (raster_u16 raw 59 =? 0));
    [reflexivity|].
  destruct (raster_u16 raw 3 =? 0); reflexivity.
Qed.

Lemma wkbHeader_short (raw : bytes) :
  len raw < 61 ->
  wkbHeader raw
  = Raise (ValueError (lit "Raster data too short: " ++ str_of_int (len raw)
                         ++ lit " bytes, need at least 61")).
Proof.
  intros L. unfold wkbHeader. change MIN_HEADER_SIZE with 61.
  apply Z.ltb_lt in L. now rewrite L.
Qed.

Lemma wkbHeader_bad_endianness (raw : bytes) :
  61 <= len raw -> raster_byte0 raw <> 0 -> raster_byte0 raw <> 1 ->
  wkbHeader raw
  = Raise (ValueError (lit "Invalid endianness value: "
                         ++ str_of_int (to_signed 8 (raster_byte0 raw))
                         ++ lit ", must be 0 or 1")).
Proof.
  intros L N0 N1. unfold wkbHeader. change MIN_HEADER_SIZE with 61.
  replace (len raw <? 61) with false by (symmetry; apply Z.ltb_ge; lia).
  destruct raw as [|b0 tl]; [unfold len in L; simpl in L; lia|].
  change (slice 0 1 (b0 :: tl)) with [b0]. rewrite unpack_signed_byte.
  cbn [raster_byte0] in *. cbn [bind].
  pose proof (signed_byte_flag (byte_to_Z b0) (byte_to_Z_range b0)) as I.
  replace (negb ((to_signed 8 (byte_to_Z b0) =? 0)
                 || (to_signed 8 (byte_to_Z b0) =? 1))) with true; [reflexivity|].
  symmetry. apply negb_true_iff, orb_false_iff.
  split; apply Z.eqb_neq; intros E; tauto.
Qed.

Lemma wkbHeader_inv (raw : bytes) (h : header) :
  wkbHeader raw = Ok h ->
  61 <= len raw /\ (raster_byte0 raw = 0 \/ raster_byte0 raw = 1)
  /\ h = header_of raw
  /\ raster_u16 raw 57 <> 0 /\ raster_u16 raw 59 <> 0 /\ raster_u16 raw 3 <> 0.
Proof.
  intros H. destruct (Z_lt_le_dec (len raw) 61) as [L|L].
  { rewrite (wkbHeader_short raw L) in H. discriminate H. }
  destruct (Z.eq_dec (raster_byte0 raw) 0) as [B0|B0];
    [|destruct (Z.eq_dec (raster_byte0 raw) 1) as [B1|B1]].
  3: { rewrite (wkbHeader_bad_endianness raw L B0 B1) in H. discriminate H. }
  all: assert (B : raster_byte0 raw = 0 \/ raster_byte0 raw = 1) by auto;
    rewrite (wkbHeader_eval raw L B) in H;
    destruct ((raster_u16 raw 57 =? 0) || (raster_u16 raw 59 =? 0)) eqn:D;
      [discriminate H|];
    destruct (raster_u16 raw 3 =? 0) eqn:N; [discriminate H|];
    apply orb_false_iff in D; destruct D as [D1 D2];
    apply Z.eqb_neq in D1, D2, N; injection H as <-; auto 10.
Qed.

Lemma raster_u16_range (raw : bytes) (lo : Z) :
  0 <= lo -> lo + 2 <= len raw -> 0 <= raster_u16 raw lo <= 65535.
Proof.
  intros H0 H1. unfold raster_u16.
  pose proof (bytes_to_uint_range (raster_order raw) (slice lo (lo + 2) raw)) as R.
  rewrite slice_length in R by lia.
  replace (lo + 2 - lo) with 2 in R by lia. change (256 ^ 2) with 65536 in R. lia.
Qed.

Lemma raster_srid_word_range (raw : bytes) :
  57 <= len raw -> -2147483648 <= raster_srid_word raw <= 2147483647.
Proof.
  intros L. unfold raster_srid_word, to_signed.
  pose proof (bytes_to_uint_range (raster_order raw) (slice 53 57 raw)) as R.
  rewrite slice_length in R by lia.
  change (256 ^ (57 - 53)) with 4294967296 in R.
  change (2 ^ (32 - 1)) with 2147483648. change (2 ^ 32) with 4294967296.
  destruct (_ <? 2147483648) eqn:E; [apply Z.ltb_lt in E | apply Z.ltb_ge in E];
    lia.
Qed.

(** X13.  What [wkbHeader] returns.  A returned header comes from a
    buffer of at least 61 bytes whose first byte is 0 or 1; its integer
    fields are the words at the offsets 1, 3, 53, 57 and 59 read in the
    order byte 0 names; the band count, the width and the height lie in
    1..65535 and the SRID in the signed 32-bit range. *)
Theorem wkbHeader_fields (raw : bytes) (h : header) :
  wkbHeader raw = Ok h ->
  61 <= len raw
  /\ h = header_of raw
  /\ (h_endianness h = 0 \/ h_endianness h = 1)
  /\ 0 <= h_version h <= 65535
  /\ 1 <= h_nbands h <= 65535
  /\ 1 <= h_width h <= 65535
  /\ 1 <= h_height h <= 65535
  /\ -2147483648 <= h_srid h <= 2147483647.
Proof.
  intros H. destruct (wkbHeader_inv raw h H) as (L & B & -> & Dw & Dh & Dn).
  cbn [header_of h_endianness h_version h_nbands h_width h_height h_srid].
  pose proof (raster_u16_range raw 1 ltac:(lia) ltac:(lia)).
  pose proof (raster_u16_range raw 3 ltac:(lia) ltac:(lia)).
  pose proof (raster_u16_range raw 57 ltac:(lia) ltac:(lia)).
  pose proof (raster_u16_range raw 59 ltac:(lia) ltac:(lia)).
  pose proof (raster_srid_word_range raw ltac:(lia)).
  repeat split; try assumption; lia.
Qed.

Lemma wkbHeader_fields_witness :
  61 <= len raster_bytes
  /\ raster_header = header_of raster_bytes
  /\ (h_endianness raster_header = 0 \/ h_endianness raster_header = 1)
  /\ 0 <= h_version raster_header <= 65535
  /\ 1 <= h_nbands raster_header <= 65535
  /\ 1 <= h_width raster_header <= 65535
  /\ 1 <= h_height raster_header <= 65535
  /\ -2147483648 <= h_srid raster_header <= 2147483647.
Proof.
  apply (wkbHeader_fields raster_bytes raster_header). reflexivity.
Defined.

(** X14.  When [wkbHeader] refuses and when it accepts.  In this order: a
    buffer shorter than 61 bytes, a first byte other than 0 or 1 (reported
    as a signed byte), a zero width or height, and a zero band count each
    raise their own [ValueError]; every other buffer is accepted. *)
Theorem wkbHeader_decides (raw : bytes) :
  (len raw < 61 ->
   wkbHeader raw
   = Raise (ValueError (lit "Raster data too short: " ++ str_of_int (len raw)
                          ++ lit " bytes, need at least 61")))
  /\ (61 <= len raw -> raster_byte0 raw <> 0 -> raster_byte0 raw <> 1 ->
      wkbHeader raw
      = Raise (ValueError (lit "Invalid endianness value: "
                             ++ str_of_int (to_signed 8 (raster_byte0 raw))
                             ++ lit ", must be 0 or 1")))
  /\ (61 <= len raw -> raster_byte0 raw = 0 \/ raster_byte0 raw = 1 ->
      (raster_u16 raw 57 = 0 \/ raster_u16 raw 59 = 0 ->
       wkbHeader raw
       = Raise (invalid_dimensions (raster_u16 raw 57) (raster_u16 raw 59)))
      /\ (raster_u16 raw 57 <> 0 -> raster_u16 raw 59 <> 0 ->
          raster_u16 raw 3 = 0 ->
          wkbHeader raw
          = Raise (ValueError (lit "Raster must have at least one band")))
      /\ (raster_u16 raw 57 <> 0 -> raster_u16 raw 59 <> 0 ->
          raster_u16 raw 3 <> 0 ->
          wkbHeader raw = Ok (header_of raw))).
Proof.
  split; [apply wkbHeader_short|]. split; [apply wkbHeader_bad_endianness|].
  intros L B. rewrite (wkbHeader_eval raw L B). split; [|split].
  - intros D.
    replace ((raster_u16 raw 57 =? 0) || (raster_u16 raw 59 =? 0)) with true;
      [reflexivity|].
    symmetry. apply orb_true_iff. destruct D as [D|D]; [left|right];
      now apply Z.eqb_eq.
  - intros Dw Dh Dn. apply Z.eqb_neq in Dw, Dh. apply Z.eqb_eq in Dn.
    now rewrite Dw, Dh, Dn.
  - intros Dw Dh Dn. apply Z.eqb_neq in Dw, Dh, Dn. now rewrite Dw, Dh, Dn.
Qed.

Lemma wkbHeader_decides_witness :
  wkbHeader (firstn 60 raster_bytes)
  = Raise (ValueError (lit "Raster data too short: 60 bytes, need at least 61"))
  /\ wkbHeader (x02 :: skipn 1 raster_bytes)
     = Raise (ValueError (lit "Invalid endianness value: 2, must be 0 or 1"))
  /\ wkbHeader (firstn 57 raster_bytes ++ x00 :: x00 :: skipn 59 raster_bytes)
     = Raise (ValueError (lit "Invalid dimensions: width=0, height=3"))
  /\ wkbHeader (firstn 3 raster_bytes ++ x00 :: x00 :: skipn 5 raster_bytes)
     = Raise (ValueError (lit "Raster must have at least one band"))
  /\ wkbHeader raster_bytes = Ok raster_header.
Proof.
  split; [|split; [|split; [|split]]].
  - destruct (wkbHeader_decides (firstn 60 raster_bytes)) as (A & _).
    apply A. reflexivity.
  - destruct (wkbHeader_decides (x02 :: skipn 1 raster_bytes)) as (_ & A & _).
    apply A; [vm_compute | vm_compute | vm_compute]; discriminate.
  - destruct (wkbHeader_decides
                (firstn 57 raster_bytes ++ x00 :: x00 :: skipn 59 raster_bytes))
      as (_ & _ & A).
    destruct A as (A & _); [vm_compute; discriminate | right; reflexivity|].
    apply A. left. reflexivity.
  - destruct (wkbHeader_decides
                (firstn 3 raster_bytes ++ x00 :: x00 :: skipn 5 raster_bytes))
      as (_ & _ & A).
    destruct A as (_ & A & _); [vm_compute; discriminate | right; reflexivity|].
    apply A; [vm_compute; discriminate | vm_compute; discriminate | reflexivity].
  - destruct (wkbHeader_decides raster_bytes) as (_ & _ & A).
    destruct A as (_ & _ & A); [vm_compute; discriminate | right; reflexivity|].
    apply A; vm_compute; discriminate.
Defined.

End HeaderDecoding.

Section BandDecoding.

Lemma slice_slice (A : Type) (lo hi a b : Z) (l : list A) :
  0 <= lo -> 0 <= a -> a <= b -> lo + b <= hi ->
  slice a b (slice lo hi l) = slice (lo + a) (lo + b) l.
Proof.
  intros Hlo Ha Hab Hb. unfold slice.
  rewrite skipn_firstn_comm, skipn_skipn, firstn_firstn.
  replace (Z.to_nat a + Z.to_nat lo)%nat with (Z.to_nat (lo + a)) by lia.
  replace (Nat.min (Z.to_nat (b - a)) (Z.to_nat (hi - lo) - Z.to_nat a))
    with (Z.to_nat (lo + b - (lo + a))) by lia.
  reflexivity.
Qed.

Lemma mapM_map (A B : Type) (f : A -> result B) (g : A -> B) (l : list A) :
  (forall x, In x l -> f x = Ok (g x)) -> mapM f l = Ok (map g l).
Proof.
  induction l as [|x r IH]; intros H; [reflexivity|].
  cbn [mapM map]. rewrite (H x (or_introl eq_refl)). cbn [bind].
  rewrite IH by (intros z Hz; apply H; now right). reflexivity.
Qed.

Lemma nth_range (B : Type) (g : Z -> B) (d : B) (n i : Z) :
  0 <= i < n -> nth (Z.to_nat i) (map g (range n)) d = g i.
Proof.
  intros Hi. unfold range. rewrite map_map.
  rewrite (nth_indep _ d ((fun x => g (Z.of_nat x)) 0%nat))
    by (rewrite length_map, length_seq; lia).
  rewrite (map_nth (fun x => g (Z.of_nat x))).
  rewrite seq_nth by lia. cbn [Nat.add]. f_equal. lia.
Qed.

Lemma unpack_value_fits (o : order) (c : format_char) (bs : bytes) :
  len bs = calcsize c -> sample_fits c (unpack_value o c bs).
Proof.
  intros L. pose proof (bytes_to_uint_range o bs) as R. rewrite L in R.
  unfold unpack_value. set (u := bytes_to_uint o bs) in *. clearbody u.
  destruct c; cbn [calcsize] in R; cbv beta iota zeta delta [sample_fits];
    try exact I; unfold to_signed;
    try (change (256 ^ 1) with 256 in R);
    try (change (256 ^ 2) with 65536 in R);
    try (change (256 ^ 4) with 4294967296 in R);
    try (change (256 ^ 8) with 18446744073709551616 in R);
    try (change (2 ^ (8 - 1)) with 128; change (2 ^ 8) with 256);
    try (change (2 ^ (16 - 1)) with 32768; change (2 ^ 16) with 65536);
    try (change (2 ^ (32 - 1)) with 2147483648);
    try (change (2 ^ 32) with 4294967296);
    try (change (2 ^ 64) with 18446744073709551616);
    try match goal with
        | |- context [?a <? ?b] =>
            destruct (Z.ltb_spec a b)
        end;
    lia.
Qed.

Lemma pixel_bounds (offset W H psize i j : Z) :
  0 <= offset -> 1 <= psize -> 0 <= i < H -> 0 <= j < W ->
  0 <= (i * W + j) * psize
  /\ (i * W + j) * psize <= (i * W + j + 1) * psize
  /\ (i * W + j + 1) * psize <= W * H * psize.
Proof.
  intros Ho Hp Hi Hj.
  assert (K : 0 <= i * W + j /\ i * W + j + 1 <= W * H) by nia.
  set (k := i * W + j) in *. repeat split.
  - apply Z.mul_nonneg_nonneg; lia.
  - apply Z.mul_le_mono_nonneg_r; lia.
  - apply Z.mul_le_mono_nonneg_r; lia.
Qed.

Lemma pixel_slice_length (data : bytes) (offset W H psize i j : Z) :
  0 <= offset -> 1 <= psize -> 0 <= i < H -> 0 <= j < W ->
  offset + 1 + W * H * psize <= len data ->
  len (slice (offset + 1 + (i * W + j) * psize)
         (offset + 1 + (i * W + j + 1) * psize) data) = psize.
Proof.
  intros Ho Hp Hi Hj L.
  destruct (pixel_bounds offset W H psize i j Ho Hp Hi Hj) as (B0 & B1 & B2).
  rewrite slice_length by lia. ring.
Qed.

Lemma read_band_eval (data : bytes) (offset t H W e : Z) (c : format_char)
    (psize : Z) :
  _PTYPE t = Some (c, psize) -> e = 0 \/ e = 1 ->
  0 <= offset -> 0 <= W -> 0 <= H ->
  offset + 1 + W * H * psize <= len data ->
  read_band data offset t H W e
  = Ok (band_at data offset H W psize (order_of e) c).
Proof.
  intros HT He Ho HW HH L.
  destruct (PTYPE_size _ _ _ HT) as (Hc & Hp).
  unfold read_band. rewrite HT.
  replace (len data <? offset + 1 + W * H * psize) with false
    by (symmetry; apply Z.ltb_ge; lia).
  cbv zeta.
  rewrite (mapM_map Z (list sample) _
             (fun i => map (fun j => pixel_at data offset W psize (order_of e) c i j)
                         (range W))).
  - reflexivity.
  - intros i Hi. apply range_spec in Hi.
    apply mapM_map. intros j Hj. apply range_spec in Hj.
    destruct (pixel_bounds offset W H psize i j Ho Hp Hi Hj) as (B0 & B1 & B2).
    rewrite slice_slice by lia.
    change (unpack_field e c
              (slice (offset + 1 + (i * W + j) * psize)
                 (offset + 1 + (i * W + j + 1) * psize) data)
            = Ok (pixel_at data offset W psize (order_of e) c i j)).
    rewrite unpack_field_Ok; [reflexivity | exact He |].
    rewrite (pixel_slice_length data offset W H psize i j) by assumption.
    now rewrite Hc.
Qed.

Lemma read_band_inv (data : bytes) (offset t H W e : Z) (b : band) :
  read_band data offset t H W e = Ok b ->
  exists c psize,
    _PTYPE t = Some (c, psize) /\ offset + 1 + W * H * psize <= len data.
Proof.
  unfold read_band. destruct (_PTYPE t) as [[c psize]|]; [|discriminate].
  cbv zeta. destruct (len data <? offset + 1 + W * H * psize) eqn:L;
    [discriminate|].
  intros _. apply Z.ltb_ge in L. eauto.
Qed.

Lemma band_at_shape (data : bytes) (offset H W psize : Z) (o : order)
    (c : format_char) :
  0 <= H -> 0 <= W -> band_shape H W (band_at data offset H W psize o c).
Proof.
  intros HH HW. unfold band_shape, band_at. split.
  - unfold len. rewrite length_map. now apply range_length.
  - apply Forall_forall. intros row Hr. apply in_map_iff in Hr.
    destruct Hr as (i & <- & _). unfold len. rewrite length_map.
    now apply range_length.
Qed.

Lemma band_at_nth (data : bytes) (offset H W psize : Z) (o : order)
    (c : format_char) (i j : Z) :
  0 <= i < H -> 0 <= j < W ->
  nth (Z.to_nat j) (nth (Z.to_nat i) (band_at data offset H W psize o c) [])
    (SInt 0)
  = pixel_at data offset W psize o c i j.
Proof.
  intros Hi Hj. unfold band_at.
  rewrite (nth_range _ (fun i => map (fun j => pixel_at data offset W psize o c i j)
                                   (range W)) [] H i Hi).
  apply (nth_range _ (fun j => pixel_at data offset W psize o c i j)); exact Hj.
Qed.

(** X15.  [read_band] reads the samples row by row.  For a supported pixel
    type and enough data, the band it returns has [H] rows of [W] samples;
    the sample of row [i] and column [j] is decoded, in the byte order the
    flag selects, from the [psize] bytes at [offset + 1 + (i*W + j) * psize]
    of the data, and lies in the range of its format. *)
Theorem read_band_row_major (data : bytes) (offset t H W e : Z)
    (c : format_char) (psize : Z) :
  _PTYPE t = Some (c, psize) -> e = 0 \/ e = 1 ->
  0 <= offset -> 0 <= W -> 0 <= H ->
  offset + 1 + W * H * psize <= len data ->
  exists b,
    read_band data offset t H W e = Ok b
    /\ band_shape H W b
    /\ forall i j, 0 <= i < H -> 0 <= j < W ->
         nth (Z.to_nat j) (nth (Z.to_nat i) b []) (SInt 0)
         = pixel_at data offset W psize (order_of e) c i j
         /\ len (slice (offset + 1 + (i * W + j) * psize)
                   (offset + 1 + (i * W + j + 1) * psize) data) = psize
         /\ sample_fits c (pixel_at data offset W psize (order_of e) c i j).
Proof.
  intros HT He Ho HW HH L.
  destruct (PTYPE_size _ _ _ HT) as (Hc & Hp).
  exists (band_at data offset H W psize (order_of e) c).
  split; [now apply read_band_eval|]. split; [now apply band_at_shape|].
  intros i j Hi Hj.
  pose proof (pixel_slice_length data offset W H psize i j Ho Hp Hi Hj L) as Ls.
  split; [now apply band_at_nth|]. split; [exact Ls|].
  unfold pixel_at. apply unpack_value_fits. now rewrite Ls, Hc.
Qed.

Lemma read_band_row_major_witness :
  exists b,
    read_band raster_bytes 61 5 3 2 1 = Ok b
    /\ band_shape 3 2 b
    /\ forall i j, 0 <= i < 3 -> 0 <= j < 2 ->
         nth (Z.to_nat j) (nth (Z.to_nat i) b []) (SInt 0)
         = pixel_at raster_bytes 61 2 2 (order_of 1) fmt_h i j
         /\ len (slice (61 + 1 + (i * 2 + j) * 2)
                   (61 + 1 + (i * 2 + j + 1) * 2) raster_bytes) = 2
         /\ sample_fits fmt_h (pixel_at raster_bytes 61 2 2 (order_of 1) fmt_h i j).
Proof.
  refine (read_band_row_major raster_bytes 61 5 3 2 1 fmt_h 2 eq_refl
            (or_intror eq_refl) _ _ _ _).
  - lia.
  - lia.
  - lia.
  - vm_compute. discriminate.
Defined.

End BandDecoding.

Section BandLoop.

Lemma wkbHeader_dimensions (raw : bytes) (h : header) :
  wkbHeader raw = Ok h ->
  61 <= len raw /\ (h_endianness h = 0 \/ h_endianness h = 1)
  /\ 1 <= h_nbands h /\ 1 <= h_width h /\ 1 <= h_height h.
Proof.
  intros Hh. destruct (wkbHeader_inv raw h Hh) as (L & B & -> & Dw & Dh & Dn).
  cbn [header_of h_endianness h_nbands h_width h_height].
  pose proof (raster_u16_range raw 3 ltac:(lia) ltac:(lia)).
  pose proof (raster_u16_range raw 57 ltac:(lia) ltac:(lia)).
  pose proof (raster_u16_range raw 59 ltac:(lia) ltac:(lia)).
  repeat split; try assumption; lia.
Qed.

Lemma wkbImage_bands_inv (raw : bytes) (h : header) :
  h_endianness h = 0 \/ h_endianness h = 1 ->
  1 <= h_width h -> 1 <= h_height h ->
  forall (indices : list Z) (img : list band) (offset : Z)
         (img' : list band) (offset' : Z),
    0 <= offset <= len raw ->
    wkbImage_bands raw h indices img offset = Ok (img', offset') ->
    exists bands,
      img' = img ++ bands /\ length bands = length indices
      /\ Forall (band_shape (h_height h) (h_width h)) bands
      /\ offset + Z.of_nat (length indices) * (1 + h_width h * h_height h)
         <= offset' <= len raw.
Proof.
  intros He HW HH. induction indices as [|i rest IH];
    intros img offset img' offset' Ho R.
  - cbn [wkbImage_bands] in R. injection R as <- <-. exists [].
    rewrite app_nil_r. repeat split; cbn [length]; try constructor; lia.
  - destruct (Z_lt_le_dec (offset + 1) (len raw)) as [L|L].
    2: { rewrite wkbImage_bands_no_header in R by lia. discriminate R. }
    rewrite (wkbImage_bands_cons raw h i rest img offset He ltac:(lia) L) in R.
    destruct (_PTYPE (pixtype_at raw offset)) as [[c psize]|] eqn:HP;
      [|discriminate R].
    destruct (read_band raw offset (pixtype_at raw offset) (h_height h)
                (h_width h) (h_endianness h)) as [b|e'] eqn:RB.
    2: { destruct (is_ValueError e'); discriminate R. }
    destruct (read_band_inv _ _ _ _ _ _ _ RB) as (c' & psize' & HP' & Lb).
    rewrite HP in HP'. injection HP' as <- <-.
    destruct (PTYPE_size _ _ _ HP) as (_ & Hp).
    rewrite (read_band_eval raw offset _ _ _ _ c psize HP He) in RB
      by lia.
    injection RB as <-.
    assert (M : h_width h * h_height h <= h_width h * h_height h * psize) by nia.
    apply IH in R; [|nia].
    destruct R as (bands & -> & Lb' & F & Hoff).
    exists (band_at raw offset (h_height h) (h_width h) psize
              (order_of (h_endianness h)) c :: bands).
    rewrite <- app_assoc. split; [reflexivity|].
    split; [cbn [length]; lia|].
    split; [constructor; [apply band_at_shape; lia | exact F]|].
    cbn [length]. rewrite Nat2Z.inj_succ. nia.
Qed.

Lemma range_succ (n : nat) :
  range (Z.of_nat (S n)) = 0 :: map (fun k => k + 1) (range (Z.of_nat n)).
Proof.
  unfold range. rewrite !Nat2Z.id. cbn [seq map]. f_equal.
  rewrite <- seq_shift, !map_map. apply map_ext. intros k. lia.
Qed.

Lemma wkbImage_bands_uniform (raw : bytes) (h : header) (T : Z)
    (c : format_char) (psize : Z) :
  h_endianness h = 0 \/ h_endianness h = 1 ->
  1 <= h_width h -> 1 <= h_height h -> _PTYPE T = Some (c, psize) ->
  forall (n a : nat) (img : list band) (offset : Z),
    0 <= offset ->
    (forall k, 0 <= k < Z.of_nat n ->
       pixtype_at raw (offset + k * (1 + h_width h * h_height h * psize)) = T) ->
    offset + Z.of_nat n * (1 + h_width h * h_height h * psize) <= len raw ->
    wkbImage_bands raw h (map Z.of_nat (seq a n)) img offset
    = Ok (img ++ map (fun k =>
                        band_at raw
                          (offset + k * (1 + h_width h * h_height h * psize))
                          (h_height h) (h_width h) psize
                          (order_of (h_endianness h)) c)
                   (range (Z.of_nat n)),
          offset + Z.of_nat n * (1 + h_width h * h_height h * psize)).
Proof.
  intros He HW HH HP. destruct (PTYPE_size _ _ _ HP) as (_ & Hp).
  set (step := 1 + h_width h * h_height h * psize).
  assert (HS : 2 <= step) by (unfold step; nia).
  induction n as [|n IH]; intros a img offset Ho HT L.
  - cbn [seq map wkbImage_bands]. change (range (Z.of_nat 0)) with (@nil Z).
    cbn [map]. rewrite app_nil_r. f_equal. f_equal. cbn. lia.
  - rewrite Nat2Z.inj_succ in L.
    cbn [seq map].
    rewrite (wkbImage_bands_cons raw h _ _ img offset He Ho) by nia.
    pose proof (HT 0 ltac:(lia)) as T0.
    replace (offset + 0 * step) with offset in T0 by lia.
    rewrite T0, HP.
    rewrite (read_band_eval raw offset T _ _ _ c psize HP He)
      by (fold step; nia).
    replace (offset + 1 + h_width h * h_height h * psize) with (offset + step)
      by (unfold step; lia).
    rewrite (IH (S a) _ (offset + step)); [|lia| |nia].
    + rewrite range_succ. cbn [map]. rewrite map_map, <- app_assoc.
      cbn [app].
      replace (offset + 0 * step) with offset by lia.
      replace (offset + Z.of_nat (S n) * step)
        with (offset + step + Z.of_nat n * step) by lia.
      symmetry. erewrite map_ext; [reflexivity|].
      intros k. cbv beta.
      replace (offset + (k + 1) * step) with (offset + step + k * step) by lia.
      reflexivity.
    + intros k Hk. rewrite <- (HT (k + 1)) by lia. f_equal. lia.
Qed.

(** X16.  What a successful [wkbImage] guarantees.  It returns as many
    bands as the header declares, each of [height] rows of [width] samples;
    the offset after the last band lies within the data and is at least
    61 plus, for every band, one byte and one byte per sample. *)
Theorem wkbImage_result_shape (raster_data : payload) (img : list band)
    (offset : Z) :
  wkbImage_run raster_data = Ok (img, offset) ->
  exists raw h,
    wkbImage_raw raster_data = Ok raw
    /\ wkbHeader raw = Ok h
    /\ wkbImage raster_data = Ok img
    /\ len img = h_nbands h
    /\ Forall (band_shape (h_height h) (h_width h)) img
    /\ 61 + h_nbands h * (1 + h_width h * h_height h) <= offset <= len raw.
Proof.
  intros R. assert (R' := R). unfold wkbImage_run in R.
  destruct (wkbImage_raw raster_data) as [raw|e1]; [|discriminate R].
  cbn [bind] in R.
  destruct (wkbHeader raw) as [h|e2] eqn:Hh; [|discriminate R].
  cbn [bind] in R.
  destruct (wkbHeader_dimensions raw h Hh) as (L & He & Hn & HW & HH).
  destruct (wkbImage_bands_inv raw h He HW HH (range (h_nbands h)) [] 61
              img offset ltac:(lia) R)
    as (bands & E & Lb & F & Ho).
  cbn [app] in E. subst bands.
  exists raw, h. split; [reflexivity|]. split; [exact Hh|].
  split; [unfold wkbImage; now rewrite R'|].
  assert (Ln : Z.of_nat (length (range (h_nbands h))) = h_nbands h)
    by (apply range_length; lia).
  split; [unfold len; lia|]. split; [exact F|].
  rewrite Ln in Ho. lia.
Qed.

Lemma wkbImage_result_shape_witness :
  exists raw h,
    wkbImage_raw (PStr raster2_hex) = Ok raw
    /\ wkbHeader raw = Ok h
    /\ wkbImage (PStr raster2_hex) = Ok raster2_bands
    /\ len raster2_bands = h_nbands h
    /\ Forall (band_shape (h_height h) (h_width h)) raster2_bands
    /\ 61 + h_nbands h * (1 + h_width h * h_height h) <= 87 <= len raw.
Proof.
  apply (wkbImage_result_shape (PStr raster2_hex) raster2_bands 87).
  reflexivity.
Defined.

(** X17.  Rasters whose bands share one pixel type.  If every band's
    metadata byte declares the supported pixel type [T] of sample size
    [psize] and the data holds all the bands, [wkbImage] returns the bands
    in order, band [k] being read at [61 + k * (1 + W*H*psize)], and the
    final offset is [61 + nbands * (1 + W*H*psize)]. *)
Theorem wkbImage_uniform_bands (raster_data : payload) (raw : bytes)
    (h : header) (T : Z) (c : format_char) (psize : Z) :
  wkbImage_raw raster_data = Ok raw ->
  wkbHeader raw = Ok h ->
  _PTYPE T = Some (c, psize) ->
  (forall k, 0 <= k < h_nbands h ->
     pixtype_at raw (61 + k * (1 + h_width h * h_height h * psize)) = T) ->
  61 + h_nbands h * (1 + h_width h * h_height h * psize) <= len raw ->
  let bands :=
    map (fun k => band_at raw (61 + k * (1 + h_width h * h_height h * psize))
                    (h_height h) (h_width h) psize
                    (order_of (h_endianness h)) c)
      (range (h_nbands h)) in
  wkbImage_run raster_data
  = Ok (bands, 61 + h_nbands h * (1 + h_width h * h_height h * psize))
  /\ wkbImage raster_data = Ok bands
  /\ len bands = h_nbands h
  /\ Forall (band_shape (h_height h) (h_width h)) bands.
Proof.
  intros Hraw Hh HP HT L bands.
  destruct (wkbHeader_dimensions raw h Hh) as (_ & He & Hn & HW & HH).
  assert (N : Z.of_nat (Z.to_nat (h_nbands h)) = h_nbands h) by lia.
  assert (Erun : wkbImage_run raster_data
                 = Ok (bands, 61 + h_nbands h
                                   * (1 + h_width h * h_height h * psize))).
  { unfold wkbImage_run. rewrite Hraw. cbn [bind]. rewrite Hh. cbn [bind].
    unfold range at 1.
    rewrite (wkbImage_bands_uniform raw h T c psize He HW HH HP
               (Z.to_nat (h_nbands h)) 0 [] 61 ltac:(lia)).
    - rewrite N. reflexivity.
    - intros k Hk. apply HT. lia.
    - rewrite N. exact L. }
  split; [exact Erun|]. split; [unfold wkbImage; now rewrite Erun|].
  split.
  - unfold bands, len. rewrite length_map. apply range_length. lia.
  - apply Forall_forall. intros b Hb. unfold bands in Hb.
    apply in_map_iff in Hb. destruct Hb as (k & <- & _).
    apply band_at_shape; lia.
Qed.

Lemma wkbImage_uniform_bands_witness :
  let bands :=
    map (fun k => band_at raster2_bytes (61 + k * (1 + 2 * 3 * 2)) 3 2 2
                    (order_of 1) fmt_h)
      (range 2) in
  wkbImage_run (PBuf Bytes raster2_bytes) = Ok (bands, 61 + 2 * (1 + 2 * 3 * 2))
  /\ wkbImage (PBuf Bytes raster2_bytes) = Ok bands
  /\ len bands = 2
  /\ Forall (band_shape 3 2) bands.
Proof.
  refine (wkbImage_uniform_bands (PBuf Bytes raster2_bytes) raster2_bytes
            raster2_header 5 fmt_h 2 eq_refl eq_refl eq_refl _ _).
  - intros k Hk. cbn [h_nbands h_width h_height raster2_header] in *.
    assert (K : k = 0 \/ k = 1) by lia. destruct K as [-> | ->]; reflexivity.
  - vm_compute. discriminate.
Defined.

End BandLoop.

Section HeaderReaders.

(** X18.  A header that [wkbHeader] decodes is one that [RasterElement]
    accepts: the element built from the same bytes has the SRID of the
    decoded header, the hex text of the bytes as data, and is extended;
    decoding that data gives what decoding the bytes gives. *)
Theorem wkbHeader_accepted_by_RasterElement (k : buffer_kind) (raw : bytes)
    (h : header) :
  wkbHeader raw = Ok h ->
  RasterElement (PBuf k raw)
  = Ok (mkSpatialElement (h_srid h) (hexlify raw) (Some true))
  /\ RasterElement (PStr (hexlify raw))
     = Ok (mkSpatialElement (h_srid h) (hexlify raw) (Some true))
  /\ wkbImage (PStr (hexlify raw)) = wkbImage (PBuf k raw).
Proof.
  intros Hh. destruct (wkbHeader_inv raw h Hh) as (L & B & -> & _).
  cbn [header_of h_srid].
  pose proof (RasterElement_buf_Ok k raw L B) as Eb.
  split; [exact Eb|]. split.
  - assert (U : unhexlify (slice_to 122 (hexlify raw)) = Ok (firstn 61 raw)).
    { exact (unhexlify_firstn 61 (hexlify raw) raw (unhexlify_hexlify raw)). }
    assert (Lf : len (firstn 61 raw) = 61)
      by (unfold len in *; rewrite length_firstn; lia).
    rewrite (RasterElement_str_Ok (hexlify raw) (firstn 61 raw)).
    + rewrite (raster_srid_word_firstn 61 raw) by lia. reflexivity.
    + pose proof (unhexlify_length _ _ (unhexlify_hexlify raw)). lia.
    + exact U.
    + rewrite (raster_byte0_firstn 61 raw) by lia. exact B.
  - unfold wkbImage, wkbImage_run, wkbImage_raw.
    now rewrite unhexlify_hexlify.
Qed.

Lemma wkbHeader_accepted_by_RasterElement_witness :
  RasterElement (PBuf Bytes raster_bytes)
  = Ok (mkSpatialElement (h_srid raster_header) (hexlify raster_bytes)
          (Some true))
  /\ RasterElement (PStr (hexlify raster_bytes))
     = Ok (mkSpatialElement (h_srid raster_header) (hexlify raster_bytes)
             (Some true))
  /\ wkbImage (PStr (hexlify raster_bytes)) = wkbImage (PBuf Bytes raster_bytes).
Proof.
  apply (wkbHeader_accepted_by_RasterElement Bytes raster_bytes raster_header).
  reflexivity.
Defined.

(** X19.  What [RasterElement] accepts and [wkbHeader] refuses.  For a
    buffer that [RasterElement] accepts, [wkbHeader] either decodes a header
    with the element's SRID, or refuses it for a zero width or height, or
    for a zero band count: the constructor checks none of the three. *)
Theorem RasterElement_then_wkbHeader (k : buffer_kind) (raw : bytes)
    (e : SpatialElement str) :
  RasterElement (PBuf k raw) = Ok e ->
  (raster_u16 raw 57 <> 0 /\ raster_u16 raw 59 <> 0 /\ raster_u16 raw 3 <> 0
   /\ wkbHeader raw = Ok (header_of raw) /\ h_srid (header_of raw) = srid e)
  \/ ((raster_u16 raw 57 = 0 \/ raster_u16 raw 59 = 0)
      /\ wkbHeader raw
         = Raise (invalid_dimensions (raster_u16 raw 57) (raster_u16 raw 59)))
  \/ (raster_u16 raw 57 <> 0 /\ raster_u16 raw 59 <> 0 /\ raster_u16 raw 3 = 0
      /\ wkbHeader raw
         = Raise (ValueError (lit "Raster must have at least one band"))).
Proof.
  intros R. destruct (RasterElement_buf_inv k raw e R) as (L & B).
  rewrite (RasterElement_buf_Ok k raw L B) in R. injection R as <-.
  rewrite (wkbHeader_eval raw L B).
  destruct (raster_u16 raw 57 =? 0) eqn:Dw;
    [apply Z.eqb_eq in Dw; right; left; split; [now left | reflexivity]|].
  destruct (raster_u16 raw 59 =? 0) eqn:Dh;
    [apply Z.eqb_eq in Dh; right; left; split; [now right | reflexivity]|].
  apply Z.eqb_neq in Dw, Dh. cbn [orb].
  destruct (raster_u16 raw 3 =? 0) eqn:Dn.
  - apply Z.eqb_eq in Dn. right. right. auto.
  - apply Z.eqb_neq in Dn. left. repeat split; assumption.
Qed.

Lemma RasterElement_then_wkbHeader_witness :
  (raster_u16 raster_bytes 57 <> 0 /\ raster_u16 raster_bytes 59 <> 0
   /\ raster_u16 raster_bytes 3 <> 0
   /\ wkbHeader raster_bytes = Ok (header_of raster_bytes)
   /\ h_srid (header_of raster_bytes) = 4326)
  \/ ((raster_u16 raster_bytes 57 = 0 \/ raster_u16 raster_bytes 59 = 0)
      /\ wkbHeader raster_bytes
         = Raise (invalid_dimensions (raster_u16 raster_bytes 57)
                    (raster_u16 raster_bytes 59)))
  \/ (raster_u16 raster_bytes 57 <> 0 /\ raster_u16 raster_bytes 59 <> 0
      /\ raster_u16 raster_bytes 3 = 0
      /\ wkbHeader raster_bytes
         = Raise (ValueError (lit "Raster must have at least one band"))).
Proof.
  apply (RasterElement_then_wkbHeader Bytes raster_bytes
           (mkSpatialElement 4326 (hexlify raster_bytes) (Some true))).
  reflexivity.
Defined.

End HeaderReaders.

Section DecoderExceptions.

Lemma wkbImage_raw_raises (raster_data : payload) (e : exn) :
  wkbImage_raw raster_data = Raise e -> exists m, e = ValueError m.
Proof.
  destruct raster_data as [s|k b]; [|discriminate].
  unfold wkbImage_raw, unhexlify.
  destruct (existsb (fun c => 128 <=? ord c) s);
    [intros H; injection H as <-; eauto|].
  destruct (Nat.odd (length s)); [intros H; injection H as <-; eauto|].
  destruct (unhex_pairs s); [discriminate|].
  intros H; injection H as <-; eauto.
Qed.

Lemma wkbHeader_raises (raw : bytes) (e : exn) :
  wkbHeader raw = Raise e -> exists m, e = ValueError m.
Proof.
  intros R. destruct (Z_lt_le_dec (len raw) 61) as [L|L].
  { rewrite (wkbHeader_short raw L) in R. injection R as <-. eauto. }
  destruct (Z.eq_dec (raster_byte0 raw) 0) as [B0|B0];
    [|destruct (Z.eq_dec (raster_byte0 raw) 1) as [B1|B1]].
  3: { rewrite (wkbHeader_bad_endianness raw L B0 B1) in R.
       injection R as <-. eauto. }
  all: assert (B : raster_byte0 raw = 0 \/ raster_byte0 raw = 1) by auto;
    rewrite (wkbHeader_eval raw L B) in R;
    destruct ((raster_u16 raw 57 =? 0) || (raster_u16 raw 59 =? 0));
      [injection R as <-; unfold invalid_dimensions; eauto|];
    destruct (raster_u16 raw 3 =? 0); [injection R as <-; eauto|];
    discriminate R.
Qed.

Lemma wkbImage_bands_raises (raw : bytes) (h : header) :
  h_endianness h = 0 \/ h_endianness h = 1 ->
  1 <= h_width h -> 1 <= h_height h ->
  forall (indices : list Z) (img : list band) (offset : Z) (e : exn),
    0 <= offset ->
    wkbImage_bands raw h indices img offset = Raise e ->
    exists m, e = ValueError m.
Proof.
  intros He HW HH. induction indices as [|i rest IH];
    intros img offset e Ho R; [discriminate R|].
  destruct (Z_lt_le_dec (offset + 1) (len raw)) as [L|L].
  2: { rewrite wkbImage_bands_no_header in R by lia.
       injection R as <-. eauto. }
  rewrite (wkbImage_bands_cons raw h i rest img offset He Ho L) in R.
  destruct (_PTYPE (pixtype_at raw offset)) as [[c psize]|] eqn:HP;
    [|injection R as <-; eauto].
  destruct (PTYPE_size _ _ _ HP) as (_ & Hp).
  destruct (Z_lt_le_dec (len raw)
              (offset + 1 + h_width h * h_height h * psize)) as [Ls|Ls].
  - rewrite (read_band_short raw offset _ _ _ _ c psize HP Ls) in R.
    cbn [is_ValueError] in R. injection R as <-. eauto.
  - rewrite (read_band_eval raw offset _ _ _ _ c psize HP He) in R by lia.
    apply IH in R; [exact R | nia].
Qed.

(** X20.  [wkbImage] raises nothing but [ValueError]: the errors of
    [binascii] and [struct] are all converted on the way. *)
Theorem wkbImage_raises_only_ValueError (raster_data : payload) (e : exn) :
  wkbImage raster_data = Raise e -> exists m, e = ValueError m.
Proof.
  unfold wkbImage, wkbImage_run. intros R.
  destruct (wkbImage_raw raster_data) as [raw|e1] eqn:Hraw.
  2: { cbn [bind] in R. injection R as <-.
       exact (wkbImage_raw_raises _ _ Hraw). }
  cbn [bind] in R.
  destruct (wkbHeader raw) as [h|e2] eqn:Hh.
  2: { cbn [bind] in R. injection R as <-. exact (wkbHeader_raises _ _ Hh). }
  cbn [bind] in R.
  destruct (wkbHeader_dimensions raw h Hh) as (_ & He & _ & HW & HH).
  destruct (wkbImage_bands raw h (range (h_nbands h)) [] 61)
    as [r|e3] eqn:Hb; [discriminate R|].
  cbn [bind] in R. injection R as <-.
  exact (wkbImage_bands_raises raw h He HW HH (range (h_nbands h)) [] 61 e3
           ltac:(lia) Hb).
Qed.

Lemma wkbImage_raises_only_ValueError_witness :
  exists m,
    ValueError (lit "Invalid pixel type 9 (band type 73) for band 1")
    = ValueError m.
Proof.
  apply (wkbImage_raises_only_ValueError (PBuf Bytes raster_type9_bytes)).
  reflexivity.
Defined.

End DecoderExceptions.
